(** * TFA Dostmann 30.3215.02 decoder: a shallow embedding of [tfa.h],
    [tfa.c] and the packet path of [main.c], with the properties of the
    pulse classifier, packet framer, reconciler, field parser and channel
    slots.

    Integers of the C code are [Z] with the wrap-around of their C type
    written out ([uint8], [uint16], [sint8]); arrays are lists updated in
    place with stdpp's [alter] and [insert]; the statics of the interrupt
    handler, the [TTFA] object behind [p_tfa] and the LED port form one
    explicit state record that the handler maps to its successor. *)

From Stdlib Require Import String Ascii.
From Stdlib Require Import ZArith QArith Qabs Bool List Lia.
From Stdlib Require Import SpecFloat.
From Stdlib Require DecimalString.
From stdpp Require Import base list.
Import ListNotations.

#[local] Open Scope Z_scope.

(** ** Machine integers *)

Definition uint8 (z : Z) : Z := z mod 256.
Definition uint16 (z : Z) : Z := z mod 65536.
(** An [int8_t] value: two's complement wrap-around into [-128, 127]. *)
Definition sint8 (z : Z) : Z := (z + 128) mod 256 - 128.
(** Reading a [uint16_t] object through an [int16_t] pointer. *)
Definition as_int16 (z : Z) : Z := if z <? 32768 then z else z - 65536.

(** [sbi(port,pin)] and [cbi(port,pin)] of [main.h] on an 8-bit register. *)
Definition sbi (port pin : Z) : Z := Z.lor port (Z.shiftl 1 pin).
Definition cbi (port pin : Z) : Z := uint8 (Z.land port (Z.lnot (Z.shiftl 1 pin))).

(** Pin assignment of [main.h]: the receiver is on PD2, the packet LED on PD3. *)
Definition ARX : Z := 2.
Definition LED_PACKET : Z := 3.

(** ** Floating point of the AVR build

    avr-gcc gives [double] the 32 bits of [float], so every floating-point
    constant and operation of the sources is IEEE 754 binary32 with rounding
    to nearest even.  [SpecFloat] of the standard library specifies these
    operations for any format; binary32 has 24 bits of precision and the
    exponent bound 128. *)

Definition f32 : Type := spec_float.

(** Conversion of an integer, exact up to 2^24. *)
Definition f32_of_Z (z : Z) : f32 := binary_normalize 24 128 z 0 false.
Definition f32_zero : f32 := f32_of_Z 0.

Definition f32_add : f32 -> f32 -> f32 := SFadd 24 128.
Definition f32_mul : f32 -> f32 -> f32 := SFmul 24 128.
Definition f32_div : f32 -> f32 -> f32 := SFdiv 24 128.

(** A decimal constant of the sources with the value [n/d]: the binary32
    number nearest to it.  For [n] and [d] below 2^24 this is the correctly
    rounded quotient of the two. *)
Definition f32_const (n d : Z) : f32 := f32_div (f32_of_Z n) (f32_of_Z d).

(** The comparisons [x < y] and [x <= y] of C on two [double]s. *)
Definition f32_lt (x y : f32) : Prop := SFltb x y = true.
Definition f32_le (x y : f32) : Prop := SFleb x y = true.

(** The C conversion [(int)x]: truncation toward zero. *)
Definition c_int (x : f32) : Z :=
  match x with
  | S754_finite s m e =>
      cond_Zopp s (if 0 <=? e then Zpos m * 2 ^ e else Zpos m / 2 ^ (- e))
  | _ => 0
  end.

(** The rational number a finite binary32 number stands for. *)
Definition f32_value (x : f32) : Q :=
  match x with
  | S754_finite s m e =>
      if 0 <=? e then inject_Z (cond_Zopp s (Zpos m) * 2 ^ e)
      else cond_Zopp s (Zpos m) # (2 ^ Z.to_pos (- e))
  | _ => 0
  end.

(** ** [tfa.h]: timing constants and decision macros

    [F_CPU] is supplied by the build, not by the sources, and is a parameter
    here: the clock in Hz, an integer constant as avr-libc asks for.  The
    constants are C floating-point constant expressions, evaluated in
    binary32 operation by operation; a tick count is converted to binary32
    and compared with them, as C does. *)

Section Timing.
Variable F_CPU : Z.

Definition TFA_TICK : f32 := f32_const 50 1000000.
Definition TFA_TIMER : Z :=
  c_int (f32_div (f32_mul TFA_TICK (f32_of_Z F_CPU)) (f32_of_Z 8)) - 1.
Definition TFA_TICK_REAL : f32 :=
  f32_div (f32_mul (f32_of_Z 8) (f32_of_Z (TFA_TIMER + 1))) (f32_of_Z F_CPU).

Definition LED_DELAY : f32 := f32_div (f32_const 25 100) TFA_TICK_REAL.

Definition TFA_T_SHORT : f32 := f32_const 18 10000.
Definition TFA_T_LONG : f32 := f32_const 36 10000.
Definition TFA_T_MID : f32 := f32_mul (f32_const 5 10) (f32_add TFA_T_SHORT TFA_T_LONG).
Definition TFA_T_START : f32 := f32_const 5 1000.
Definition TFA_T_STOP : f32 := f32_mul (f32_const 75 100) TFA_T_SHORT.
Definition TFA_T_GAP : f32 := f32_const 10 1000.
Definition TFA_T_GLITCH : f32 := f32_const 2 10000.

Definition TFA_IS_GLITCH (ticks : Z) : bool :=
  SFltb (f32_of_Z ticks) (f32_div TFA_T_GLITCH TFA_TICK_REAL).
Definition TFA_IS_STOP (ticks : Z) : bool :=
  SFltb (f32_of_Z ticks) (f32_div TFA_T_STOP TFA_TICK_REAL).
Definition TFA_IS_LOW (ticks : Z) : bool :=
  SFltb (f32_of_Z ticks) (f32_div TFA_T_MID TFA_TICK_REAL).
Definition TFA_IS_HIGH (ticks : Z) : bool :=
  SFleb (f32_div TFA_T_MID TFA_TICK_REAL) (f32_of_Z ticks).
Definition TFA_IS_START (ticks : Z) : bool :=
  SFltb (f32_div TFA_T_START TFA_TICK_REAL) (f32_of_Z ticks).
Definition TFA_IS_GAP (ticks : Z) : bool :=
  SFltb (f32_div TFA_T_GAP TFA_TICK_REAL) (f32_of_Z ticks).
End Timing.

(* binary32 arithmetic is evaluated by [vm_compute], not unfolded by [simpl] *)
#[global] Opaque f32_of_Z f32_add f32_mul f32_div SFltb SFleb c_int f32_value.

Definition TFA_BITS : Z := 36.
Definition TFA_BUF_BYTES : nat := 5.
Definition TFA_PACKETS : Z := 7.
Definition TFA_TYPE : Z := 0x90.

Definition TFA_NEW_PACKETS : Z := Z.shiftl 1 0.
Definition TFA_NEW_PACKET : Z := Z.shiftl 1 1.
Definition TFA_SYNC : Z := Z.shiftl 1 6.
Definition TFA_LOW_BATT : Z := Z.shiftl 1 7.

Definition SENSOR_CHANNELS : Z := 3.

(** [!!(sens_flags & TFA_SYNC)] and [!!(sens_flags & TFA_LOW_BATT)]. *)
Definition SENSOR_IS_SYNC (sens_flags : Z) : Z :=
  if Z.land sens_flags TFA_SYNC =? 0 then 0 else 1.
Definition SENSOR_IS_LOW_BATT (sens_flags : Z) : Z :=
  if Z.land sens_flags TFA_LOW_BATT =? 0 then 0 else 1.

(** ** The C structures *)

Module TTFA.
Record t : Type := mk {
  data : list (list Z);   (* uint8_t data[TFA_PACKETS][TFA_BUF_BYTES] *)
  packets : Z;            (* uint8_t *)
  packet : list Z;        (* uint8_t packet[TFA_BUF_BYTES] *)
  flags : Z               (* uint8_t *)
}.
End TTFA.

Module TSensor.
Record t : Type := mk {
  id : Z;        (* uint8_t *)
  channel : Z;   (* uint8_t *)
  temp : f32;    (* float, degrees Celsius *)
  rh : Z;        (* uint8_t *)
  type : Z;      (* uint8_t *)
  flags : Z      (* uint8_t *)
}.
End TSensor.

Module TSystem.
Record t : Type := mk {
  packets : Z;   (* uint16_t *)
  flags : Z      (* uint8_t *)
}.
End TSystem.

(** ** [tfa.c]: the tick interrupt handler

    The state the handler works on: its function-local statics, the object
    [p_tfa] points to, and the output port carrying the packet LED. *)

Record isr_state : Type := mk_isr {
  led_delay : Z;               (* static uint16_t *)
  tfa_old : Z;                 (* static uint8_t *)
  tfa_timer : Z;               (* static uint8_t *)
  tfa_buf : list (list Z);     (* static uint8_t [TFA_PACKETS][TFA_BUF_BYTES] *)
  tfa_buf_bit : Z;             (* static int8_t *)
  tfa_buf_packet : Z;          (* static uint8_t *)
  p_tfa : TTFA.t;              (* the object behind the global pointer *)
  PORTD : Z
}.

Definition set_led_delay v s :=
  mk_isr v (tfa_old s) (tfa_timer s) (tfa_buf s) (tfa_buf_bit s) (tfa_buf_packet s) (p_tfa s) (PORTD s).
Definition set_tfa_old v s :=
  mk_isr (led_delay s) v (tfa_timer s) (tfa_buf s) (tfa_buf_bit s) (tfa_buf_packet s) (p_tfa s) (PORTD s).
Definition set_tfa_timer v s :=
  mk_isr (led_delay s) (tfa_old s) v (tfa_buf s) (tfa_buf_bit s) (tfa_buf_packet s) (p_tfa s) (PORTD s).
Definition set_tfa_buf v s :=
  mk_isr (led_delay s) (tfa_old s) (tfa_timer s) v (tfa_buf_bit s) (tfa_buf_packet s) (p_tfa s) (PORTD s).
Definition set_tfa_buf_bit v s :=
  mk_isr (led_delay s) (tfa_old s) (tfa_timer s) (tfa_buf s) v (tfa_buf_packet s) (p_tfa s) (PORTD s).
Definition set_tfa_buf_packet v s :=
  mk_isr (led_delay s) (tfa_old s) (tfa_timer s) (tfa_buf s) (tfa_buf_bit s) v (p_tfa s) (PORTD s).
Definition set_p_tfa v s :=
  mk_isr (led_delay s) (tfa_old s) (tfa_timer s) (tfa_buf s) (tfa_buf_bit s) (tfa_buf_packet s) v (PORTD s).
Definition set_PORTD v s :=
  mk_isr (led_delay s) (tfa_old s) (tfa_timer s) (tfa_buf s) (tfa_buf_bit s) (tfa_buf_packet s) (p_tfa s) v.

(** [*byte = *byte & ~bit; if(data) *byte |= bit;] on one buffer byte. *)
Definition store_bit (bit : Z) (data : bool) (byte : Z) : Z :=
  let byte := uint8 (Z.land byte (Z.lnot bit)) in
  if data then uint8 (Z.lor byte bit) else byte.

(** The five branches of the pulse decoder, in the order of the source. *)

(** glitch pulse - reject *)
Definition on_glitch (s : isr_state) : isr_state :=
  set_tfa_buf_bit (-1) s.

(** stop bit - packet end *)
Definition on_stop (s : isr_state) : isr_state :=
  if tfa_buf_bit s =? 0 then
    (* full packet received *)
    let s := set_tfa_buf_bit (sint8 (tfa_buf_bit s - 1)) s in
    if tfa_buf_packet s <? TFA_PACKETS + 1
    then set_tfa_buf_packet (uint8 (tfa_buf_packet s + 1)) s
    else s
  else s.

(** The three stores that hand the burst over: [memcpy] into [data], then
    [packets], then the flag. *)
Definition publish (buf : list (list Z)) (n : Z) (t : TTFA.t) : TTFA.t :=
  let t := TTFA.mk buf (TTFA.packets t) (TTFA.packet t) (TTFA.flags t) in
  let t := TTFA.mk (TTFA.data t) n (TTFA.packet t) (TTFA.flags t) in
  TTFA.mk (TTFA.data t) (TTFA.packets t) (TTFA.packet t)
          (Z.lor (TTFA.flags t) TFA_NEW_PACKETS).

(** end of transmission: copy data to destination buffer *)
Definition on_gap (s : isr_state) : isr_state :=
  let s :=
    if (3 <=? tfa_buf_packet s) && (tfa_buf_packet s <=? TFA_PACKETS) then
      let s := set_p_tfa (publish (tfa_buf s) (tfa_buf_packet s) (p_tfa s)) s in
      (* new packet LED pulse *)
      let s := set_led_delay 0 s in
      set_PORTD (sbi (PORTD s) LED_PACKET) s
    else s in
  (* restart receiver *)
  set_tfa_buf_packet 0 s.

(** start bit *)
Definition on_start (s : isr_state) : isr_state :=
  let s := set_tfa_buf_bit TFA_BITS s in
  if tfa_buf_packet s <? TFA_PACKETS
  then (* clear last unfull byte of packet *)
       set_tfa_buf
         (alter (fun row => <[(TFA_BUF_BYTES - 1)%nat := 0]> row)
                (Z.to_nat (tfa_buf_packet s)) (tfa_buf s)) s
  else s.

(** data bit - place to buffer; [data] is [TFA_IS_HIGH(tfa_timer)]. *)
Definition on_data (data : bool) (s : isr_state) : isr_state :=
  if (0 <? tfa_buf_bit s) && (tfa_buf_packet s <? TFA_PACKETS) then
    let s := set_tfa_buf_bit (sint8 (tfa_buf_bit s - 1)) s in
    let bit := uint8 (Z.shiftl 1 (Z.land (tfa_buf_bit s) 0x07)) in
    set_tfa_buf
      (alter (alter (store_bit bit data) (Z.to_nat (Z.shiftr (tfa_buf_bit s) 3)))
             (Z.to_nat (tfa_buf_packet s)) (tfa_buf s)) s
  else if 0 <=? tfa_buf_bit s then
    set_tfa_buf_bit (sint8 (tfa_buf_bit s - 1)) s
  else s.

(** The body of [else if(tfa_rise) { ... }]: a low pulse has ended and its
    length in ticks is in [tfa_timer]. *)
Definition isr_decode (F_CPU : Z) (s : isr_state) : isr_state :=
  if TFA_IS_GLITCH F_CPU (tfa_timer s) then on_glitch s
  else if TFA_IS_STOP F_CPU (tfa_timer s) then on_stop s
  else if TFA_IS_GAP F_CPU (tfa_timer s) then on_gap s
  else if TFA_IS_START F_CPU (tfa_timer s) then on_start s
  else on_data (TFA_IS_HIGH F_CPU (tfa_timer s)) s.

(** [ISR(TIMER0_COMPA_vect)]; [pind] is the value read from [ARX_PIN]. *)
Definition ISR_TIMER0_COMPA (F_CPU : Z) (pind : Z) (s : isr_state) : isr_state :=
  (* sampling radio RX data *)
  let tfa_state := Z.land pind (Z.shiftl 1 ARX) in
  (* detect changes *)
  let tfa_edge := Z.lxor tfa_state (tfa_old s) in
  let tfa_fall := Z.land tfa_edge (tfa_old s) in
  let tfa_rise := Z.land tfa_edge tfa_state in
  (* store old state *)
  let s := set_tfa_old tfa_state s in
  let s :=
    if negb (tfa_fall =? 0) then set_tfa_timer 0 s
    else if negb (tfa_rise =? 0) then isr_decode F_CPU s
    else s in
  let s := if tfa_timer s <? 255 then set_tfa_timer (uint8 (tfa_timer s + 1)) s else s in
  (* delayed LED indicator *)
  let s := set_led_delay (uint16 (led_delay s + 1)) s in
  if SFleb (LED_DELAY F_CPU) (f32_of_Z (led_delay s))
  then set_PORTD (cbi (PORTD s) LED_PACKET) s
  else s.

(** The statics at program start (zero-initialised), with the [TTFA] object
    as [tfa_init] leaves it: only [flags] is written. *)
Definition isr_init (t : TTFA.t) (portd : Z) : isr_state :=
  mk_isr 0 0 0 (repeat (repeat 0 TFA_BUF_BYTES) (Z.to_nat TFA_PACKETS)) 0 0
         (TTFA.mk (TTFA.data t) (TTFA.packets t) (TTFA.packet t) 0) portd.

(** ** [tfa.c]: reconciling the repetitions of one burst *)

(** [memcmp(a,b,n)]: zero when the first [n] bytes agree, otherwise the
    difference of the first pair that differs. *)
Fixpoint memcmp (a b : list Z) (n : nat) : Z :=
  match n, a, b with
  | S n', x :: a', y :: b' => if x =? y then memcmp a' b' n' else x - y
  | _, _, _ => 0
  end.

(** The locals of the search loop: [counts], [maxv] and [maxid]. *)
Record vote : Type := mk_vote {
  counts : list Z;      (* int8_t counts[TFA_PACKETS] *)
  maxv : Z * Z;         (* int8_t maxv[2] *)
  maxid : Z             (* int8_t *)
}.

(** Body of the inner loop [for(n ...)], for fixed [m]. *)
Definition vote_inner (buf : list (list Z)) (m : nat) (v : vote) (n : nat) : vote :=
  if (counts v !!! n =? 0) && (memcmp (buf !!! m) (buf !!! n) TFA_BUF_BYTES =? 0) then
    let v := mk_vote (alter (fun c => sint8 (c + 1)) m (counts v)) (maxv v) (maxid v) in
    let v :=
      if fst (maxv v) <? counts v !!! m then
        (* detect packet with maximum repetitions *)
        mk_vote (counts v) (counts v !!! m, fst (maxv v)) (sint8 (Z.of_nat m))
      else v in
    if negb (counts v !!! n =? 0)
    then mk_vote (<[n := -1]> (counts v)) (maxv v) (maxid v)
    else v
  else v.

(** Body of the outer loop [for(m ...)]. *)
Definition vote_outer (buf : list (list Z)) (packets : nat) (v : vote) (m : nat) : vote :=
  if negb (counts v !!! m =? 0) then v
  else foldl (vote_inner buf m) v (seq 0 packets).

Definition vote_loop (buf : list (list Z)) (packets : nat) : vote :=
  foldl (vote_outer buf packets)
        (mk_vote (repeat 0 (Z.to_nat TFA_PACKETS)) (0, 0) 0)
        (seq 0 packets).

(** [tfa_proc_packets]: the return value and the [TTFA] object afterwards. *)
Definition tfa_proc_packets (tfa : TTFA.t) : Z * TTFA.t :=
  if Z.land (TTFA.flags tfa) TFA_NEW_PACKETS =? 0 then (0, tfa)
  else
    (* atomic copy *)
    let buf := TTFA.data tfa in
    let packets := TTFA.packets tfa in
    let tfa := TTFA.mk (TTFA.data tfa) (TTFA.packets tfa) (TTFA.packet tfa)
                       (uint8 (Z.land (TTFA.flags tfa) (Z.lnot TFA_NEW_PACKETS))) in
    let v := vote_loop buf (Z.to_nat packets) in
    if fst (maxv v) =? snd (maxv v) then
      (* cannot decide most common packet data *)
      (0, tfa)
    else
      (* finally select the correct packet *)
      let tfa := TTFA.mk (TTFA.data tfa) (TTFA.packets tfa)
                         (take TFA_BUF_BYTES (buf !!! Z.to_nat (maxid v)))
                         (TTFA.flags tfa) in
      let tfa := TTFA.mk (TTFA.data tfa) (TTFA.packets tfa) (TTFA.packet tfa)
                         (Z.lor (TTFA.flags tfa) TFA_NEW_PACKET) in
      (1, tfa).

(** ** [tfa.c]: parsing a packet *)

(** [*((uint16_t* )&packet[i])] on the little-endian AVR. *)
Definition read_u16 (packet : list Z) (i : nat) : Z :=
  Z.lor (packet !!! i) (Z.shiftl (packet !!! S i) 8).

(** The local [uint16_t temp] of [tfa_parse] after the sign has been
    extended. *)
Definition parse_temp_u16 (packet : list Z) : Z :=
  let temp := Z.land (read_u16 packet 1) 0x0FFF in
  let temp := if negb (Z.land temp 0x0800 =? 0) then uint16 (Z.lor temp 0xF000) else temp in
  temp.

(** [*(int16_t* )&temp]: the temperature in tenths of a degree. *)
Definition parse_temp10 (packet : list Z) : Z := as_int16 (parse_temp_u16 packet).

(** [0.1*(float)x]: the conversion is exact, the product is rounded. *)
Definition tenths (x : Z) : f32 := f32_mul (f32_const 1 10) (f32_of_Z x).

Definition tfa_parse (tfa : TTFA.t) : Z * TSensor.t :=
  let packet := TTFA.packet tfa in
  let rh := packet !!! 0%nat in
  let temp := tenths (parse_temp10 packet) in
  let channel := uint8 (1 + Z.land (Z.shiftr (packet !!! 2%nat) 4) 0x03) in
  let id := Z.land (packet !!! 3%nat) 0x0F in
  let type := uint8 (Z.shiftr (read_u16 packet 3) 4) in
  let flags := Z.lor TFA_NEW_PACKET
                     (Z.land (packet !!! 2%nat) (Z.lor TFA_LOW_BATT TFA_SYNC)) in
  (if type =? TFA_TYPE then 1 else 0, TSensor.mk id channel temp rh type flags).

(** ** [main.c]: channel slots, packet counter and resync *)

Definition SYST_TALK : Z := Z.shiftl 1 0.
Definition SYST_HEAD : Z := Z.shiftl 1 1.

(** The locals of [main] that the packet path works on.  [tx] records the
    calls of [tfa_print_sensor], each with the header flag it saw. *)
Record main_state : Type := mk_main {
  tfa : TTFA.t;
  syst : TSystem.t;
  sensors : list TSensor.t;          (* TSensor sensors[3] *)
  tx : list (bool * TSensor.t)
}.

(** The initialisation loop of [main]: every channel identity is 0xFF and
    no data is flagged; the other fields keep what the stack held. *)
Definition sensors_init (stack : list TSensor.t) : list TSensor.t :=
  map (fun s => TSensor.mk 0xFF (TSensor.channel s) (TSensor.temp s) (TSensor.rh s)
                           (TSensor.type s) 0) stack.

Definition tfa_print_sensor (syst : TSystem.t) (sensor : TSensor.t)
    (tx : list (bool * TSensor.t)) : list (bool * TSensor.t) :=
  tx ++ [(negb (Z.land (TSystem.flags syst) SYST_HEAD =? 0), sensor)].

(** The statements under [if(type_ok)]: count the packet, update the
    channel slot, report in talk mode.  [None] stands for an access outside
    [sensors]. *)
Definition accept (sensor : TSensor.t) (st : main_state) : option main_state :=
  (* update statistics *)
  let syst := TSystem.mk (uint16 (TSystem.packets (syst st) + 1)) (TSystem.flags (syst st)) in
  let slots :=
    if (0 <? TSensor.channel sensor) && (TSensor.channel sensor <=? SENSOR_CHANNELS) then
      let k := Z.to_nat (TSensor.channel sensor - 1) in
      match sensors st !! k with
      | None => None
      | Some dsens =>
          if (TSensor.id dsens =? 0xFF) || (TSensor.id dsens =? TSensor.id sensor)
          then Some (<[k := sensor]> (sensors st))
          else Some (sensors st)
      end
    else Some (sensors st) in
  match slots with
  | None => None
  | Some slots =>
      if negb (Z.land (TSystem.flags syst) SYST_TALK =? 0) then
        let t := tfa st in
        Some (mk_main (TTFA.mk (TTFA.data t) (TTFA.packets t) (TTFA.packet t)
                               (uint8 (Z.land (TTFA.flags t) (Z.lnot TFA_NEW_PACKET))))
                      syst slots (tfa_print_sensor syst sensor (tx st)))
      else Some (mk_main (tfa st) syst slots (tx st))
  end.

(** The offloaded packet processing at the end of the main loop. *)
Definition main_process (st : main_state) : option main_state :=
  let '(got, t) := tfa_proc_packets (tfa st) in
  let st := mk_main t (syst st) (sensors st) (tx st) in
  if negb (got =? 0) then
    let '(type_ok, sensor) := tfa_parse (tfa st) in
    if negb (type_ok =? 0) then accept sensor st else Some st
  else Some st.

(** [sensors[k].id = 0xFF]. *)
Definition reset_id (s : TSensor.t) : TSensor.t :=
  TSensor.mk 0xFF (TSensor.channel s) (TSensor.temp s) (TSensor.rh s)
             (TSensor.type s) (TSensor.flags s).

(** The [TFA:SYNC] handler.  [par] is [None] without a parameter, otherwise
    the value [atoi] returned.  The result is [inl] with the unchanged slots
    when the parameter is refused. *)
Definition scpi_TFA_SYNC (par : option Z) (slots : list TSensor.t)
    : list TSensor.t + list TSensor.t :=
  let chn := match par with None => 0 | Some n => uint8 n end in
  if match par with
     | None => false
     | Some _ => (chn <? 1) || (SENSOR_CHANNELS <? chn)
     end
  then inl slots
  else if chn =? 0 then
    (* sync all channels *)
    inr (foldl (fun sl k => alter reset_id k sl) slots
               (seq 0 (Z.to_nat SENSOR_CHANNELS)))
  else
    (* sync one channel *)
    inr (alter reset_id (Z.to_nat (chn - 1)) slots).

(** ** Running the handler *)

(** The handler over a sequence of samples of [ARX_PIN]. *)
Definition run (F_CPU : Z) (pins : list Z) (s : isr_state) : isr_state :=
  foldl (fun s pind => ISR_TIMER0_COMPA F_CPU pind s) s pins.

(** The pin samples of one low pulse: [n] ticks low, then [h] ticks high. *)
Definition low_pulse (n h : nat) : list Z :=
  repeat 0 n ++ repeat (Z.shiftl 1 ARX) h.

Definition pulse_train (ps : list (nat * nat)) : list Z :=
  concat (map (fun p => low_pulse (fst p) (snd p)) ps).

(** The handler seen from the end of each low pulse: the decoder runs with
    the pulse length in [tfa_timer]. *)
Definition feed (F_CPU : Z) (ds : list Z) (s : isr_state) : isr_state :=
  foldl (fun s d => isr_decode F_CPU (set_tfa_timer d s)) s ds.

(** The part of the state the packet framer owns or publishes. *)
Definition same_framer (s s' : isr_state) : Prop :=
  tfa_buf s = tfa_buf s' /\ tfa_buf_bit s = tfa_buf_bit s' /\
  tfa_buf_packet s = tfa_buf_packet s' /\ p_tfa s = p_tfa s'.

(** What every step of the handler keeps true: the repetition index is at
    most one above the capacity, and the published count is the one the
    object started with or lies between 3 and the capacity. *)
Definition index_inv (n0 : Z) (s : isr_state) : Prop :=
  0 <= tfa_buf_packet s <= TFA_PACKETS + 1 /\
  (TTFA.packets (p_tfa s) = n0 \/ 3 <= TTFA.packets (p_tfa s) <= TFA_PACKETS).

(** The clock of the demo board ([main.c]: internal clock of 8MHz). *)
Definition F_CPU_8MHz : Z := 8000000.

(** ** The pulse classifier as the specification words it

    Thresholds are tick counts, the quotients of [tfa.h] as the compiler
    evaluates them; the midpoint comes from the average of the two data-bit
    reference durations. *)

Inductive pulse_kind : Type :=
  | Glitch
  | StopBit
  | Gap
  | StartBit
  | DataBit (value : bool).

Definition glitch_threshold (F_CPU : Z) : f32 := f32_div TFA_T_GLITCH (TFA_TICK_REAL F_CPU).
Definition stop_threshold (F_CPU : Z) : f32 := f32_div TFA_T_STOP (TFA_TICK_REAL F_CPU).
Definition gap_threshold (F_CPU : Z) : f32 := f32_div TFA_T_GAP (TFA_TICK_REAL F_CPU).
Definition start_threshold (F_CPU : Z) : f32 := f32_div TFA_T_START (TFA_TICK_REAL F_CPU).
Definition midpoint_threshold (F_CPU : Z) : f32 :=
  f32_div (f32_mul (f32_const 5 10) (f32_add TFA_T_SHORT TFA_T_LONG)) (TFA_TICK_REAL F_CPU).

Definition classify (F_CPU : Z) (d : Z) : pulse_kind :=
  let t := f32_of_Z d in
  if SFltb t (glitch_threshold F_CPU) then Glitch
  else if SFltb t (stop_threshold F_CPU) then StopBit
  else if SFltb (gap_threshold F_CPU) t then Gap
  else if SFltb (start_threshold F_CPU) t then StartBit
  else DataBit (SFleb (midpoint_threshold F_CPU) t).

(** The classification at 8 MHz by tick count. *)
Definition classify_8MHz (d : Z) : pulse_kind :=
  if d <? 4 then Glitch
  else if d <=? 27 then StopBit
  else if 200 <? d then Gap
  else if 100 <? d then StartBit
  else DataBit (55 <=? d).

Definition pulse_kind_eqb (a b : pulse_kind) : bool :=
  match a, b with
  | Glitch, Glitch | StopBit, StopBit | Gap, Gap | StartBit, StartBit => true
  | DataBit x, DataBit y => Bool.eqb x y
  | _, _ => false
  end.

(** The framer as a match over the tagged pulse kind. *)
Definition framer (k : pulse_kind) (s : isr_state) : isr_state :=
  match k with
  | Glitch => on_glitch s
  | StopBit => on_stop s
  | Gap => on_gap s
  | StartBit => on_start s
  | DataBit value => on_data value s
  end.

(** ** Concrete inputs *)

(** A state in the middle of the third repetition, one tick before a
    3-tick pulse ends. *)
Definition glitch_example : isr_state :=
  mk_isr 100 0 3
         [[1; 2; 3; 4; 5]; [1; 2; 3; 4; 5]; [0; 0; 128; 4; 5]; [0; 0; 0; 0; 0];
          [0; 0; 0; 0; 0]; [0; 0; 0; 0; 0]; [0; 0; 0; 0; 0]]
         20 2 (TTFA.mk [] 0 [] 0) 0.


(** The object [main] hands to [tfa_init], here with a zeroed stack frame. *)
Definition tfa_zero : TTFA.t :=
  TTFA.mk (repeat (repeat 0 TFA_BUF_BYTES) (Z.to_nat TFA_PACKETS)) 0
          (repeat 0 TFA_BUF_BYTES) 0.

(** Five repetitions captured, a 201-tick pulse about to end. *)
Definition gap_example : isr_state :=
  mk_isr 100 0 201
         [[1; 2; 3; 4; 5]; [1; 2; 3; 4; 5]; [1; 2; 3; 4; 5]; [1; 2; 3; 4; 5];
          [1; 2; 3; 4; 5]; [0; 0; 0; 0; 0]; [0; 0; 0; 0; 0]]
         (-1) 5 tfa_zero 0.

(** Pulse lengths at 8 MHz, as (ticks low, ticks high): an 8 ms start
    pulse, a 1.8 ms and a 3.6 ms data pulse, a 0.5 ms stop pulse, a 12 ms
    gap. *)
Definition start_pulse : nat * nat := (160%nat, 10%nat).
Definition data_pulse (b : bool) : nat * nat := ((if b then 72 else 36)%nat, 10%nat).
Definition stop_pulse : nat * nat := (10%nat, 10%nat).
Definition gap_pulse : nat * nat := (240%nat, 10%nat).

(** One repetition carrying the given bits, first bit first. *)
Definition repetition (bits : list bool) : list (nat * nat) :=
  start_pulse :: map data_pulse bits ++ [stop_pulse].

(** Seven whole repetitions of an all-zero packet, then an eighth up to
    the last low tick of its stop pulse. *)
Definition eighth_stop_pending : isr_state :=
  run F_CPU_8MHz
      (pulse_train (concat (repeat (repetition (repeat false 36)) 7)
                    ++ start_pulse :: map data_pulse (repeat false 36))
       ++ repeat 0 10%nat)
      (isr_init tfa_zero 0).

(** Captures and readings used as examples. *)
Definition minus_0_8_packet : list Z := [45; 0xF8; 0x1F; 0x09; 0x09].
Definition minus_204_8_packet : list Z := [45; 0x00; 0x08; 0x09; 0x09].
Definition channel_4_packet : list Z := [45; 237; 0x30; 0x09; 0x09].

Definition reading_id9_chn2 : TSensor.t :=
  TSensor.mk 9 2 (S754_finite false 12425626 (-19)) 45 TFA_TYPE TFA_NEW_PACKET.
Definition reading_id5_chn2 : TSensor.t :=
  TSensor.mk 5 2 (S754_finite false 10380903 (-19)) 51 TFA_TYPE TFA_NEW_PACKET.
Definition reading_chn4 : TSensor.t :=
  TSensor.mk 9 4 (S754_finite false 12425626 (-19)) 45 TFA_TYPE TFA_NEW_PACKET.

(** [main] after start-up, talk mode off, nothing received yet. *)
Definition main_example : main_state :=
  mk_main tfa_zero (TSystem.mk 0 SYST_HEAD)
          (sensors_init (repeat (TSensor.mk 0 0 f32_zero 0 0 0) 3)) [].

(** The same with channel 2 locked to sensor 9. *)
Definition main_locked_example : main_state :=
  mk_main tfa_zero (TSystem.mk 1 SYST_HEAD)
          (<[1%nat := reading_id9_chn2]> (sensors main_example)) [].

(** ** Equality patterns of a capture set

    The search loop of [tfa_proc_packets] looks at the captures only through
    [memcmp].  A capture set is therefore represented, for the proofs, by the
    list that gives for each capture the index of the first capture equal to
    it. *)

Fixpoint index_of (row : list Z) (buf : list (list Z)) : nat :=
  match buf with
  | [] => 0
  | r :: buf' => if decide (r = row) then 0%nat else S (index_of row buf')
  end.

Definition labels (buf : list (list Z)) : list nat :=
  (fun row => index_of row buf) <$> buf.

(** A capture standing for a label. *)
Definition row_of_label (k : nat) : list Z := [Z.of_nat k; 0; 0; 0; 0].

(** How often the capture [g] occurs in the set. *)
Definition occurrences (g : list Z) (buf : list (list Z)) : nat :=
  count_occ (List.list_eq_dec Z.eq_dec) buf g.

(** What the search has to deliver on a set with labels [l]: two different
    maxima, an index inside the set, and, whenever a label occurs four times
    or more, a selected capture that carries it. *)
Definition majority_props (v : vote) (l : list nat) : bool :=
  negb (fst (maxv v) =? snd (maxv v)) &&
  (0 <=? maxid v) && (maxid v <? 7) &&
  forallb (fun k => implb (4 <=? count_occ Nat.eq_dec l k)%nat
                          (l !!! Z.to_nat (maxid v) =? k)%nat)
          (seq 0 7).

(** Example captures. *)
Definition capture_A : list Z := [45; 237; 16; 9; 9].
Definition capture_B : list Z := [45; 237; 16; 9; 1].
Definition capture_C : list Z := [44; 237; 16; 9; 9].
Definition capture_D : list Z := [45; 236; 16; 9; 9].

(** Six captures in two groups of three, flagged as a new burst; [packet]
    holds an earlier result. *)
Definition tie_3_3 : TTFA.t :=
  TTFA.mk [capture_A; capture_A; capture_A; capture_B; capture_B; capture_B;
           [0; 0; 0; 0; 0]]
          6 capture_D TFA_NEW_PACKETS.

(** Seven captures, four of them equal, the majority not in front. *)
Definition majority_4_of_7 : TTFA.t :=
  TTFA.mk [capture_B; capture_A; capture_C; capture_A; capture_A; capture_B; capture_A]
          7 capture_D TFA_NEW_PACKETS.

(** ** Captures bit by bit *)

(** Bit [q] of a capture: bit [q mod 8] of byte [q / 8]. *)
Definition capture_bit (row : list Z) (q : Z) : bool :=
  Z.testbit (row !!! Z.to_nat (q / 8)) (q mod 8).

(** The capture buffer as the C types have it: 7 rows of 5 bytes. *)
Definition wf_row (row : list Z) : Prop :=
  length row = TFA_BUF_BYTES /\ Forall (fun b => 0 <= b < 256) row.
Definition wf_buf (buf : list (list Z)) : Prop :=
  length buf = Z.to_nat TFA_PACKETS /\ Forall wf_row buf.

(** The length the saturating pulse timer reports for a pulse. *)
Definition measured (p : nat * nat) : Z := Z.min (Z.of_nat (fst p)) 255.

(** A pulse with at least one low and one high sample. *)
Definition wf_pulse (p : nat * nat) : Prop := (1 <= fst p)%nat /\ (1 <= snd p)%nat.

(** What the data pulses of a repetition have stored once [done] bits have
    been received into slot [k]. *)
Definition data_inv (k : nat) (buf0 : list (list Z)) (t0 : TTFA.t)
    (done : list bool) (s : isr_state) : Prop :=
  tfa_buf_bit s = 36 - Z.of_nat (length done) /\
  tfa_buf_packet s = Z.of_nat k /\
  p_tfa s = t0 /\
  length (tfa_buf s) = length buf0 /\
  (forall m, m <> k -> tfa_buf s !! m = buf0 !! m) /\
  exists row,
    tfa_buf s !! k = Some row /\ wf_row row /\
    (forall i b, done !! i = Some b -> capture_bit row (35 - Z.of_nat i) = b) /\
    (forall q, 36 <= q < 40 -> capture_bit row q = false).

(** ** Readings and their wire format

    A reading as the sensor knows it, and its 36 bits laid out as the byte
    table of the packet has them (humidity in b0, the 12-bit temperature in
    b1 and the low half of b2, channel, sync and battery in the high half of
    b2, identity in the low half of b3, the type tag across b3 and b4). *)

Record reading : Type := mk_reading {
  r_rh : Z;          (* relative humidity *)
  r_temp10 : Z;      (* temperature in tenths of a degree, 12-bit signed *)
  r_channel : Z;     (* 1..4 *)
  r_sync : bool;
  r_batt : bool;
  r_id : Z;          (* 0..15 *)
  r_type : Z         (* 8-bit type tag *)
}.

Definition valid_reading (r : reading) : Prop :=
  0 <= r_rh r < 256 /\ -2048 <= r_temp10 r < 2048 /\ 1 <= r_channel r <= 4 /\
  0 <= r_id r < 16 /\ 0 <= r_type r < 256.

Definition encode_b1 (temp10 : Z) : Z := Z.land temp10 0xFF.
Definition encode_b2 (temp10 channel : Z) (sync batt : bool) : Z :=
  Z.lor (Z.land (Z.shiftr temp10 8) 0x0F)
        (Z.lor (Z.shiftl (channel - 1) 4)
               (Z.lor (Z.shiftl (Z.b2z sync) 6) (Z.shiftl (Z.b2z batt) 7))).
Definition encode_b3 (id type : Z) : Z := Z.lor id (Z.shiftl (Z.land type 0x0F) 4).
Definition encode_b4 (type : Z) : Z := Z.shiftr type 4.

Definition encode_bytes (r : reading) : list Z :=
  [ r_rh r;
    encode_b1 (r_temp10 r);
    encode_b2 (r_temp10 r) (r_channel r) (r_sync r) (r_batt r);
    encode_b3 (r_id r) (r_type r);
    encode_b4 (r_type r) ].

(** The 36 bits in the order of transmission: bit 35 of the capture first. *)
Definition encode_bits (r : reading) : list bool :=
  (fun i => capture_bit (encode_bytes r) (35 - Z.of_nat i)) <$> seq 0 36.

(** A reading as a [TSensor]: the temperature is the binary32 product of
    the constant 0.1 and the tenths. *)
Definition sensor_of_reading (r : reading) : TSensor.t :=
  TSensor.mk (r_id r) (r_channel r)
             (f32_mul (f32_const 1 10) (f32_of_Z (r_temp10 r)))
             (r_rh r) (r_type r)
             (Z.lor TFA_NEW_PACKET
                    (Z.lor (if r_batt r then TFA_LOW_BATT else 0)
                           (if r_sync r then TFA_SYNC else 0))).

(** The tenths a temperature value stands for: ten times the value, rounded
    to the nearest integer. *)
Definition tenths_of (x : f32) : Z :=
  let q := (f32_value x * 10 + (1 # 2))%Q in Z.div (Qnum q) (Zpos (Qden q)).

(** Checks run over all values of the fields. *)
(* the scaling of a 12-bit number of tenths: less than 1/100000 degree from
   the tenth part, and the tenths can be read back *)
Definition temp_scale_check (x : Z) : bool :=
  Qle_bool (Qabs (f32_value (f32_mul (f32_const 1 10) (f32_of_Z x)) - (x # 10))) (1 # 100000)
  && (tenths_of (f32_mul (f32_const 1 10) (f32_of_Z x)) =? x).

(* the 12-bit field taken as a two's complement number *)
Definition signed12_check (raw : Z) : bool :=
  let temp := if negb (Z.land raw 0x0800 =? 0) then uint16 (Z.lor raw 0xF000) else raw in
  (as_int16 temp =? (if raw <? 2048 then raw else raw - 4096)) &&
  forallb (fun i => Bool.eqb (Z.testbit temp i) (Z.testbit raw 11)) [12; 13; 14; 15] &&
  forallb (fun i => Bool.eqb (Z.testbit temp i) (Z.testbit raw i)) (seqZ 0 12) &&
  (0 <=? temp) && (temp <? 65536).

Definition store_bit_check (j x : Z) : bool :=
  forallb (fun d =>
    let y := store_bit (uint8 (Z.shiftl 1 j)) d x in
    (0 <=? y) && (y <? 256) &&
    forallb (fun t => Bool.eqb (Z.testbit y t) (if t =? j then d else Z.testbit x t))
            (seqZ 0 8))
    [false; true].

Definition b12_check (sync batt : bool) (channel temp10 : Z) : bool :=
  let packet := [0; encode_b1 temp10; encode_b2 temp10 channel sync batt; 0; 0] in
  (parse_temp10 packet =? temp10) &&
  (uint8 (1 + Z.land (Z.shiftr (packet !!! 2%nat) 4) 0x03) =? channel) &&
  (Z.lor TFA_NEW_PACKET (Z.land (packet !!! 2%nat) (Z.lor TFA_LOW_BATT TFA_SYNC))
   =? Z.lor TFA_NEW_PACKET
            (Z.lor (if batt then TFA_LOW_BATT else 0) (if sync then TFA_SYNC else 0))) &&
  (0 <=? encode_b1 temp10) && (encode_b1 temp10 <? 256) &&
  (0 <=? encode_b2 temp10 channel sync batt) && (encode_b2 temp10 channel sync batt <? 256).

(* the two halves of [b12_check]: the temperature with the low half of b2,
   and the high half of b2 on top of any low half *)
Definition temp_check (temp10 : Z) : bool :=
  let packet := [0; encode_b1 temp10; Z.land (Z.shiftr temp10 8) 0x0F; 0; 0] in
  (parse_temp10 packet =? temp10) &&
  (0 <=? encode_b1 temp10) && (encode_b1 temp10 <? 256).

Definition b2_check (sync batt : bool) (channel lo : Z) : bool :=
  let b2 := Z.lor lo (Z.lor (Z.shiftl (channel - 1) 4)
                            (Z.lor (Z.shiftl (Z.b2z sync) 6) (Z.shiftl (Z.b2z batt) 7))) in
  (Z.land b2 0x0F =? lo) &&
  (uint8 (1 + Z.land (Z.shiftr b2 4) 0x03) =? channel) &&
  (Z.lor TFA_NEW_PACKET (Z.land b2 (Z.lor TFA_LOW_BATT TFA_SYNC))
   =? Z.lor TFA_NEW_PACKET
            (Z.lor (if batt then TFA_LOW_BATT else 0) (if sync then TFA_SYNC else 0))) &&
  (0 <=? b2) && (b2 <? 256).

Definition b34_check (id type : Z) : bool :=
  let packet := [0; 0; 0; encode_b3 id type; encode_b4 type] in
  (Z.land (packet !!! 3%nat) 0x0F =? id) &&
  (uint8 (Z.shiftr (read_u16 packet 3) 4) =? type) &&
  (0 <=? encode_b3 id type) && (encode_b3 id type <? 256) &&
  (0 <=? encode_b4 type) && (encode_b4 type <? 16).

(** A reading and the state used as examples: 23.7 degrees, 45 %, channel 2,
    identity 9, battery low. *)
Definition reading_example : reading := mk_reading 45 237 2 false true 9 TFA_TYPE.
Definition reading_cold_example : reading := mk_reading 91 (-123) 3 true false 4 TFA_TYPE.

(** Seven whole repetitions of the frame of [reading_example] received from
    program start at 8 MHz: the capture buffer is full. *)
Definition seven_captured : isr_state :=
  run F_CPU_8MHz
      (pulse_train (concat (repeat (repetition (encode_bits reading_example)) 7)))
      (isr_init tfa_zero 0).

(** ** Ranges of the handler's statics

    The values the C types can hold without any wrap-around having taken
    place, and the shape of the capture buffer. *)
Definition isr_wf (s : isr_state) : Prop :=
  0 <= tfa_timer s <= 255 /\
  0 <= led_delay s < 65536 /\
  -1 <= tfa_buf_bit s <= TFA_BITS /\
  0 <= tfa_buf_packet s <= TFA_PACKETS + 1 /\
  wf_buf (tfa_buf s) /\
  (tfa_old s = 0 \/ tfa_old s = Z.shiftl 1 ARX).

(** An idle framer with two captures stored, the line high. *)
Definition idle_example : isr_state :=
  mk_isr 100 (Z.shiftl 1 ARX) 17
         [[45; 237; 16; 9; 9]; [45; 237; 16; 9; 9]; [0; 0; 0; 0; 0]; [0; 0; 0; 0; 0];
          [0; 0; 0; 0; 0]; [0; 0; 0; 0; 0]; [0; 0; 0; 0; 0]]
         (-1) 2 tfa_zero 0.

(** The third repetition under way: 20 bits to go, a 72-tick pulse ending. *)
Definition data_example : isr_state :=
  mk_isr 100 0 72
         [[45; 237; 16; 9; 9]; [45; 237; 16; 9; 9]; [255; 255; 240; 9; 9]; [0; 0; 0; 0; 0];
          [0; 0; 0; 0; 0]; [0; 0; 0; 0; 0]; [0; 0; 0; 0; 0]]
         20 2 tfa_zero 0.

(** ** Equality patterns, for any number of captures

    A list of labels is canonical when every label is the index of a capture
    that carries it, as first-occurrence labels are. *)
Definition canonical (l : list nat) : bool :=
  forallb (fun i => (l !!! (l !!! i) =? l !!! i)%nat) (seq 0 7).

(** What the search over the first [p] of 7 captures delivers: an index
    below [p]; the capture whose label occurs at least four times among the
    first [p], if there is one; capture 0 otherwise. *)
Definition select_props (p : nat) (v : vote) (l : list nat) : bool :=
  (0 <=? maxid v) && (Z.to_nat (maxid v) <? p)%nat &&
  forallb (fun k => implb (4 <=? count_occ Nat.eq_dec (take p l) k)%nat
                          (l !!! Z.to_nat (maxid v) =? k)%nat)
          (seq 0 7) &&
  implb (forallb (fun k => (count_occ Nat.eq_dec (take p l) k <? 4)%nat) (seq 0 7))
        (maxid v =? 0).

Definition select_check (l : list nat) : bool :=
  implb (canonical l)
        (forallb (fun p => select_props p (vote_loop (row_of_label <$> l) p) l) (seq 1 7)).

(** Five captures, three of them equal but not in front. *)
Definition minority_first : TTFA.t :=
  TTFA.mk [capture_B; capture_A; capture_A; capture_A; capture_B;
           [0; 0; 0; 0; 0]; [0; 0; 0; 0; 0]]
          5 capture_D TFA_NEW_PACKETS.

(** ** From a parsed packet back to a reading *)

(** The reading a packet stands for, taken from the fields [tfa_parse]
    delivers (the temperature from its integer stage). *)
Definition reading_of_packet (packet : list Z) : reading :=
  let sensor := snd (tfa_parse (TTFA.mk [] 0 packet 0)) in
  mk_reading (TSensor.rh sensor) (parse_temp10 packet) (TSensor.channel sensor)
             (negb (SENSOR_IS_SYNC (TSensor.flags sensor) =? 0))
             (negb (SENSOR_IS_LOW_BATT (TSensor.flags sensor) =? 0))
             (TSensor.id sensor) (TSensor.type sensor).

(* checks over the values of one or two bytes *)
Definition flags_check (b2 : Z) : bool :=
  let flags := Z.lor TFA_NEW_PACKET (Z.land b2 (Z.lor TFA_LOW_BATT TFA_SYNC)) in
  negb (Z.land flags TFA_NEW_PACKET =? 0) &&
  (Z.land flags (Z.lnot (Z.lor TFA_NEW_PACKET (Z.lor TFA_LOW_BATT TFA_SYNC))) =? 0) &&
  (0 <=? flags) && (flags <? 256) &&
  (encode_b2 0 (uint8 (1 + Z.land (Z.shiftr b2 4) 0x03))
             (negb (SENSOR_IS_SYNC flags =? 0)) (negb (SENSOR_IS_LOW_BATT flags =? 0))
   =? Z.land b2 0xF0) &&
  (Z.lor (Z.land b2 0x0F) (Z.land b2 0xF0) =? b2).

Definition raw12_check (raw : Z) : bool :=
  let packet := [0; Z.land raw 0xFF; Z.shiftr raw 8; 0; 0] in
  (encode_b1 (parse_temp10 packet) =? Z.land raw 0xFF) &&
  (Z.land (Z.shiftr (parse_temp10 packet) 8) 0x0F =? Z.shiftr raw 8) &&
  (-2048 <=? parse_temp10 packet) && (parse_temp10 packet <? 2048).

Definition lo_check (lo b1 : Z) : bool :=
  let raw := Z.lor b1 (Z.shiftl lo 8) in
  (0 <=? raw) && (raw <? 4096) && (Z.land raw 0xFF =? b1) && (Z.shiftr raw 8 =? lo).

Definition b34_back_check (b4 b3 : Z) : bool :=
  let packet := [0; 0; 0; b3; b4] in
  let id := Z.land (packet !!! 3%nat) 0x0F in
  let type := uint8 (Z.shiftr (read_u16 packet 3) 4) in
  (encode_b3 id type =? b3) && (encode_b4 type =? b4).

(** A capture as received from the example reading. *)
Definition packet_example : list Z := [45; 237; 16; 9; 9].

(** ** Whole bursts *)

(** A capture that holds the 36 received bits, first bit at position 35,
    and zeros in the four padding bits. *)
Definition captured (bits : list bool) (row : list Z) : Prop :=
  wf_row row /\
  (forall i b, bits !! i = Some b -> capture_bit row (35 - Z.of_nat i) = b) /\
  (forall q, 36 <= q < 40 -> capture_bit row q = false).

(** One repetition on the line: its start pulse, data pulses and stop
    pulse, each as (ticks low, ticks high). *)
Definition rep : Type := ((nat * nat) * list (nat * nat) * (nat * nat))%type.

Definition rep_pulses (r : rep) : list (nat * nat) :=
  let '(start, data, stop) := r in start :: data ++ [stop].

(** The repetition is well formed and carries the 36 bits [bits] for the
    classifier. *)
Definition rep_carries (F_CPU : Z) (r : rep) (bits : list bool) : Prop :=
  let '(start, data, stop) := r in
  wf_pulse start /\ Forall wf_pulse data /\ wf_pulse stop /\
  classify F_CPU (measured start) = StartBit /\
  Forall2 (fun p b => classify F_CPU (measured p) = DataBit b) data bits /\
  length bits = 36%nat /\
  classify F_CPU (measured stop) = StopBit.

(** The repetition of the example pulse lengths that carries [bits]. *)
Definition rep_of_bits (bits : list bool) : rep :=
  (start_pulse, map data_pulse bits, stop_pulse).

(** A burst of five repetitions, the second carrying another frame. *)
Definition burst_bits_example : list (list bool) :=
  [encode_bits reading_example; encode_bits reading_cold_example;
   encode_bits reading_example; encode_bits reading_example; encode_bits reading_example].

(** ** The main loop on a pending burst *)

(** Five captures pending, four of them the frame of [reading_example];
    talk mode and headers on, no channel locked. *)
Definition main_pending_example : main_state :=
  mk_main (TTFA.mk [encode_bytes reading_example; encode_bytes reading_cold_example;
                    encode_bytes reading_example; encode_bytes reading_example;
                    encode_bytes reading_example; [0; 0; 0; 0; 0]; [0; 0; 0; 0; 0]]
                   5 [0; 0; 0; 0; 0] TFA_NEW_PACKETS)
          (TSystem.mk 41 (Z.lor SYST_TALK SYST_HEAD))
          (sensors_init (repeat (TSensor.mk 0 0 f32_zero 0 0 0) 3)) [].

(** How many of the repetitions [bitss] carry exactly the bits [bits]. *)
Definition sent (bits : list bool) (bitss : list (list bool)) : nat :=
  count_occ (List.list_eq_dec Bool.bool_dec) bitss bits.

(** A pending burst whose majority is a reading of an unsupported type. *)
Definition reading_other_type : reading := mk_reading 45 237 2 false true 9 0x91.
Definition main_other_type_example : main_state :=
  mk_main (TTFA.mk (repeat (encode_bytes reading_other_type) 7) 7 [0; 0; 0; 0; 0]
                   TFA_NEW_PACKETS)
          (TSystem.mk 41 (Z.lor SYST_TALK SYST_HEAD))
          (sensors_init (repeat (TSensor.mk 0 0 f32_zero 0 0 0) 3)) [].

(** ** [serial.c]: transmitting and the SCPI error memory

    The transmitted bytes are collected, in order, in a string.  A C string
    is a [string]; a pointer that may be [NULL] is an [option]. *)

Definition nl : string := String (ascii_of_nat 10) EmptyString.

Definition serial_tx_byte (byte : ascii) (out : string) : string :=
  (out ++ String byte EmptyString)%string.
Definition serial_tx_cstr (str : string) (out : string) : string := (out ++ str)%string.
Definition serial_tx_str (str : string) (out : string) : string := (out ++ str)%string.

(* SCPI error flags *)
Definition SCPI_ERR_STORE : Z := 1.
Definition SCPI_ERR_SEND : Z := 2.
Definition SCPI_ERR_PSTR : Z := 0.
Definition SCPI_ERR_STR : Z := 4.

(* SCPI errors *)
Definition SCPI_ERR_noError : Z := 0.
Definition SCPI_ERR_undefinedHeader : Z := -113.
Definition SCPI_ERR_wrongParamType : Z := -104.
Definition SCPI_ERR_tooFewParameters : Z := -109.
Definition SCPI_ERR_std_mediaProtected : Z := -258.

(** The statics of [serial_error]. *)
Record err_state : Type := mk_err {
  err_mem : Z;                 (* static uint16_t err_mem *)
  info_mem : option string;    (* static char *info_mem *)
  is_malloc : Z                (* static uint8_t is_malloc *)
}.

Definition err_init : err_state := mk_err 0 None 0.

(** The [switch(err_mem)]: [err_mem] is a [uint16_t], an [unsigned int] on
    the AVR, and each case constant is converted to that type. *)
Definition error_text (err_mem : Z) : string :=
  if err_mem =? uint16 SCPI_ERR_undefinedHeader then "-113, Undefined command header."
  else if err_mem =? uint16 SCPI_ERR_wrongParamType then "-104, Wrong parameter type or value."
  else if err_mem =? uint16 SCPI_ERR_tooFewParameters then "-109, Missing parameters."
  else if err_mem =? uint16 SCPI_ERR_std_mediaProtected then "-258, EEPROM write protected."
  else if err_mem =? uint16 SCPI_ERR_noError then "0, No error."
  else "".

(** [serial_error(err,info,mode)].  [malloc_ok] tells whether [malloc]
    delivers memory; the result is [None] where the C code writes through a
    null pointer ([strcpy] after a failed [malloc], [strlen] of a null
    [info]).  [free] has no counterpart here. *)
Definition serial_error (err : Z) (info : option string) (mode : Z) (malloc_ok : bool)
    (e : err_state) (out : string) : option (err_state * string) :=
  (* remember last error *)
  let stored :=
    if negb (Z.land mode SCPI_ERR_STORE =? 0) then
      (* loose old info buffer *)
      let e := mk_err (err_mem e) None (is_malloc e) in
      let e := mk_err (uint16 err) (info_mem e) (is_malloc e) in
      if negb (Z.land mode SCPI_ERR_STR =? 0) then
        (* RAM string mode *)
        match info with
        | Some s => if malloc_ok then Some (mk_err (err_mem e) (Some s) 1) else None
        | None => None
        end
      else
        (* PSTR mode *)
        Some (mk_err (err_mem e) info 0)
    else Some e in
  match stored with
  | None => None
  | Some e =>
      if negb (Z.land mode SCPI_ERR_SEND =? 0) then
        let out := serial_tx_cstr (error_text (err_mem e)) out in
        let out :=
          match info_mem e with
          | Some s =>
              let out := serial_tx_byte " " out in
              if negb (is_malloc e =? 0) then serial_tx_str s out else serial_tx_cstr s out
          | None => out
          end in
        let out := serial_tx_cstr nl out in
        (* loose old info buffer *)
        Some (mk_err 0 None (is_malloc e), out)
      else Some (e, out)
  end.

(** ** [main.c]: the SCPI command handlers

    The state of the command side: the locals of [main], the error memory
    and the bytes transmitted as text.  What [tfa_print_sensor] prints is
    recorded in [tx] of the locals. *)
Record scpi_state : Type := mk_scpi {
  locals : main_state;
  err : err_state;
  out : string
}.

(** [serial_error(...,SCPI_ERR_STORE|SCPI_ERR_PSTR); goto SCPI_error;] *)
Definition scpi_refuse (code : Z) (info : string) (st : scpi_state) : option scpi_state :=
  match serial_error code (Some info) (Z.lor SCPI_ERR_STORE SCPI_ERR_PSTR) true
                     (err st) (out st) with
  | Some (e, o) => Some (mk_scpi (locals st) e o)
  | None => None
  end.

(** [*par] as a number; 0 for the terminator of an empty string. *)
Definition first_char (par : string) : Z :=
  match par with
  | EmptyString => 0
  | String c _ => Z.of_nat (nat_of_ascii c)
  end.

(** [!par || *par < '0' || *par > '1'] *)
Definition not_0_or_1 (par : option string) : bool :=
  match par with
  | None => true
  | Some p => (first_char p <? 48) || (49 <? first_char p)
  end.

(** [syst.flags &= ~bit; syst.flags |= ( *par - '0')*bit;] *)
Definition set_syst_flag (bit : Z) (par : string) (syst : TSystem.t) : TSystem.t :=
  let syst := TSystem.mk (TSystem.packets syst)
                         (uint8 (Z.land (TSystem.flags syst) (Z.lnot bit))) in
  TSystem.mk (TSystem.packets syst)
             (uint8 (Z.lor (TSystem.flags syst) ((first_char par - 48) * bit))).

Definition with_syst (s : TSystem.t) (m : main_state) : main_state :=
  mk_main (tfa m) s (sensors m) (tx m).

(** [TFA:TALK <state>] *)
Definition scpi_TFA_TALK (par : option string) (st : scpi_state) : option scpi_state :=
  if not_0_or_1 par then
    scpi_refuse SCPI_ERR_wrongParamType "TFA:TALK parameter must be 0 or 1." st
  else
    match par with
    | None => None
    | Some p =>
        Some (mk_scpi (with_syst (set_syst_flag SYST_TALK p (syst (locals st))) (locals st))
                      (err st) (out st))
    end.

(** [TFA:HEAD <state>] *)
Definition scpi_TFA_HEAD (par : option string) (st : scpi_state) : option scpi_state :=
  if not_0_or_1 par then
    scpi_refuse SCPI_ERR_wrongParamType "TFA:HEAD parameter must be 0 or 1." st
  else
    match par with
    | None => None
    | Some p =>
        Some (mk_scpi (with_syst (set_syst_flag SYST_HEAD p (syst (locals st))) (locals st))
                      (err st) (out st))
    end.

Section Handlers.

(** [atoi] of the C library, on the parameter string. *)
Variable atoi : string -> Z.

(** [uint8_t chn = 0; if(par) chn = atoi(par);] *)
Definition channel_par (par : option string) : Z :=
  match par with
  | None => 0
  | Some p => uint8 (atoi p)
  end.

(** [par && (chn < 1 || chn > SENSOR_CHANNELS)] *)
Definition channel_refused (par : option string) : bool :=
  match par with
  | None => false
  | Some _ => (channel_par par <? 1) || (SENSOR_CHANNELS <? channel_par par)
  end.

(** [TFA:DATA:NEW? <channel>] *)
Definition scpi_TFA_DATA_NEW (par : option string) (st : scpi_state) : option scpi_state :=
  let chn := channel_par par in
  if channel_refused par then
    scpi_refuse SCPI_ERR_wrongParamType
                "TFA:DATA:NEW? <channel> parameter must be 1 to 3 or empty." st
  else
    let new :=
      if chn =? 0 then Some (Z.land (TTFA.flags (tfa (locals st))) TFA_NEW_PACKET)
      else match sensors (locals st) !! Z.to_nat (chn - 1) with
           | Some d => Some (Z.land (TSensor.flags d) TFA_NEW_PACKET)
           | None => None
           end in
    match new with
    | None => None
    | Some new =>
        Some (mk_scpi (locals st) (err st)
                      (if negb (new =? 0) then serial_tx_cstr ("1" ++ nl) (out st)
                       else serial_tx_cstr ("0" ++ nl) (out st)))
    end.

(** [tfa.flags &= ~TFA_NEW_PACKET;] *)
Definition clear_new_packet (t : TTFA.t) : TTFA.t :=
  TTFA.mk (TTFA.data t) (TTFA.packets t) (TTFA.packet t)
          (uint8 (Z.land (TTFA.flags t) (Z.lnot TFA_NEW_PACKET))).

(** [sensors[chn-1].flags &= ~TFA_NEW_PACKET;] *)
Definition clear_sensor_new (d : TSensor.t) : TSensor.t :=
  TSensor.mk (TSensor.id d) (TSensor.channel d) (TSensor.temp d) (TSensor.rh d)
             (TSensor.type d) (uint8 (Z.land (TSensor.flags d) (Z.lnot TFA_NEW_PACKET))).

(** [TFA:DATA? <channel>] *)
Definition scpi_TFA_DATA (par : option string) (st : scpi_state) : option scpi_state :=
  let chn := channel_par par in
  if channel_refused par then
    scpi_refuse SCPI_ERR_wrongParamType
                "TFA:DATA? <channel> parameter must be 1 to 3 or empty." st
  else
    let m := locals st in
    let printed :=
      if chn =? 0 then
        (* parse and print sensor data *)
        let '(type_ok, sensor) := tfa_parse (tfa m) in
        if negb (type_ok =? 0)
        then Some (mk_main (tfa m) (syst m) (sensors m) (tfa_print_sensor (syst m) sensor (tx m)),
                   out st)
        else Some (m, serial_tx_cstr ("error parsing data: unknown sensor type?" ++ nl) (out st))
      else
        (* print particular sensor channel *)
        match sensors m !! Z.to_nat (chn - 1) with
        | Some d =>
            Some (mk_main (tfa m) (syst m)
                          (alter clear_sensor_new (Z.to_nat (chn - 1)) (sensors m))
                          (tfa_print_sensor (syst m) d (tx m)),
                  out st)
        | None => None
        end in
    match printed with
    | None => None
    | Some (m, o) =>
        (* clear new data flag *)
        Some (mk_scpi (mk_main (clear_new_packet (tfa m)) (syst m) (sensors m) (tx m))
                      (err st) o)
    end.

(** [TFA:SYNC <channel>] *)
Definition scpi_TFA_SYNC_cmd (par : option string) (st : scpi_state) : option scpi_state :=
  match scpi_TFA_SYNC (option_map atoi par) (sensors (locals st)) with
  | inl _ =>
      scpi_refuse SCPI_ERR_wrongParamType
                  "TFA:SYNC <channel> parameter must be 1 to 3 or empty." st
  | inr slots =>
      let m := locals st in
      Some (mk_scpi (mk_main (tfa m) (syst m) slots (tx m)) (err st) (out st))
  end.

(** [TFA:COUNT?]: [sprintf(str,"%u\n",syst.packets)]. *)
Definition scpi_TFA_COUNT (par : option string) (st : scpi_state) : option scpi_state :=
  match par with
  | Some _ =>
      scpi_refuse SCPI_ERR_wrongParamType "No parameters expected for TFA:COUNT?" st
  | None =>
      let str := (DecimalString.NilZero.string_of_uint
                    (N.to_uint (Z.to_N (TSystem.packets (syst (locals st))))) ++ nl)%string in
      Some (mk_scpi (locals st) (err st) (serial_tx_str str (out st)))
  end.

(** [TFA:COUNT:RESET] *)
Definition scpi_TFA_COUNT_RESET (par : option string) (st : scpi_state) : option scpi_state :=
  match par with
  | Some _ =>
      scpi_refuse SCPI_ERR_wrongParamType "No parameters expected for TFA:COUNT:RESET" st
  | None =>
      let m := locals st in
      Some (mk_scpi (with_syst (TSystem.mk 0 (TSystem.flags (syst m))) m) (err st) (out st))
  end.

End Handlers.

(** [SYST:ERR?] *)
Definition scpi_SYST_ERR (st : scpi_state) : option scpi_state :=
  match serial_error SCPI_ERR_undefinedHeader None SCPI_ERR_SEND true (err st) (out st) with
  | Some (e, o) => Some (mk_scpi (locals st) e o)
  | None => None
  end.

(** An unknown command [cmdbuf]. *)
Definition scpi_unknown (cmdbuf : string) (malloc_ok : bool) (st : scpi_state)
    : option scpi_state :=
  match serial_error SCPI_ERR_undefinedHeader (Some cmdbuf)
                     (Z.lor SCPI_ERR_STORE SCPI_ERR_STR) malloc_ok (err st) (out st) with
  | Some (e, o) => Some (mk_scpi (locals st) e o)
  | None => None
  end.

(** The command side after start-up with channel 2 holding an unread
    reading of sensor 9. *)
Definition scpi_example : scpi_state :=
  mk_scpi (mk_main (TTFA.mk (TTFA.data tfa_zero) 0 [45; 237; 16; 9; 9] TFA_NEW_PACKET)
                   (TSystem.mk 1 SYST_HEAD)
                   (<[1%nat := reading_id9_chn2]> (sensors main_example)) [])
          err_init "".

(** An [atoi] for the examples: the value of a single digit. *)
Definition atoi_digit (p : string) : Z := first_char p - 48.

(** ** [serial.c]: the receive buffer and the command decoder

    The pointers into [rxd] and into the caller's command buffer are
    indices.  A write outside the command buffer has no meaning in C and
    makes the decoder's result [None]. *)

Definition RX_BUF_SZ : nat := 128.

Definition NUL : ascii := zero.
Definition LF : ascii := ascii_of_nat 10.
Definition CR : ascii := ascii_of_nat 13.

Record rx_state : Type := mk_rx {
  rxd : list ascii;    (* char rxd[RX_BUF_SZ] *)
  rxd_ptr : nat;       (* volatile char *rxd_ptr *)
  rxd_read : nat;      (* volatile char *rxd_read *)
  rxd_stat : Z         (* volatile int8_t rxd_stat *)
}.

(** [serial_fifo_wrap(rxd,&addr)] *)
Definition serial_fifo_wrap (addr : nat) : nat :=
  if (RX_BUF_SZ <=? addr)%nat then 0%nat (* wrap around buffer *) else addr.

(** [ISR(USART0_RX_vect)]; [udr0] is the byte read from [UDR0]. *)
Definition ISR_USART0_RX (udr0 : ascii) (r : rx_state) : rx_state :=
  let ptr := rxd_ptr r in
  (* read byte *)
  let dbyte := udr0 in
  (* store data byte *)
  let buf := <[ptr := dbyte]> (rxd r) in
  let ptr := serial_fifo_wrap (S ptr) in
  let buf := <[ptr := NUL]> buf in
  (* detect command end *)
  let stat :=
    if Ascii.eqb dbyte LF || Ascii.eqb dbyte ";" then sint8 (rxd_stat r + 1)
    else rxd_stat r in
  mk_rx buf ptr (rxd_read r) stat.

(** [serial_init], the part on the receive buffer. *)
Definition serial_init (r : rx_state) : rx_state :=
  mk_rx (<[0%nat := NUL]> (rxd r)) 0 0 0.

(** The bytes of a received stream, one interrupt each. *)
Definition receive (bytes : list ascii) (r : rx_state) : rx_state :=
  foldl (fun r b => ISR_USART0_RX b r) r bytes.

(** The locals of [serial_decode]. *)
Record dec_state : Type := mk_dec {
  cbuf : list ascii;   (* the caller's buffer behind [cbuf] *)
  com : nat;           (* char *com, an index into [cbuf] *)
  par : option nat;    (* *par, an index into [cbuf], or NULL *)
  ptr : nat;           (* char *ptr, an index into [rxd] *)
  is_end : bool;       (* uint8_t is_end *)
  count : Z            (* int8_t count *)
}.

(** [*com++ = c] *)
Definition put (c : ascii) (d : dec_state) : option dec_state :=
  if (com d <? length (cbuf d))%nat
  then Some (mk_dec (<[com d := c]> (cbuf d)) (S (com d)) (par d) (ptr d) (is_end d) (count d))
  else None.

(** [while( *ptr == ' ') { ptr++; serial_fifo_wrap(rxd,&ptr); }] *)
Fixpoint skip_spaces (fuel : nat) (buf : list ascii) (ptr : nat) : option nat :=
  match fuel with
  | O => None
  | S fuel =>
      if Ascii.eqb (nth ptr buf NUL) " "
      then skip_spaces fuel buf (serial_fifo_wrap (S ptr))
      else Some ptr
  end.

(** The [while(1)] loop of [serial_decode]; the result is the state at the
    [break]. *)
Fixpoint decode_loop (fuel : nat) (buf : list ascii) (d : dec_state) : option dec_state :=
  match fuel with
  | O => None
  | S fuel =>
      (* get RX byte *)
      let db := nth (ptr d) buf NUL in
      if Ascii.eqb db " " && match par d with None => true | Some _ => false end then
        (* parameter separator *)
        match put NUL d with
        | None => None
        | Some d =>
            (* return parameter pointer *)
            let d := mk_dec (cbuf d) (com d) (Some (com d)) (ptr d) (is_end d) (count d) in
            (* skip parameter separator(s) *)
            match skip_spaces fuel buf (ptr d) with
            | None => None
            | Some p =>
                decode_loop fuel buf (mk_dec (cbuf d) (com d) (par d) p (is_end d) (count d))
            end
        end
      else if Ascii.eqb db ";" || Ascii.eqb db LF || Ascii.eqb db CR then
        (* update remaining events count *)
        let d :=
          if negb (Ascii.eqb db CR)
          then mk_dec (cbuf d) (com d) (par d) (ptr d) (is_end d) (sint8 (count d + 1))
          else d in
        (* end of command *)
        match (if negb (is_end d) then put NUL d else Some d) with
        | None => None
        | Some d =>
            decode_loop fuel buf
              (mk_dec (cbuf d) (com d) (par d) (serial_fifo_wrap (S (ptr d))) true (count d))
        end
      else if is_end d then
        (* end of command reached *)
        Some d
      else
        (* copy command data *)
        match put db d with
        | None => None
        | Some d =>
            decode_loop fuel buf
              (mk_dec (cbuf d) (com d) (par d) (serial_fifo_wrap (S (ptr d))) (is_end d)
                      (count d))
        end
  end.

(** [serial_decode(cbuf,&par)]: the return value, the command buffer, the
    parameter pointer and the receiver afterwards.  [cbuf0] and [par0] are
    what the caller's variables hold before the call. *)
Definition serial_decode (fuel : nat) (cbuf0 : list ascii) (par0 : option nat)
    (r : rx_state) : option (Z * list ascii * option nat * rx_state) :=
  (* check command completeness *)
  let stat := rxd_stat r in
  if stat <? 1 then Some (0, cbuf0, par0, r) (* no command yet - get out *)
  else
    match put NUL (mk_dec cbuf0 0 None (rxd_read r) false 0) with
    | None => None
    | Some d =>
        let d := mk_dec (cbuf d) 0 None (ptr d) false 0 in
        match decode_loop fuel (rxd r) d with
        | None => None
        | Some d =>
            (* store next command read position, update new command events count *)
            let r := mk_rx (rxd r) (rxd_ptr r) (ptr d) (sint8 (rxd_stat r - count d)) in
            Some (if Ascii.eqb (nth 0 (cbuf d) NUL) NUL then 0 else 1, cbuf d, par d, r)
        end
    end.

(** *** Received commands

    Position [i] of a stream whose first byte went to [rxd[p]]. *)
Definition ring_idx (p i : nat) : nat :=
  if (p + i <? RX_BUF_SZ)%nat then (p + i)%nat else (p + i - RX_BUF_SZ)%nat.

(** [rxd] holds [chars] from stream position [i] on. *)
Definition ring_holds (p : nat) (buf : list ascii) (i : nat) (chars : list ascii) : Prop :=
  forall m c, chars !! m = Some c -> nth (ring_idx p (i + m)) buf NUL = c.

Definition is_terminator (c : ascii) : bool :=
  Ascii.eqb c ";" || Ascii.eqb c LF || Ascii.eqb c CR.

(** The characters of a command word: no space, no terminator, no NUL. *)
Definition is_word_char (c : ascii) : bool :=
  negb (Ascii.eqb c " " || is_terminator c || Ascii.eqb c NUL).

(** The characters of a parameter: no terminator. *)
Definition is_par_char (c : ascii) : bool := negb (is_terminator c).

(** The command terminators that are counted. *)
Definition counted (tl : list ascii) : nat :=
  length (List.filter (fun c => Ascii.eqb c LF || Ascii.eqb c ";") tl).

(** A command line: the command word, then possibly one or more spaces and
    a parameter that does not start with a space, then terminators. *)
Definition command_line (cmd : list ascii) (param : option (nat * list ascii))
    (tl : list ascii) : list ascii :=
  cmd ++ match param with
         | None => []
         | Some (k, arg) => repeat " "%char (S k) ++ arg
         end ++ tl.

(** What the decoder leaves at the start of the command buffer. *)
Definition decoded (cmd : list ascii) (param : option (nat * list ascii)) : list ascii :=
  cmd ++ [NUL] ++ match param with
                  | None => []
                  | Some (_, arg) => arg ++ [NUL]
                  end.

(** The receiver with nothing pending: read and write pointer together. *)
Definition rx_idle (r : rx_state) : Prop :=
  length (rxd r) = RX_BUF_SZ /\ (rxd_ptr r < RX_BUF_SZ)%nat /\
  rxd_read r = rxd_ptr r /\ rxd_stat r = 0.

(** The receiver after [serial_init] on a cleared buffer. *)
Definition rx_example : rx_state := serial_init (mk_rx (repeat NUL RX_BUF_SZ) 0 0 0).

(** The command line [TFA:SYNC 2] ended by carriage return and line feed. *)
Definition sync_2_cmd : list ascii := list_ascii_of_string "TFA:SYNC".
Definition sync_2_param : option (nat * list ascii) := Some (0%nat, ["2"%char]).
Definition sync_2_end : list ascii := [CR; LF].

(** The shape of a command line that the decoder takes apart: a word of
    word characters, a parameter without terminators that does not start
    with a space, and terminators of which at least one is counted. *)
Definition command_ok (cmd : list ascii) (param : option (nat * list ascii))
    (tl : list ascii) : Prop :=
  cmd <> [] /\ forallb is_word_char cmd = true /\
  match param with
  | None => True
  | Some (_, arg) => forallb is_par_char arg = true /\ head arg <> Some " "%char
  end /\
  forallb is_terminator tl = true /\ (1 <= counted tl)%nat.

(** Two commands in one line: [TFA:SYNC 2;TFA:COUNT?] and a line feed. *)
Definition count_cmd : list ascii := list_ascii_of_string "TFA:COUNT?".

(** The accept path run for a sequence of readings. *)
Definition accept_all (readings : list TSensor.t) (m : main_state) : option main_state :=
  foldl (fun o sensor => match o with Some m => accept sensor m | None => None end)
        (Some m) readings.

(** [sprintf(str,"%u",n)] for a [uint16_t]. *)
Definition decimal (n : Z) : string :=
  DecimalString.NilZero.string_of_uint (N.to_uint (Z.to_N n)).
(** * Properties *)

(** ** Comparisons and machine integers *)

Lemma not_f32_lt (x y : f32) : ~ f32_lt x y <-> SFltb x y = false.
Proof. unfold f32_lt. destruct (SFltb x y); split; congruence. Qed.

Lemma isr_decode_framer (F : Z) (s : isr_state) :
  isr_decode F s = framer (classify F (tfa_timer s)) s.
Proof.
  unfold isr_decode, classify, TFA_IS_GLITCH, TFA_IS_STOP, TFA_IS_GAP, TFA_IS_START,
    TFA_IS_HIGH, glitch_threshold, stop_threshold, gap_threshold, start_threshold,
    midpoint_threshold, TFA_T_MID.
  repeat match goal with |- context [if ?b then _ else _] => destruct b; [reflexivity|] end.
  reflexivity.
Qed.

(** The classification at 8 MHz, for every value of the 8-bit pulse timer. *)
Lemma classify_8MHz_check :
  forallb (fun d => pulse_kind_eqb (classify F_CPU_8MHz d) (classify_8MHz d)) (seqZ 0 256)
  = true.
Proof. vm_compute. reflexivity. Qed.

Lemma pulse_kind_eqb_eq (a b : pulse_kind) : pulse_kind_eqb a b = true -> a = b.
Proof.
  destruct a as [| | | |x], b as [| | | |y]; cbn; try discriminate; try reflexivity.
  intros H. apply Bool.eqb_prop in H. now subst.
Qed.

Lemma sint8_small (z : Z) : -128 <= z <= 127 -> sint8 z = z.
Proof.
  intros H. unfold sint8. rewrite Z.mod_small by lia. lia.
Qed.

Lemma uint8_small (z : Z) : 0 <= z < 256 -> uint8 z = z.
Proof. intros H. unfold uint8. now apply Z.mod_small. Qed.

(** The decoder reads and writes the framer's part of the state only, apart
    from the LED bookkeeping of the gap branch. *)
Lemma isr_decode_same_framer (F : Z) (s s' : isr_state) :
  same_framer s s' -> tfa_timer s = tfa_timer s' ->
  same_framer (isr_decode F s) (isr_decode F s').
Proof.
  destruct s, s'. unfold same_framer. simpl.
  intros (-> & -> & -> & ->) ->.
  unfold isr_decode, on_glitch, on_stop, on_gap, on_start, on_data. simpl.
  repeat match goal with
         | |- context [if ?b then _ else _] => destruct b; simpl
         end; auto.
Qed.

(** ** The classification chain *)

(** C5: the decoder of the interrupt handler follows the priority chain
    glitch, stop, gap, start, data: it runs the glitch branch when the pulse
    length is below the glitch threshold; else the stop branch when it is
    below the stop threshold; else the gap branch when it is above the gap
    threshold; else the start branch when it is above the start threshold;
    else the data branch, with bit value 1 exactly when the length is at or
    above the midpoint threshold.  This is the tagged classifier followed by
    the match.  The thresholds are the quotients of [tfa.h] in binary32, the
    midpoint that of the average of the short and long reference durations.
    At 8 MHz they are 4, 14155777/2^19 (just above 27), 14155777/2^18 (just
    above 54), 100 and 200 ticks: lengths 0..3 are glitches, 4..27 stop bits,
    28..54 data bits 0, 55..100 data bits 1, 101..200 start bits and 201..255
    gaps. *)
Theorem classifier_priority_chain (F : Z) (s : isr_state) :
  let t := f32_of_Z (tfa_timer s) in
  isr_decode F s = framer (classify F (tfa_timer s)) s /\
  (f32_lt t (glitch_threshold F) ->
     classify F (tfa_timer s) = Glitch /\ isr_decode F s = on_glitch s) /\
  (~ f32_lt t (glitch_threshold F) -> f32_lt t (stop_threshold F) ->
     classify F (tfa_timer s) = StopBit /\ isr_decode F s = on_stop s) /\
  (~ f32_lt t (glitch_threshold F) -> ~ f32_lt t (stop_threshold F) ->
   f32_lt (gap_threshold F) t ->
     classify F (tfa_timer s) = Gap /\ isr_decode F s = on_gap s) /\
  (~ f32_lt t (glitch_threshold F) -> ~ f32_lt t (stop_threshold F) ->
   ~ f32_lt (gap_threshold F) t -> f32_lt (start_threshold F) t ->
     classify F (tfa_timer s) = StartBit /\ isr_decode F s = on_start s) /\
  (~ f32_lt t (glitch_threshold F) -> ~ f32_lt t (stop_threshold F) ->
   ~ f32_lt (gap_threshold F) t -> ~ f32_lt (start_threshold F) t ->
     exists value : bool,
       classify F (tfa_timer s) = DataBit value /\
       isr_decode F s = on_data value s /\
       (value = true <-> f32_le (midpoint_threshold F) t)) /\
  (TFA_IS_GLITCH F (tfa_timer s) = SFltb t (glitch_threshold F) /\
   TFA_IS_STOP F (tfa_timer s) = SFltb t (stop_threshold F) /\
   TFA_IS_GAP F (tfa_timer s) = SFltb (gap_threshold F) t /\
   TFA_IS_START F (tfa_timer s) = SFltb (start_threshold F) t /\
   TFA_IS_HIGH F (tfa_timer s) = SFleb (midpoint_threshold F) t) /\
  midpoint_threshold F
  = f32_div (f32_mul (f32_const 5 10) (f32_add TFA_T_SHORT TFA_T_LONG)) (TFA_TICK_REAL F) /\
  (f32_value (glitch_threshold F_CPU_8MHz) == 4 /\
   f32_value (stop_threshold F_CPU_8MHz) == 14155777 # 524288 /\
   f32_value (midpoint_threshold F_CPU_8MHz) == 14155777 # 262144 /\
   f32_value (start_threshold F_CPU_8MHz) == 100 /\
   f32_value (gap_threshold F_CPU_8MHz) == 200)%Q /\
  (forall d, 0 <= d <= 255 ->
     classify F_CPU_8MHz d
     = if d <? 4 then Glitch
       else if d <=? 27 then StopBit
       else if 200 <? d then Gap
       else if 100 <? d then StartBit
       else DataBit (55 <=? d)).
Proof.
  intros t. rewrite isr_decode_framer. unfold classify. fold t.
  split; [reflexivity|].
  split. { intros H. unfold f32_lt in H. rewrite H. auto. }
  split. { intros H%not_f32_lt H0. unfold f32_lt in H0. rewrite H, H0. auto. }
  split. { intros H%not_f32_lt H0%not_f32_lt H1. unfold f32_lt in H1. rewrite H, H0, H1. auto. }
  split.
  { intros H%not_f32_lt H0%not_f32_lt H1%not_f32_lt H2. unfold f32_lt in H2.
    rewrite H, H0, H1, H2. auto. }
  split.
  { intros H%not_f32_lt H0%not_f32_lt H1%not_f32_lt H2%not_f32_lt.
    rewrite H, H0, H1, H2.
    exists (SFleb (midpoint_threshold F) t).
    split; [reflexivity|]. split; [reflexivity|]. unfold f32_le. reflexivity. }
  split; [repeat split|]. split; [reflexivity|].
  split; [repeat split; vm_compute; reflexivity|].
  intros d Hd.
  pose proof classify_8MHz_check as Hc. rewrite forallb_forall in Hc.
  apply pulse_kind_eqb_eq. apply (Hc d). apply list_elem_of_In, elem_of_seqZ. lia.
Qed.

(** ** The handler, tick by tick *)

Lemma same_framer_refl (s : isr_state) : same_framer s s.
Proof. unfold same_framer. auto. Qed.

Lemma same_framer_sym (s s' : isr_state) : same_framer s s' -> same_framer s' s.
Proof. unfold same_framer. intuition congruence. Qed.

Lemma same_framer_trans (s1 s2 s3 : isr_state) :
  same_framer s1 s2 -> same_framer s2 s3 -> same_framer s1 s3.
Proof. unfold same_framer. intuition congruence. Qed.

(** What follows the edge handling in the handler: the pulse timer and the
    LED delay.  Neither touches the framer. *)
Lemma ISR_tail_same_framer (F : Z) (s : isr_state) :
  same_framer
    (let s := if tfa_timer s <? 255 then set_tfa_timer (uint8 (tfa_timer s + 1)) s else s in
     let s := set_led_delay (uint16 (led_delay s + 1)) s in
     if SFleb (LED_DELAY F) (f32_of_Z (led_delay s))
     then set_PORTD (cbi (PORTD s) LED_PACKET) s
     else s)
    s.
Proof.
  cbv zeta. unfold same_framer.
  destruct (tfa_timer s <? 255);
    match goal with |- context [if ?b then _ else _] => destruct b end;
    simpl; auto.
Qed.

(** A tick is either transparent for the framer or one run of the decoder. *)
Lemma ISR_cases (F : Z) (pind : Z) (s : isr_state) :
  same_framer (ISR_TIMER0_COMPA F pind s) s \/
  same_framer (ISR_TIMER0_COMPA F pind s) (isr_decode F s).
Proof.
  unfold ISR_TIMER0_COMPA.
  set (st := Z.land pind (Z.shiftl 1 ARX)).
  destruct (negb (Z.land (Z.lxor st (tfa_old s)) (tfa_old s) =? 0)).
  - left. eapply same_framer_trans; [apply ISR_tail_same_framer|].
    unfold same_framer. simpl. auto.
  - destruct (negb (Z.land (Z.lxor st (tfa_old s)) st =? 0)).
    + right. eapply same_framer_trans; [apply ISR_tail_same_framer|].
      apply isr_decode_same_framer; [|reflexivity].
      unfold same_framer. simpl. auto.
    + left. eapply same_framer_trans; [apply ISR_tail_same_framer|].
      unfold same_framer. simpl. auto.
Qed.

(** On a rising edge the decoder runs. *)
Lemma ISR_rise (F : Z) (pind : Z) (s : isr_state) :
  tfa_old s = 0 -> Z.land pind (Z.shiftl 1 ARX) <> 0 ->
  same_framer (ISR_TIMER0_COMPA F pind s) (isr_decode F s).
Proof.
  intros Hold Hpin. unfold ISR_TIMER0_COMPA.
  rewrite Hold, Z.lxor_0_r, Z.land_0_r, Z.land_diag.
  change (negb (0 =? 0)) with false. cbv iota.
  destruct (Z.eqb_spec (Z.land pind (Z.shiftl 1 ARX)) 0) as [E|_]; [contradiction|].
  cbv [negb].
  eapply same_framer_trans; [apply ISR_tail_same_framer|].
  apply isr_decode_same_framer; [|reflexivity].
  unfold same_framer. simpl. auto.
Qed.

(** ** Glitches *)

(** C9: for every pulse length below the glitch threshold the classifier
    yields glitch, and the decoder's only change to the state is the bit
    countdown, set to -1: the repetition index, the capture buffer and the
    published object stay as they were.  The same holds for the whole tick
    of the handler that sees the rising edge. *)
Theorem glitch_aborts_only_current_repetition (F : Z) (s : isr_state) :
  f32_lt (f32_of_Z (tfa_timer s)) (glitch_threshold F) ->
  classify F (tfa_timer s) = Glitch /\
  isr_decode F s = set_tfa_buf_bit (-1) s /\
  tfa_buf_packet (isr_decode F s) = tfa_buf_packet s /\
  tfa_buf (isr_decode F s) = tfa_buf s /\
  p_tfa (isr_decode F s) = p_tfa s /\
  forall pind : Z,
    tfa_old s = 0 -> Z.land pind (Z.shiftl 1 ARX) <> 0 ->
    let s' := ISR_TIMER0_COMPA F pind s in
    tfa_buf_bit s' = -1 /\ tfa_buf_packet s' = tfa_buf_packet s /\
    tfa_buf s' = tfa_buf s /\ p_tfa s' = p_tfa s.
Proof.
  intros H. unfold f32_lt in H.
  assert (Hc : classify F (tfa_timer s) = Glitch) by (unfold classify; now rewrite H).
  assert (Hd : isr_decode F s = set_tfa_buf_bit (-1) s)
    by (rewrite isr_decode_framer, Hc; reflexivity).
  split; [exact Hc|]. split; [exact Hd|].
  rewrite Hd. simpl. repeat split; try reflexivity.
  - destruct (ISR_rise F pind s H0 H1) as (_ & -> & _). now rewrite Hd.
  - destruct (ISR_rise F pind s H0 H1) as (_ & _ & -> & _). now rewrite Hd.
  - destruct (ISR_rise F pind s H0 H1) as (-> & _). now rewrite Hd.
  - destruct (ISR_rise F pind s H0 H1) as (_ & _ & _ & ->). now rewrite Hd.
Qed.

Lemma glitch_aborts_only_current_repetition_witness :
  tfa_buf_bit (isr_decode F_CPU_8MHz glitch_example) = -1 /\
  tfa_buf_packet (isr_decode F_CPU_8MHz glitch_example) = 2 /\
  tfa_buf (isr_decode F_CPU_8MHz glitch_example) = tfa_buf glitch_example.
Proof.
  assert (H : f32_lt (f32_of_Z (tfa_timer glitch_example)) (glitch_threshold F_CPU_8MHz))
    by reflexivity.
  destruct (glitch_aborts_only_current_repetition F_CPU_8MHz glitch_example H)
    as (_ & Hd & Hp & Hb & _).
  split; [rewrite Hd; reflexivity|]. split; [exact Hp | exact Hb].
Defined.

(** ** End of a burst *)

Lemma land_lor_NEW_PACKETS (f : Z) :
  Z.land (Z.lor f TFA_NEW_PACKETS) TFA_NEW_PACKETS <> 0.
Proof.
  intros H.
  assert (Hb : Z.testbit (Z.land (Z.lor f TFA_NEW_PACKETS) TFA_NEW_PACKETS) 0 = true).
  { rewrite Z.land_spec, Z.lor_spec. change (Z.testbit TFA_NEW_PACKETS 0) with true.
    now rewrite orb_true_r. }
  rewrite H in Hb. discriminate.
Qed.

(** C6: when a gap is classified, the decoder publishes the capture set
    (all capture bytes, the count, the new-burst flag) exactly when the
    repetition index is between 3 and 7; otherwise the published object and
    the LED port are untouched, no flag is set, and a reconciler that had
    nothing pending still reports nothing.  In both cases the repetition
    index is reset to 0. *)
Theorem gap_publishes_between_3_and_7 (F : Z) (s : isr_state) :
  classify F (tfa_timer s) = Gap ->
  let s' := isr_decode F s in
  tfa_buf_packet s' = 0 /\
  tfa_buf s' = tfa_buf s /\
  tfa_buf_bit s' = tfa_buf_bit s /\
  (3 <= tfa_buf_packet s <= TFA_PACKETS ->
     TTFA.data (p_tfa s') = tfa_buf s /\
     TTFA.packets (p_tfa s') = tfa_buf_packet s /\
     TTFA.flags (p_tfa s') = Z.lor (TTFA.flags (p_tfa s)) TFA_NEW_PACKETS /\
     Z.land (TTFA.flags (p_tfa s')) TFA_NEW_PACKETS <> 0 /\
     TTFA.packet (p_tfa s') = TTFA.packet (p_tfa s)) /\
  (~ (3 <= tfa_buf_packet s <= TFA_PACKETS) ->
     p_tfa s' = p_tfa s /\
     PORTD s' = PORTD s /\
     (Z.land (TTFA.flags (p_tfa s)) TFA_NEW_PACKETS = 0 ->
        tfa_proc_packets (p_tfa s') = (0, p_tfa s))).
Proof.
  intros Hc s'. subst s'. rewrite isr_decode_framer, Hc. unfold framer, on_gap.
  destruct (Z.leb_spec 3 (tfa_buf_packet s)) as [H3|H3];
    destruct (Z.leb_spec (tfa_buf_packet s) TFA_PACKETS) as [H7|H7]; simpl;
    (split; [reflexivity|]); (split; [reflexivity|]); (split; [reflexivity|]); split;
    try (intros; lia).
  - intros _. repeat split; try reflexivity. apply land_lor_NEW_PACKETS.
  - intros _. repeat split. intros Hf. unfold tfa_proc_packets. now rewrite Hf.
  - intros _. repeat split. intros Hf. unfold tfa_proc_packets. now rewrite Hf.
  - intros _. repeat split. intros Hf. unfold tfa_proc_packets. now rewrite Hf.
Qed.

Lemma gap_publishes_between_3_and_7_witness :
  tfa_buf_packet (isr_decode F_CPU_8MHz gap_example) = 0 /\
  TTFA.data (p_tfa (isr_decode F_CPU_8MHz gap_example)) = tfa_buf gap_example /\
  TTFA.packets (p_tfa (isr_decode F_CPU_8MHz gap_example)) = 5.
Proof.
  assert (Hc : classify F_CPU_8MHz (tfa_timer gap_example) = Gap) by reflexivity.
  destruct (gap_publishes_between_3_and_7 F_CPU_8MHz gap_example Hc)
    as (H0 & _ & _ & Hpub & _).
  destruct Hpub as (Hd & Hn & _); [vm_compute; split; discriminate|].
  split; [exact H0|]. split; [exact Hd | exact Hn].
Defined.

(** ** The repetition index *)

Lemma index_inv_same_framer (n0 : Z) (s s' : isr_state) :
  same_framer s s' -> index_inv n0 s' -> index_inv n0 s.
Proof. unfold same_framer, index_inv. intros (_ & _ & -> & ->). auto. Qed.

Lemma isr_decode_index_inv (F : Z) (n0 : Z) (s : isr_state) :
  index_inv n0 s -> index_inv n0 (isr_decode F s).
Proof.
  unfold index_inv. change (TFA_PACKETS + 1) with 8. change TFA_PACKETS with 7.
  intros [Hi Hp]. rewrite isr_decode_framer.
  destruct (classify F (tfa_timer s)); unfold framer.
  - simpl. auto.
  - unfold on_stop. change (TFA_PACKETS + 1) with 8.
    destruct (tfa_buf_bit s =? 0); [|auto]. cbn -[Z.ltb uint8].
    destruct (Z.ltb_spec (tfa_buf_packet s) 8); cbn -[uint8]; [|auto].
    rewrite uint8_small by lia. split; [lia|auto].
  - unfold on_gap. change TFA_PACKETS with 7.
    destruct (Z.leb_spec 3 (tfa_buf_packet s));
      destruct (Z.leb_spec (tfa_buf_packet s) 7); simpl; (split; [lia|]); auto.
  - unfold on_start. simpl.
    destruct (tfa_buf_packet s <? TFA_PACKETS); simpl; auto.
  - unfold on_data.
    destruct (0 <? tfa_buf_bit s); destruct (tfa_buf_packet s <? TFA_PACKETS);
      destruct (0 <=? tfa_buf_bit s); simpl; auto.
Qed.

Lemma run_index_inv (F : Z) (n0 : Z) (pins : list Z) (s : isr_state) :
  index_inv n0 s -> index_inv n0 (run F pins s).
Proof.
  revert s. induction pins as [|pind pins IH]; intros s Hs; [exact Hs|].
  simpl. apply IH.
  destruct (ISR_cases F pind s) as [H|H];
    apply (index_inv_same_framer _ _ _ H); [exact Hs|].
  now apply isr_decode_index_inv.
Qed.

Lemma isr_decode_full_buffer (F : Z) (s : isr_state) :
  TFA_PACKETS <= tfa_buf_packet s -> tfa_buf (isr_decode F s) = tfa_buf s.
Proof.
  unfold TFA_PACKETS. intros H. rewrite isr_decode_framer.
  destruct (classify F (tfa_timer s)); simpl.
  - reflexivity.
  - unfold on_stop. destruct (tfa_buf_bit s =? 0); simpl; [|reflexivity].
    destruct (tfa_buf_packet s <? TFA_PACKETS + 1); reflexivity.
  - unfold on_gap.
    destruct ((3 <=? tfa_buf_packet s) && (tfa_buf_packet s <=? TFA_PACKETS)); reflexivity.
  - unfold on_start, TFA_PACKETS. simpl.
    destruct (Z.ltb_spec (tfa_buf_packet s) 7); [lia|reflexivity].
  - unfold on_data, TFA_PACKETS.
    destruct (Z.ltb_spec (tfa_buf_packet s) 7); [lia|].
    rewrite andb_false_r. destruct (0 <=? tfa_buf_bit s); reflexivity.
Qed.


(** The state [eighth_stop_pending], computed. *)
Lemma eighth_stop_pending_value :
  eighth_stop_pending
  = mk_isr 14758 0 10 (repeat (repeat 0 TFA_BUF_BYTES) (Z.to_nat TFA_PACKETS)) 0 7
           (TTFA.mk (repeat (repeat 0 TFA_BUF_BYTES) (Z.to_nat TFA_PACKETS)) 0
                    (repeat 0 TFA_BUF_BYTES) 0) 0.
Proof. vm_compute. reflexivity. Qed.



(** ** Checking a property on every value of a bounded field *)

Lemma forallb_seqZ (f : Z -> bool) (n : Z) :
  forallb f (seqZ 0 n) = true -> forall x, 0 <= x < n -> f x = true.
Proof.
  intros H x Hx. rewrite forallb_forall in H. apply H.
  apply list_elem_of_In, elem_of_seqZ. lia.
Qed.

Lemma land_ones_range (x : Z) (n : Z) : 0 <= n -> 0 <= Z.land x (Z.ones n) < 2 ^ n.
Proof.
  intros Hn. rewrite Z.land_ones by exact Hn. apply Z.mod_pos_bound. lia.
Qed.

(** ** The temperature field *)

Lemma signed12_check_all : forallb signed12_check (seqZ 0 4096) = true.
Proof. vm_compute. reflexivity. Qed.

Lemma temp_scale_check_all : forallb temp_scale_check (seqZ (-2048) 4096) = true.
Proof. vm_compute. reflexivity. Qed.

Lemma temp_scale_check_true (x : Z) : -2048 <= x < 2048 -> temp_scale_check x = true.
Proof.
  intros Hx. pose proof temp_scale_check_all as H. rewrite forallb_forall in H.
  apply H. apply list_elem_of_In, elem_of_seqZ. lia.
Qed.

(** C8: for every packet, [tfa_parse] takes the low 12 bits of
    (b2<<8 | b1), copies bit 11 into bits 12 to 15 and leaves bits 0 to 11,
    reads the 16-bit result as a signed integer, which is the 12-bit field
    as a two's complement number, and stores that number scaled by 0.1: the
    binary32 product of the constant 0.1 (13421773/2^27) and the number, which
    is less than 1/100000 degree away from the tenth part of the number.  Raw
    4088 (0xFF8) gives -8 tenths and the temperature -13421773/2^24, the
    binary32 number for -0.8; raw 0x800 gives -2048 tenths and the
    temperature -13421773/2^16, the binary32 number for -204.8. *)
Theorem tfa_parse_temperature_sign_extension (t : TTFA.t) :
  let packet := TTFA.packet t in
  let raw := Z.land (Z.lor (packet !!! 1%nat) (Z.shiftl (packet !!! 2%nat) 8)) 0x0FFF in
  (forall i, 12 <= i < 16 -> Z.testbit (parse_temp_u16 packet) i = Z.testbit raw 11) /\
  (forall i, 0 <= i < 12 -> Z.testbit (parse_temp_u16 packet) i = Z.testbit raw i) /\
  0 <= parse_temp_u16 packet < 65536 /\
  parse_temp10 packet = as_int16 (parse_temp_u16 packet) /\
  parse_temp10 packet = (if raw <? 2048 then raw else raw - 4096) /\
  TSensor.temp (snd (tfa_parse t))
  = f32_mul (f32_const 1 10) (f32_of_Z (parse_temp10 packet)) /\
  f32_const 1 10 = S754_finite false 13421773 (-27) /\
  (Qabs (f32_value (TSensor.temp (snd (tfa_parse t))) - (parse_temp10 packet # 10))
   <= 1 # 100000)%Q /\
  (raw = 4088 ->
     parse_temp10 packet = -8 /\
     TSensor.temp (snd (tfa_parse t)) = S754_finite true 13421773 (-24) /\
     TSensor.temp (snd (tfa_parse t)) = f32_const (-8) 10 /\
     (f32_value (TSensor.temp (snd (tfa_parse t))) == - (13421773 # 16777216))%Q) /\
  (raw = 0x800 ->
     parse_temp10 packet = -2048 /\
     TSensor.temp (snd (tfa_parse t)) = S754_finite true 13421773 (-16) /\
     TSensor.temp (snd (tfa_parse t)) = f32_const (-2048) 10 /\
     (f32_value (TSensor.temp (snd (tfa_parse t))) == - (13421773 # 65536))%Q).
Proof.
  intros packet raw.
  assert (Hr : 0 <= raw < 4096) by (apply (land_ones_range _ 12); lia).
  pose proof (forallb_seqZ _ _ signed12_check_all raw Hr) as Hc.
  unfold signed12_check in Hc.
  apply andb_prop in Hc as [Hc Hhi]. apply andb_prop in Hc as [Hc Hlo].
  apply andb_prop in Hc as [Hc Hlow]. apply andb_prop in Hc as [Hv Hext].
  assert (Hu : parse_temp_u16 packet =
               if negb (Z.land raw 0x0800 =? 0) then uint16 (Z.lor raw 0xF000) else raw)
    by reflexivity.
  assert (Ht : parse_temp10 packet = if raw <? 2048 then raw else raw - 4096).
  { unfold parse_temp10. rewrite Hu. now apply Z.eqb_eq. }
  assert (Hrange : -2048 <= parse_temp10 packet < 2048).
  { rewrite Ht. destruct (Z.ltb_spec raw 2048); lia. }
  assert (Htemp : TSensor.temp (snd (tfa_parse t))
                  = f32_mul (f32_const 1 10) (f32_of_Z (parse_temp10 packet)))
    by reflexivity.
  split.
  { intros i Hi. rewrite Hu. rewrite forallb_forall in Hext.
    apply eqb_prop, Hext. simpl. lia. }
  split.
  { intros i Hi. rewrite Hu. rewrite forallb_forall in Hlow.
    apply eqb_prop, Hlow. apply list_elem_of_In, elem_of_seqZ. lia. }
  split. { rewrite Hu. split; [now apply Z.leb_le | now apply Z.ltb_lt]. }
  split; [reflexivity|]. split; [exact Ht|]. split; [exact Htemp|].
  split; [vm_compute; reflexivity|].
  split.
  { rewrite Htemp. pose proof (temp_scale_check_true _ Hrange) as Hs.
    unfold temp_scale_check in Hs. apply andb_prop in Hs as [Hs _].
    now apply Qle_bool_iff in Hs. }
  split; intros Hraw; rewrite Htemp, Ht, Hraw;
    (split; [reflexivity|]); (split; [vm_compute; reflexivity|]);
    (split; [vm_compute; reflexivity|]); vm_compute; reflexivity.
Qed.

(** ** Channel slots *)

Lemma tfa_parse_channel_range (t : TTFA.t) :
  1 <= TSensor.channel (snd (tfa_parse t)) <= 4.
Proof.
  unfold tfa_parse. cbn [snd TSensor.channel].
  pose proof (land_ones_range (Z.shiftr (TTFA.packet t !!! 2%nat) 4) 2 ltac:(lia)) as H.
  change (Z.ones 2) with 3 in H. change (2 ^ 2) with 4 in H.
  rewrite uint8_small by lia. lia.
Qed.

Lemma accept_counts (sensor : TSensor.t) (st st' : main_state) :
  accept sensor st = Some st' ->
  TSystem.packets (syst st') = uint16 (TSystem.packets (syst st) + 1).
Proof.
  unfold accept. intros H.
  repeat match type of H with
         | context [match ?x with _ => _ end] => destruct x
         end; inversion H; reflexivity.
Qed.

(** The slot update of the accept path, on the list of slots alone. *)
Lemma accept_sensors (sensor : TSensor.t) (st : main_state) :
  length (sensors st) = 3%nat ->
  exists st',
    accept sensor st = Some st' /\
    sensors st' =
      if (0 <? TSensor.channel sensor) && (TSensor.channel sensor <=? SENSOR_CHANNELS)
      then match sensors st !! Z.to_nat (TSensor.channel sensor - 1) with
           | Some dsens =>
               if (TSensor.id dsens =? 0xFF) || (TSensor.id dsens =? TSensor.id sensor)
               then <[Z.to_nat (TSensor.channel sensor - 1) := sensor]> (sensors st)
               else sensors st
           | None => sensors st
           end
      else sensors st.
Proof.
  intros Hlen. unfold accept, SENSOR_CHANNELS.
  destruct (Z.ltb_spec 0 (TSensor.channel sensor)) as [H0|H0];
    destruct (Z.leb_spec (TSensor.channel sensor) 3) as [H3|H3]; cbn [andb].
  2-4: match goal with |- context [if ?b then _ else _] => destruct b end;
       eexists; split; reflexivity.
  destruct (lookup_lt_is_Some_2 (sensors st) (Z.to_nat (TSensor.channel sensor - 1)))
    as [dsens Hd]; [lia|].
  rewrite Hd.
  destruct ((TSensor.id dsens =? 255) || (TSensor.id dsens =? TSensor.id sensor));
    match goal with |- context [if ?b then _ else _] => destruct b end;
    eexists; split; reflexivity.
Qed.


Lemma reset_id_fields (s : TSensor.t) :
  TSensor.id (reset_id s) = 0xFF /\
  TSensor.channel (reset_id s) = TSensor.channel s /\
  TSensor.temp (reset_id s) = TSensor.temp s /\
  TSensor.rh (reset_id s) = TSensor.rh s /\
  TSensor.type (reset_id s) = TSensor.type s /\
  TSensor.flags (reset_id s) = TSensor.flags s.
Proof. repeat split. Qed.

(** C7: for a reading on channel c in 1..3 given to the accept path: when
    the identity stored in slot c is 0xFF or equals the reading's, the slot
    becomes the reading, so the reading's identity is the new lock, and the
    other slots keep their content; when the identities differ, no slot
    changes.  The resync command with channel c leaves in slot c the identity
    0xFF with the channel, temperature, humidity, type and flags that were
    stored there, and leaves the other slots as they were; without a channel
    it does so in each of the three slots.  After either resync the reading is
    accepted into slot c whatever identity was locked there before, its
    identity is the new lock, and a later reading on channel c with another
    identity is dropped. *)
Theorem identity_locking_and_resync
    (sensor : TSensor.t) (st : main_state) (c : Z) (dsens : TSensor.t) :
  length (sensors st) = 3%nat ->
  TSensor.channel sensor = c -> 1 <= c <= 3 ->
  sensors st !! Z.to_nat (c - 1) = Some dsens ->
  (TSensor.id dsens = 0xFF \/ TSensor.id dsens = TSensor.id sensor ->
     exists st',
       accept sensor st = Some st' /\
       sensors st' !! Z.to_nat (c - 1) = Some sensor /\
       forall k, k <> Z.to_nat (c - 1) -> sensors st' !! k = sensors st !! k) /\
  (TSensor.id dsens <> 0xFF -> TSensor.id dsens <> TSensor.id sensor ->
     exists st', accept sensor st = Some st' /\ sensors st' = sensors st) /\
  (exists slots d',
     scpi_TFA_SYNC (Some c) (sensors st) = inr slots /\
     slots !! Z.to_nat (c - 1) = Some d' /\
     TSensor.id d' = 0xFF /\
     TSensor.channel d' = TSensor.channel dsens /\
     TSensor.temp d' = TSensor.temp dsens /\
     TSensor.rh d' = TSensor.rh dsens /\
     TSensor.type d' = TSensor.type dsens /\
     TSensor.flags d' = TSensor.flags dsens /\
     (forall k, k <> Z.to_nat (c - 1) -> slots !! k = sensors st !! k) /\
     exists st',
       accept sensor (mk_main (tfa st) (syst st) slots (tx st)) = Some st' /\
       sensors st' !! Z.to_nat (c - 1) = Some sensor /\
       (forall k, k <> Z.to_nat (c - 1) -> sensors st' !! k = sensors st !! k) /\
       forall other : TSensor.t,
         TSensor.channel other = c ->
         TSensor.id sensor <> 0xFF -> TSensor.id other <> TSensor.id sensor ->
         exists st'', accept other st' = Some st'' /\ sensors st'' = sensors st') /\
  (exists slots,
     scpi_TFA_SYNC None (sensors st) = inr slots /\
     length slots = 3%nat /\
     (forall (k : nat) (d : TSensor.t), sensors st !! k = Some d ->
        exists d', slots !! k = Some d' /\
          TSensor.id d' = 0xFF /\
          TSensor.channel d' = TSensor.channel d /\
          TSensor.temp d' = TSensor.temp d /\
          TSensor.rh d' = TSensor.rh d /\
          TSensor.type d' = TSensor.type d /\
          TSensor.flags d' = TSensor.flags d) /\
     exists st',
       accept sensor (mk_main (tfa st) (syst st) slots (tx st)) = Some st' /\
       sensors st' !! Z.to_nat (c - 1) = Some sensor /\
       (forall k, k <> Z.to_nat (c - 1) -> sensors st' !! k = slots !! k) /\
       forall other : TSensor.t,
         TSensor.channel other = c ->
         TSensor.id sensor <> 0xFF -> TSensor.id other <> TSensor.id sensor ->
         exists st'', accept other st' = Some st'' /\ sensors st'' = sensors st').
Proof.
  intros Hlen Hc Hr Hd.
  assert (Hk : (Z.to_nat (c - 1) < length (sensors st))%nat) by lia.
  assert (Hin : (0 <? TSensor.channel sensor) && (TSensor.channel sensor <=? SENSOR_CHANNELS)
                = true).
  { rewrite Hc. unfold SENSOR_CHANNELS. apply andb_true_intro.
    split; [apply Z.ltb_lt | apply Z.leb_le]; lia. }
  assert (Hrelock : forall slots d',
            length slots = 3%nat -> slots !! Z.to_nat (c - 1) = Some d' ->
            TSensor.id d' = 0xFF ->
            exists st',
              accept sensor (mk_main (tfa st) (syst st) slots (tx st)) = Some st' /\
              sensors st' !! Z.to_nat (c - 1) = Some sensor /\
              (forall k, k <> Z.to_nat (c - 1) -> sensors st' !! k = slots !! k) /\
              forall other : TSensor.t,
                TSensor.channel other = c ->
                TSensor.id sensor <> 0xFF -> TSensor.id other <> TSensor.id sensor ->
                exists st'', accept other st' = Some st'' /\ sensors st'' = sensors st').
  { intros slots d' Hl Hd' Hid.
    destruct (accept_sensors sensor (mk_main (tfa st) (syst st) slots (tx st)) Hl)
      as (st' & Ha & Hs').
    cbn [sensors] in Hs'. rewrite Hin, Hc, Hd', Hid in Hs'. cbn in Hs'.
    assert (Hl' : length (sensors st') = 3%nat) by (rewrite Hs', length_insert; exact Hl).
    assert (Hat : sensors st' !! Z.to_nat (c - 1) = Some sensor).
    { rewrite Hs'. apply list_lookup_insert_eq. lia. }
    exists st'. split; [exact Ha|]. split; [exact Hat|]. split.
    - intros k Hne. rewrite Hs'. now apply list_lookup_insert_ne.
    - intros other Hoc Hff Hne.
      destruct (accept_sensors other st' Hl') as (st'' & Ha' & Hs'').
      exists st''. split; [exact Ha'|].
      rewrite Hoc in Hs''. rewrite Hc in Hin. rewrite Hin, Hat in Hs''.
      apply Z.eqb_neq in Hff. rewrite Hff in Hs''.
      assert (Hne' : (TSensor.id sensor =? TSensor.id other) = false)
        by (apply Z.eqb_neq; congruence).
      rewrite Hne' in Hs''. exact Hs''. }
  split; [|split; [|split]].
  - intros Hid. destruct (accept_sensors sensor st Hlen) as (st' & Ha & Hs).
    exists st'. split; [exact Ha|].
    rewrite Hin, Hc, Hd in Hs.
    assert (Hm : (TSensor.id dsens =? 255) || (TSensor.id dsens =? TSensor.id sensor) = true).
    { apply orb_true_iff. destruct Hid as [H|H]; [left|right]; now apply Z.eqb_eq. }
    rewrite Hm in Hs. rewrite Hs. split.
    + now apply list_lookup_insert_eq.
    + intros k Hne. now apply list_lookup_insert_ne.
  - intros Hff Hne. destruct (accept_sensors sensor st Hlen) as (st' & Ha & Hs).
    exists st'. split; [exact Ha|].
    rewrite Hin, Hc, Hd in Hs.
    apply Z.eqb_neq in Hff, Hne. rewrite Hff, Hne in Hs. exact Hs.
  - assert (Hs : scpi_TFA_SYNC (Some c) (sensors st)
                 = inr (alter reset_id (Z.to_nat (c - 1)) (sensors st))).
    { unfold scpi_TFA_SYNC, SENSOR_CHANNELS. rewrite uint8_small by lia.
      destruct (Z.ltb_spec c 1); [lia|]. destruct (Z.ltb_spec 3 c); [lia|].
      destruct (Z.eqb_spec c 0); [lia|]. reflexivity. }
    assert (Hat : alter reset_id (Z.to_nat (c - 1)) (sensors st) !! Z.to_nat (c - 1)
                  = Some (reset_id dsens))
      by now rewrite list_lookup_alter_eq, Hd.
    assert (Hoth : forall k, k <> Z.to_nat (c - 1) ->
                     alter reset_id (Z.to_nat (c - 1)) (sensors st) !! k = sensors st !! k)
      by (intros k Hne; now apply list_lookup_alter_ne).
    exists (alter reset_id (Z.to_nat (c - 1)) (sensors st)), (reset_id dsens).
    split; [exact Hs|]. split; [exact Hat|].
    do 6 (split; [reflexivity|]). split; [exact Hoth|].
    destruct (Hrelock (alter reset_id (Z.to_nat (c - 1)) (sensors st)) (reset_id dsens))
      as (st' & Ha & Hst & Hk' & Hdrop);
      [now rewrite length_alter | exact Hat | reflexivity |].
    exists st'. split; [exact Ha|]. split; [exact Hst|]. split; [|exact Hdrop].
    intros k Hne. rewrite Hk' by exact Hne. now apply Hoth.
  - assert (Hs : scpi_TFA_SYNC None (sensors st) = inr (map reset_id (sensors st))).
    { destruct (sensors st) as [|s0 [|s1 [|s2 [|]]]]; try discriminate. reflexivity. }
    exists (map reset_id (sensors st)).
    split; [exact Hs|]. split; [now rewrite length_map|]. split.
    + intros k d Hkd. exists (reset_id d). split.
      * change (map reset_id (sensors st)) with (reset_id <$> sensors st).
        now rewrite list_lookup_fmap, Hkd.
      * repeat split.
    + apply (Hrelock (map reset_id (sensors st)) (reset_id dsens));
        [now rewrite length_map | | reflexivity].
      change (map reset_id (sensors st)) with (reset_id <$> sensors st).
      now rewrite list_lookup_fmap, Hd.
Qed.

(** ** The reconciler *)

Lemma memcmp_refl (a : list Z) (n : nat) : memcmp a a n = 0.
Proof.
  revert a. induction n as [|n IH]; intros [|x a]; simpl; try reflexivity.
  rewrite Z.eqb_refl. apply IH.
Qed.

Lemma memcmp_eq (n : nat) (a b : list Z) :
  length a = n -> length b = n -> (memcmp a b n = 0 <-> a = b).
Proof.
  revert a b. induction n as [|n IH]; intros [|x a] [|y b]; simpl; try discriminate.
  - tauto.
  - intros Ha Hb. destruct (Z.eqb_spec x y) as [->|Hne].
    + rewrite IH by lia. split; congruence.
    + split; [lia | congruence].
Qed.

(** The maxima differ as soon as one of them has been set. *)
Lemma vote_inner_maxv (buf : list (list Z)) (m n : nat) (v : vote) :
  snd (maxv v) < fst (maxv v) ->
  snd (maxv (vote_inner buf m v n)) < fst (maxv (vote_inner buf m v n)).
Proof.
  intros H. unfold vote_inner.
  destruct ((counts v !!! n =? 0) && _); [|exact H]. cbn [counts maxv maxid].
  match goal with |- context [if ?a <? ?b then _ else _] => destruct (Z.ltb_spec a b) end;
    cbn [counts maxv maxid];
    match goal with |- context [if ?b then _ else _] => destruct b end;
    cbn [maxv fst snd]; lia.
Qed.

Lemma foldl_invariant {A B} (P : A -> Prop) (f : A -> B -> A) (l : list B) (a : A) :
  (forall a x, P a -> P (f a x)) -> P a -> P (foldl f a l).
Proof.
  intros Hf. revert a. induction l as [|x l IH]; intros a Ha; simpl; auto.
Qed.

Lemma vote_outer_maxv (buf : list (list Z)) (p m : nat) (v : vote) :
  snd (maxv v) < fst (maxv v) ->
  snd (maxv (vote_outer buf p v m)) < fst (maxv (vote_outer buf p v m)).
Proof.
  intros H. unfold vote_outer.
  destruct (negb (counts v !!! m =? 0)); [exact H|].
  apply (foldl_invariant (fun v => snd (maxv v) < fst (maxv v))); [|exact H].
  intros a x. apply vote_inner_maxv.
Qed.

(** Every burst with at least one capture ends the search with two
    different maxima: the first comparison, of capture 0 with itself, sets
    them to 1 and 0, and each later update keeps the old maximum below the
    new one. *)
Lemma vote_loop_never_ties (buf : list (list Z)) (p : nat) :
  (1 <= p)%nat ->
  snd (maxv (vote_loop buf p)) < fst (maxv (vote_loop buf p)).
Proof.
  intros Hp. destruct p as [|p]; [lia|].
  unfold vote_loop. cbn [seq foldl].
  set (v0 := mk_vote (repeat 0 (Z.to_nat TFA_PACKETS)) (0, 0) 0).
  apply (foldl_invariant (fun v => snd (maxv v) < fst (maxv v))).
  { intros a x. apply vote_outer_maxv. }
  assert (E : vote_outer buf (S p) v0 0
              = foldl (vote_inner buf 0) (vote_inner buf 0 v0 0) (seq 1 p)) by reflexivity.
  rewrite E.
  apply (foldl_invariant (fun v => snd (maxv v) < fst (maxv v))).
  { intros a x. apply vote_inner_maxv. }
  unfold vote_inner. change (counts v0 !!! 0%nat) with 0.
  rewrite memcmp_refl. vm_compute. reflexivity.
Qed.

Lemma tfa_proc_packets_accepts_nonempty (t : TTFA.t) :
  Z.land (TTFA.flags t) TFA_NEW_PACKETS <> 0 ->
  1 <= TTFA.packets t ->
  fst (tfa_proc_packets t) = 1.
Proof.
  intros Hf Hp. unfold tfa_proc_packets.
  destruct (Z.eqb_spec (Z.land (TTFA.flags t) TFA_NEW_PACKETS) 0); [contradiction|].
  pose proof (vote_loop_never_ties (TTFA.data t) (Z.to_nat (TTFA.packets t)) ltac:(lia)) as H.
  destruct (Z.eqb_spec (fst (maxv (vote_loop (TTFA.data t) (Z.to_nat (TTFA.packets t)))))
                       (snd (maxv (vote_loop (TTFA.data t) (Z.to_nat (TTFA.packets t))))));
    [lia | reflexivity].
Qed.

(** C1 at the burst of the specification's example: six captures in two
    groups of three.  The reconciler returns 1, overwrites [packet] with the
    first group's bytes and sets [TFA_NEW_PACKET]. *)
Theorem tie_of_3_and_3_is_accepted :
  occurrences capture_A (firstn 6 (TTFA.data tie_3_3)) = 3%nat /\
  occurrences capture_B (firstn 6 (TTFA.data tie_3_3)) = 3%nat /\
  tfa_proc_packets tie_3_3 =
    (1, TTFA.mk (TTFA.data tie_3_3) 6 capture_A TFA_NEW_PACKET) /\
  TTFA.packet (snd (tfa_proc_packets tie_3_3)) <> TTFA.packet tie_3_3 /\
  Z.land (TTFA.flags (snd (tfa_proc_packets tie_3_3))) TFA_NEW_PACKET <> 0.
Proof.
  vm_compute. repeat split; discriminate.
Qed.

(** *** Labels *)

Lemma index_of_lookup (row : list Z) (buf : list (list Z)) :
  row ∈ buf -> buf !! index_of row buf = Some row.
Proof.
  induction buf as [|r buf IH]; intros Hin.
  - now apply not_elem_of_nil in Hin.
  - simpl. destruct (decide (r = row)) as [->|Hne]; [reflexivity|].
    apply elem_of_cons in Hin as [->|Hin]; [congruence|]. now apply IH.
Qed.

Lemma index_of_le (row : list Z) (buf : list (list Z)) (i : nat) :
  buf !! i = Some row -> (index_of row buf <= i)%nat.
Proof.
  revert i. induction buf as [|r buf IH]; intros i Hi; [discriminate|].
  simpl. destruct (decide (r = row)); [lia|].
  destruct i as [|i]; simpl in Hi; [congruence|].
  specialize (IH i Hi). lia.
Qed.

Lemma index_of_inj (a b : list Z) (buf : list (list Z)) :
  a ∈ buf -> b ∈ buf -> index_of a buf = index_of b buf -> a = b.
Proof.
  intros Ha Hb E. apply index_of_lookup in Ha, Hb. rewrite E in Ha. congruence.
Qed.

Lemma memcmp_row_of_label (j k : nat) :
  (memcmp (row_of_label j) (row_of_label k) TFA_BUF_BYTES =? 0) = (j =? k)%nat.
Proof.
  unfold row_of_label. simpl.
  destruct (Z.eqb_spec (Z.of_nat j) (Z.of_nat k)) as [E|E];
    destruct (Nat.eqb_spec j k) as [E'|E']; try lia; try reflexivity;
    apply Z.eqb_neq; lia.
Qed.

(** Comparing two captures of a set is comparing their labels. *)
Lemma memcmp_labels (buf : list (list Z)) (m n : nat) :
  Forall (fun row => length row = TFA_BUF_BYTES) buf ->
  (m < length buf)%nat -> (n < length buf)%nat ->
  (memcmp (buf !!! m) (buf !!! n) TFA_BUF_BYTES =? 0) =
  (memcmp ((row_of_label <$> labels buf) !!! m)
          ((row_of_label <$> labels buf) !!! n) TFA_BUF_BYTES =? 0).
Proof.
  intros Hwf Hm Hn.
  destruct (lookup_lt_is_Some_2 buf m Hm) as [rm Erm].
  destruct (lookup_lt_is_Some_2 buf n Hn) as [rn Ern].
  rewrite (list_lookup_total_correct _ _ _ Erm), (list_lookup_total_correct _ _ _ Ern).
  assert (Em : (row_of_label <$> labels buf) !! m = Some (row_of_label (index_of rm buf)))
    by (unfold labels; now rewrite !list_lookup_fmap, Erm).
  assert (En : (row_of_label <$> labels buf) !! n = Some (row_of_label (index_of rn buf)))
    by (unfold labels; now rewrite !list_lookup_fmap, Ern).
  rewrite (list_lookup_total_correct _ _ _ Em), (list_lookup_total_correct _ _ _ En).
  rewrite memcmp_row_of_label.
  assert (Hlm : length rm = TFA_BUF_BYTES)
    by (rewrite Forall_forall in Hwf; eapply Hwf, list_elem_of_lookup_2, Erm).
  assert (Hln : length rn = TFA_BUF_BYTES)
    by (rewrite Forall_forall in Hwf; eapply Hwf, list_elem_of_lookup_2, Ern).
  destruct (Nat.eqb_spec (index_of rm buf) (index_of rn buf)) as [E|E].
  - apply Z.eqb_eq, memcmp_eq; [exact Hlm | exact Hln |].
    eapply index_of_inj; [| |exact E]; eapply list_elem_of_lookup_2; eassumption.
  - apply Z.eqb_neq. intros H0. apply memcmp_eq in H0; [|exact Hlm|exact Hln].
    congruence.
Qed.

Lemma foldl_ext_in {A B} (f g : A -> B -> A) (l : list B) (a : A) :
  (forall a x, x ∈ l -> f a x = g a x) -> foldl f a l = foldl g a l.
Proof.
  revert a. induction l as [|x l IH]; intros a H; [reflexivity|].
  simpl. rewrite H by apply list_elem_of_here. apply IH.
  intros a' y Hy. apply H. now apply list_elem_of_further.
Qed.

(** The search on a capture set is the search on its labels. *)
Lemma vote_loop_labels (buf : list (list Z)) :
  Forall (fun row => length row = TFA_BUF_BYTES) buf ->
  vote_loop buf (length buf) = vote_loop (row_of_label <$> labels buf) (length buf).
Proof.
  intros Hwf. unfold vote_loop. apply foldl_ext_in.
  intros v m Hm%elem_of_seq. unfold vote_outer.
  destruct (negb (counts v !!! m =? 0)); [reflexivity|].
  apply foldl_ext_in. intros v' n Hn%elem_of_seq.
  unfold vote_inner. rewrite (memcmp_labels buf m n Hwf) by lia. reflexivity.
Qed.

Lemma forallb_seq (f : nat -> bool) (n : nat) :
  forallb f (seq 0 n) = true -> forall k, (k < n)%nat -> f k = true.
Proof.
  intros H k Hk. rewrite forallb_forall in H. apply H, in_seq. lia.
Qed.

(** [majority_props] holds for the search on every list of 7 labels whose
    i-th label is at most i. *)
Lemma majority_props_all :
  forallb (fun l0 => forallb (fun l1 => forallb (fun l2 => forallb (fun l3 =>
  forallb (fun l4 => forallb (fun l5 => forallb (fun l6 =>
    majority_props (vote_loop (row_of_label <$> [l0; l1; l2; l3; l4; l5; l6]) 7)
                   [l0; l1; l2; l3; l4; l5; l6])
  (seq 0 7)) (seq 0 6)) (seq 0 5)) (seq 0 4)) (seq 0 3)) (seq 0 2)) (seq 0 1) = true.
Proof. vm_compute. reflexivity. Qed.

Lemma majority_props_bounded (l0 l1 l2 l3 l4 l5 l6 : nat) :
  (l0 <= 0)%nat -> (l1 <= 1)%nat -> (l2 <= 2)%nat -> (l3 <= 3)%nat ->
  (l4 <= 4)%nat -> (l5 <= 5)%nat -> (l6 <= 6)%nat ->
  majority_props (vote_loop (row_of_label <$> [l0; l1; l2; l3; l4; l5; l6]) 7)
                 [l0; l1; l2; l3; l4; l5; l6] = true.
Proof.
  intros H0 H1 H2 H3 H4 H5 H6.
  pose proof (forallb_seq _ _ majority_props_all l0 ltac:(lia)) as A0.
  pose proof (forallb_seq _ _ A0 l1 ltac:(lia)) as A1.
  pose proof (forallb_seq _ _ A1 l2 ltac:(lia)) as A2.
  pose proof (forallb_seq _ _ A2 l3 ltac:(lia)) as A3.
  pose proof (forallb_seq _ _ A3 l4 ltac:(lia)) as A4.
  pose proof (forallb_seq _ _ A4 l5 ltac:(lia)) as A5.
  exact (forallb_seq _ _ A5 l6 ltac:(lia)).
Qed.

Lemma labels_7 (r0 r1 r2 r3 r4 r5 r6 : list Z) :
  let B := [r0; r1; r2; r3; r4; r5; r6] in
  labels B = [index_of r0 B; index_of r1 B; index_of r2 B; index_of r3 B;
              index_of r4 B; index_of r5 B; index_of r6 B].
Proof. reflexivity. Qed.

Lemma labels_props (buf : list (list Z)) :
  length buf = 7%nat ->
  majority_props (vote_loop (row_of_label <$> labels buf) 7) (labels buf) = true.
Proof.
  intros Hlen.
  destruct buf as [|r0 [|r1 [|r2 [|r3 [|r4 [|r5 [|r6 [|]]]]]]]]; try discriminate.
  rewrite labels_7.
  apply majority_props_bounded; apply index_of_le; reflexivity.
Qed.

(** Reading [majority_props] back. *)
Lemma majority_props_spec (v : vote) (l : list nat) :
  majority_props v l = true ->
  (fst (maxv v) =? snd (maxv v)) = false /\
  (0 <= maxid v < 7) /\
  forall k, (k < 7)%nat -> (4 <= count_occ Nat.eq_dec l k)%nat ->
            l !!! Z.to_nat (maxid v) = k.
Proof.
  unfold majority_props. intros H.
  apply andb_prop in H as [H Hall]. apply andb_prop in H as [H Hhi].
  apply andb_prop in H as [Hne Hlo].
  apply negb_true_iff in Hne. apply Z.leb_le in Hlo. apply Z.ltb_lt in Hhi.
  split; [exact Hne|]. split; [lia|].
  intros k Hk Hc. pose proof (forallb_seq _ _ Hall k Hk) as Hsel. cbn beta in Hsel.
  apply Nat.leb_le in Hc. rewrite Hc in Hsel. now apply Nat.eqb_eq.
Qed.

(** The result of [tfa_proc_packets] from the result of its search. *)
Lemma tfa_proc_packets_selected (t : TTFA.t) (v : vote) :
  Z.land (TTFA.flags t) TFA_NEW_PACKETS <> 0 ->
  vote_loop (TTFA.data t) (Z.to_nat (TTFA.packets t)) = v ->
  (fst (maxv v) =? snd (maxv v)) = false ->
  tfa_proc_packets t =
    (1, TTFA.mk (TTFA.data t) (TTFA.packets t)
                (take TFA_BUF_BYTES (TTFA.data t !!! Z.to_nat (maxid v)))
                (Z.lor (uint8 (Z.land (TTFA.flags t) (Z.lnot TFA_NEW_PACKETS)))
                       TFA_NEW_PACKET)).
Proof.
  intros Hf Hv Hne. unfold tfa_proc_packets.
  destruct (Z.eqb_spec (Z.land (TTFA.flags t) TFA_NEW_PACKETS) 0); [contradiction|].
  rewrite Hv, Hne. reflexivity.
Qed.

(** A capture occurs in a part of the set as often as its label occurs
    among the labels of that part. *)
Lemma count_labels (buf l : list (list Z)) (g : list Z) :
  g ∈ buf -> (forall a, a ∈ l -> a ∈ buf) ->
  count_occ Nat.eq_dec ((fun row => index_of row buf) <$> l) (index_of g buf)
  = occurrences g l.
Proof.
  intros Hg. unfold occurrences. induction l as [|a l IH]; intros Hl; [reflexivity|].
  rewrite fmap_cons. cbn [count_occ].
  assert (Ha : a ∈ buf) by apply Hl, list_elem_of_here.
  assert (IH' := IH (fun b Hb => Hl b (list_elem_of_further _ _ _ Hb))).
  destruct (Nat.eq_dec (index_of a buf) (index_of g buf)) as [E|E];
    destruct (List.list_eq_dec Z.eq_dec a g) as [E'|E'].
  - now rewrite IH'.
  - exfalso. apply E'. exact (index_of_inj _ _ _ Ha Hg E).
  - exfalso. apply E. now rewrite E'.
  - exact IH'.
Qed.

(** With seven captures of which at least four equal [g], the reconciler
    returns 1, stores [g] and sets [TFA_NEW_PACKET]. *)
Lemma vote_loop_majority (B : list (list Z)) (g : list Z) :
  length B = 7%nat ->
  Forall (fun row => length row = TFA_BUF_BYTES) B ->
  (4 <= occurrences g B)%nat ->
  exists v, vote_loop B 7 = v /\
            (fst (maxv v) =? snd (maxv v)) = false /\
            take TFA_BUF_BYTES (B !!! Z.to_nat (maxid v)) = g.
Proof.
  intros Hlen Hwf Hocc.
  assert (HgB : g ∈ B).
  { apply list_elem_of_In, (count_occ_In (List.list_eq_dec Z.eq_dec)).
    unfold occurrences in Hocc. lia. }
  assert (Hg5 : length g = TFA_BUF_BYTES).
  { rewrite Forall_forall in Hwf. now apply Hwf. }
  pose proof (labels_props B Hlen) as Hprops.
  assert (Ev : vote_loop (row_of_label <$> labels B) 7 = vote_loop B 7).
  { pose proof (vote_loop_labels B Hwf) as E. rewrite Hlen in E. now rewrite E. }
  rewrite Ev in Hprops. clear Ev.
  exists (vote_loop B 7). split; [reflexivity|].
  generalize dependent (vote_loop B 7). intros v Hprops.
  apply majority_props_spec in Hprops as (Hne & Hid & Hsel).
  split; [exact Hne|].
  assert (Hk : (index_of g B < 7)%nat).
  { rewrite <- Hlen. eapply lookup_lt_Some, index_of_lookup, HgB. }
  specialize (Hsel (index_of g B) Hk).
  assert (Hi : (Z.to_nat (maxid v) < length B)%nat) by lia.
  destruct (lookup_lt_is_Some_2 B _ Hi) as [r Er].
  rewrite (list_lookup_total_correct _ _ _ Er).
  assert (Hr : r = g).
  { apply (index_of_inj r g B); [eapply list_elem_of_lookup_2, Er | exact HgB |].
    rewrite <- Hsel.
    - unfold labels. erewrite list_lookup_total_correct; [reflexivity|].
      now rewrite list_lookup_fmap, Er.
    - unfold labels. rewrite count_labels; auto. }
  rewrite Hr. apply firstn_all2. rewrite Hg5. reflexivity.
Qed.

Lemma tfa_proc_packets_majority (t : TTFA.t) (g : list Z) :
  Z.land (TTFA.flags t) TFA_NEW_PACKETS <> 0 ->
  TTFA.packets t = 7 ->
  length (TTFA.data t) = 7%nat ->
  Forall (fun row => length row = TFA_BUF_BYTES) (TTFA.data t) ->
  (4 <= occurrences g (TTFA.data t))%nat ->
  tfa_proc_packets t =
    (1, TTFA.mk (TTFA.data t) 7 g
                (Z.lor (uint8 (Z.land (TTFA.flags t) (Z.lnot TFA_NEW_PACKETS)))
                       TFA_NEW_PACKET)).
Proof.
  intros Hf Hp Hlen Hwf Hocc.
  destruct (vote_loop_majority _ g Hlen Hwf Hocc) as (v & Ev & Hne & Hg).
  rewrite (tfa_proc_packets_selected t v Hf); [| rewrite Hp; exact Ev | exact Hne].
  rewrite Hg, Hp. reflexivity.
Qed.

(** C3: for every set of 7 captures of which at least 4 are equal to
    one capture [g] (the others differ from it), [tfa_proc_packets] returns
    1, copies [g] into [packet] and sets [TFA_NEW_PACKET]; and the same
    holds for every rearrangement of the 7 captures. *)
Theorem majority_of_7_is_selected (t : TTFA.t) (g : list Z) :
  Z.land (TTFA.flags t) TFA_NEW_PACKETS <> 0 ->
  TTFA.packets t = 7 ->
  length (TTFA.data t) = 7%nat ->
  Forall (fun row => length row = TFA_BUF_BYTES) (TTFA.data t) ->
  (4 <= occurrences g (TTFA.data t))%nat ->
  (fst (tfa_proc_packets t) = 1 /\
   TTFA.packet (snd (tfa_proc_packets t)) = g /\
   Z.land (TTFA.flags (snd (tfa_proc_packets t))) TFA_NEW_PACKET <> 0) /\
  forall data' : list (list Z),
    Permutation data' (TTFA.data t) ->
    let t' := TTFA.mk data' (TTFA.packets t) (TTFA.packet t) (TTFA.flags t) in
    fst (tfa_proc_packets t') = 1 /\
    TTFA.packet (snd (tfa_proc_packets t')) = g /\
    Z.land (TTFA.flags (snd (tfa_proc_packets t'))) TFA_NEW_PACKET <> 0.
Proof.
  intros Hf Hp Hlen Hwf Hocc.
  assert (Hflag : forall f, Z.land (Z.lor f TFA_NEW_PACKET) TFA_NEW_PACKET <> 0).
  { intros f H.
    assert (Hb : Z.testbit (Z.land (Z.lor f TFA_NEW_PACKET) TFA_NEW_PACKET) 1 = true).
    { rewrite Z.land_spec, Z.lor_spec. change (Z.testbit TFA_NEW_PACKET 1) with true.
      now rewrite orb_true_r. }
    rewrite H in Hb. discriminate. }
  split.
  - rewrite (tfa_proc_packets_majority t g Hf Hp Hlen Hwf Hocc). cbn.
    split; [reflexivity|]. split; [reflexivity|]. apply Hflag.
  - intros data' Hperm t'.
    rewrite (tfa_proc_packets_majority t' g); subst t'; cbn [TTFA.data TTFA.packets TTFA.flags].
    + cbn. split; [reflexivity|]. split; [reflexivity|]. apply Hflag.
    + exact Hf.
    + exact Hp.
    + now rewrite (Permutation_length Hperm).
    + eapply Permutation_Forall; [symmetry; exact Hperm | exact Hwf].
    + unfold occurrences in *.
      pose proof (proj1 (Permutation_count_occ (List.list_eq_dec Z.eq_dec) _ _) Hperm g) as E.
      now rewrite E.
Qed.

Lemma majority_of_7_is_selected_witness :
  fst (tfa_proc_packets majority_4_of_7) = 1 /\
  TTFA.packet (snd (tfa_proc_packets majority_4_of_7)) = capture_A.
Proof.
  destruct (majority_of_7_is_selected majority_4_of_7 capture_A) as ((H1 & H2 & _) & _).
  - vm_compute. discriminate.
  - reflexivity.
  - reflexivity.
  - repeat constructor.
  - vm_compute. lia.
  - split; [exact H1 | exact H2].
Defined.

(** ** From samples to pulses *)

Lemma run_app (F : Z) (a b : list Z) (s : isr_state) :
  run F (a ++ b) s = run F b (run F a s).
Proof. unfold run. apply foldl_app. Qed.

(** A tick with the line low: no decoding; the timer restarts on the
    falling edge and then counts up to 255. *)
Lemma ISR_low (F : Z) (s : isr_state) :
  let s' := ISR_TIMER0_COMPA F 0 s in
  same_framer s' s /\ tfa_old s' = 0 /\
  tfa_timer s' =
    (if negb (tfa_old s =? 0) then 1
     else if tfa_timer s <? 255 then uint8 (tfa_timer s + 1) else tfa_timer s).
Proof.
  unfold ISR_TIMER0_COMPA. change (Z.land 0 (Z.shiftl 1 ARX)) with 0.
  rewrite Z.lxor_0_l, Z.land_diag, Z.land_0_r. change (negb (0 =? 0)) with false.
  cbv zeta.
  destruct (negb (tfa_old s =? 0)); cbn [tfa_timer set_tfa_timer set_tfa_old].
  - change (0 <? 255) with true. cbv iota.
    match goal with |- context [if ?b then _ else _] => destruct b end;
      unfold same_framer; simpl; auto.
  - destruct (tfa_timer s <? 255);
      match goal with |- context [if SFleb ?a ?b then _ else _] => destruct (SFleb a b) end;
      unfold same_framer; simpl; auto.
Qed.

Lemma run_cons (F : Z) (pind : Z) (pins : list Z) (s : isr_state) :
  run F (pind :: pins) s = run F pins (ISR_TIMER0_COMPA F pind s).
Proof. reflexivity. Qed.

Lemma run_lows_idle (F : Z) (n : nat) (s : isr_state) :
  tfa_old s = 0 -> 0 <= tfa_timer s <= 255 ->
  let s' := run F (repeat 0 n) s in
  same_framer s' s /\ tfa_old s' = 0 /\
  tfa_timer s' = Z.min (tfa_timer s + Z.of_nat n) 255.
Proof.
  revert s. induction n as [|n IH]; intros s Ho Ht; cbv zeta.
  - split; [apply same_framer_refl|]. split; [exact Ho|]. cbn [repeat run foldl]. lia.
  - cbn [repeat]. rewrite run_cons.
    destruct (ISR_low F s) as (Hf & Ho' & Ht'). cbv zeta in *.
    rewrite Ho in Ht'. cbn [Z.eqb negb] in Ht'.
    assert (Ht1 : tfa_timer (ISR_TIMER0_COMPA F 0 s) = Z.min (tfa_timer s + 1) 255).
    { rewrite Ht'. destruct (Z.ltb_spec (tfa_timer s) 255).
      - rewrite uint8_small by lia. lia.
      - lia. }
    destruct (IH _ Ho' ltac:(lia)) as (Hf2 & Ho2 & Ht2).
    split; [eapply same_framer_trans; eassumption|]. split; [exact Ho2|].
    rewrite Ht2, Ht1. lia.
Qed.

Lemma run_lows (F : Z) (n : nat) (s : isr_state) :
  (1 <= n)%nat -> tfa_old s <> 0 \/ tfa_timer s = 0 ->
  let s' := run F (repeat 0 n) s in
  same_framer s' s /\ tfa_old s' = 0 /\ tfa_timer s' = Z.min (Z.of_nat n) 255.
Proof.
  intros Hn Hs. destruct n as [|n]; [lia|]. cbv zeta.
  cbn [repeat]. rewrite run_cons.
  destruct (ISR_low F s) as (Hf & Ho & Ht). cbv zeta in *.
  assert (Ht1 : tfa_timer (ISR_TIMER0_COMPA F 0 s) = 1).
  { rewrite Ht. destruct Hs as [Hs|Hs].
    - destruct (Z.eqb_spec (tfa_old s) 0); [contradiction|reflexivity].
    - rewrite Hs. destruct (negb (tfa_old s =? 0)); reflexivity. }
  destruct (run_lows_idle F n _ Ho ltac:(lia)) as (Hf2 & Ho2 & Ht2).
  split; [eapply same_framer_trans; eassumption|]. split; [exact Ho2|].
  rewrite Ht2, Ht1. lia.
Qed.

(** A tick with the line high, after a high tick: nothing happens to the
    framer. *)
Lemma ISR_high_idle (F : Z) (s : isr_state) :
  tfa_old s = Z.shiftl 1 ARX ->
  let s' := ISR_TIMER0_COMPA F (Z.shiftl 1 ARX) s in
  same_framer s' s /\ tfa_old s' = Z.shiftl 1 ARX.
Proof.
  intros Ho. unfold ISR_TIMER0_COMPA. rewrite Ho, Z.land_diag, Z.lxor_nilpotent.
  change (Z.land 0 (Z.shiftl 1 ARX)) with 0. change (negb (0 =? 0)) with false.
  cbv zeta. cbv iota.
  repeat match goal with |- context [if ?b then _ else _] => destruct b end;
    unfold same_framer; simpl; auto.
Qed.

Lemma isr_decode_tfa_old (F : Z) (s : isr_state) :
  tfa_old (isr_decode F s) = tfa_old s.
Proof.
  destruct s. unfold isr_decode, on_glitch, on_stop, on_gap, on_start, on_data. simpl.
  repeat match goal with
         | |- context [if ?b then _ else _] => destruct b; simpl
         end; reflexivity.
Qed.

Lemma ISR_tfa_old (F : Z) (pind : Z) (s : isr_state) :
  tfa_old (ISR_TIMER0_COMPA F pind s) = Z.land pind (Z.shiftl 1 ARX).
Proof.
  unfold ISR_TIMER0_COMPA. cbv zeta.
  set (st := Z.land pind (Z.shiftl 1 ARX)).
  assert (H : forall m, tfa_old m = st ->
    tfa_old (if SFleb (LED_DELAY F)
                  (f32_of_Z (led_delay (set_led_delay (uint16 (led_delay
                     (if tfa_timer m <? 255 then set_tfa_timer (uint8 (tfa_timer m + 1)) m
                      else m) + 1))
                     (if tfa_timer m <? 255 then set_tfa_timer (uint8 (tfa_timer m + 1)) m
                      else m))))
             then set_PORTD (cbi (PORTD (set_led_delay (uint16 (led_delay
                     (if tfa_timer m <? 255 then set_tfa_timer (uint8 (tfa_timer m + 1)) m
                      else m) + 1))
                     (if tfa_timer m <? 255 then set_tfa_timer (uint8 (tfa_timer m + 1)) m
                      else m))) LED_PACKET)
                    (set_led_delay (uint16 (led_delay
                     (if tfa_timer m <? 255 then set_tfa_timer (uint8 (tfa_timer m + 1)) m
                      else m) + 1))
                     (if tfa_timer m <? 255 then set_tfa_timer (uint8 (tfa_timer m + 1)) m
                      else m))
             else set_led_delay (uint16 (led_delay
                     (if tfa_timer m <? 255 then set_tfa_timer (uint8 (tfa_timer m + 1)) m
                      else m) + 1))
                     (if tfa_timer m <? 255 then set_tfa_timer (uint8 (tfa_timer m + 1)) m
                      else m)) = st).
  { intros m Hm. destruct (tfa_timer m <? 255);
      match goal with |- context [if SFleb ?a ?b then _ else _] => destruct (SFleb a b) end;
      simpl; exact Hm. }
  apply H.
  destruct (negb (Z.land (Z.lxor st (tfa_old s)) (tfa_old s) =? 0)); [reflexivity|].
  destruct (negb (Z.land (Z.lxor st (tfa_old s)) st =? 0)); [|reflexivity].
  now rewrite isr_decode_tfa_old.
Qed.

Lemma ISR_high_old (F : Z) (s : isr_state) :
  tfa_old (ISR_TIMER0_COMPA F (Z.shiftl 1 ARX) s) = Z.shiftl 1 ARX.
Proof. rewrite ISR_tfa_old. reflexivity. Qed.

Lemma run_highs_idle (F : Z) (h : nat) (s : isr_state) :
  tfa_old s = Z.shiftl 1 ARX ->
  let s' := run F (repeat (Z.shiftl 1 ARX) h) s in
  same_framer s' s /\ tfa_old s' = Z.shiftl 1 ARX.
Proof.
  revert s. induction h as [|h IH]; intros s Ho.
  - split; [apply same_framer_refl | exact Ho].
  - cbn [repeat]. rewrite run_cons. destruct (ISR_high_idle F s Ho) as (Hf & Ho').
    destruct (IH _ Ho') as (Hf' & Ho''). cbv zeta in *.
    split; [eapply same_framer_trans; eassumption | exact Ho''].
Qed.

(** One low pulse, sample by sample, is one run of the decoder on the
    measured pulse length. *)
Lemma run_low_pulse (F : Z) (p : nat * nat) (s : isr_state) :
  wf_pulse p -> tfa_old s <> 0 \/ tfa_timer s = 0 ->
  let s' := run F (low_pulse (fst p) (snd p)) s in
  same_framer s' (isr_decode F (set_tfa_timer (measured p) s)) /\ tfa_old s' <> 0.
Proof.
  intros [Hn Hh] Hs. unfold low_pulse. rewrite run_app.
  destruct (run_lows F (fst p) s Hn Hs) as (Hf & Ho & Ht). cbv zeta in *.
  set (s1 := run F (repeat 0 (fst p)) s) in *.
  destruct (snd p) as [|h]; [lia|]. cbn [repeat]. rewrite run_cons.
  set (s2 := ISR_TIMER0_COMPA F (Z.shiftl 1 ARX) s1).
  assert (H2 : same_framer s2 (isr_decode F s1)) by (apply ISR_rise; [exact Ho | discriminate]).
  destruct (run_highs_idle F h s2 (ISR_high_old F s1)) as (Hf3 & Ho3). cbv zeta in *.
  split.
  - eapply same_framer_trans; [exact Hf3|]. eapply same_framer_trans; [exact H2|].
    apply isr_decode_same_framer; [|exact Ht].
    eapply same_framer_trans; [exact Hf|]. unfold same_framer. simpl. auto.
  - rewrite Ho3. discriminate.
Qed.

Lemma feed_same_framer (F : Z) (ds : list Z) (s s' : isr_state) :
  same_framer s s' -> same_framer (feed F ds s) (feed F ds s').
Proof.
  revert s s'. induction ds as [|d ds IH]; intros s s' H; [exact H|].
  cbn [feed foldl]. apply IH. apply isr_decode_same_framer; [|reflexivity].
  unfold same_framer in *. simpl. exact H.
Qed.

(** A train of pulses, sample by sample, is the decoder run once per pulse. *)
Lemma run_pulse_train (F : Z) (ps : list (nat * nat)) (s : isr_state) :
  Forall wf_pulse ps -> tfa_old s <> 0 \/ tfa_timer s = 0 ->
  same_framer (run F (pulse_train ps) s) (feed F (measured <$> ps) s).
Proof.
  revert s. induction ps as [|p ps IH]; intros s Hwf Hs; [apply same_framer_refl|].
  apply Forall_cons in Hwf as [Hp Hwf].
  unfold pulse_train. cbn [map concat]. rewrite run_app. fold (pulse_train ps).
  destruct (run_low_pulse F p s Hp Hs) as (Hf & Ho). cbv zeta in *.
  eapply same_framer_trans; [apply IH; [exact Hwf | left; exact Ho]|].
  rewrite fmap_cons. cbn [feed foldl]. apply feed_same_framer. exact Hf.
Qed.

(** ** Encoding a reading and parsing it back *)

Lemma forallb_seqZ_from (f : Z -> bool) (m n : Z) :
  forallb f (seqZ m n) = true -> forall x, m <= x < m + n -> f x = true.
Proof.
  intros H x Hx. rewrite forallb_forall in H. apply H.
  apply list_elem_of_In, elem_of_seqZ. lia.
Qed.

Lemma temp_check_all : forallb temp_check (seqZ (-2048) 4096) = true.
Proof. vm_compute. reflexivity. Qed.

Lemma b2_check_all :
  forallb (fun sync => forallb (fun batt => forallb (fun channel =>
    forallb (b2_check sync batt channel) (seqZ 0 16))
    (seqZ 1 4)) [false; true]) [false; true] = true.
Proof. vm_compute. reflexivity. Qed.

(** The 12-bit read sees the low half of b2 only. *)
Lemma land_low12 (b1 b2 : Z) :
  Z.land (Z.lor b1 (Z.shiftl b2 8)) 0x0FFF
  = Z.land (Z.lor b1 (Z.shiftl (Z.land b2 0x0F) 8)) 0x0FFF.
Proof.
  apply Z.bits_inj'. intros n Hn. rewrite !Z.land_spec, !Z.lor_spec.
  destruct (Z.ltb_spec n 12) as [Hlt|Hge].
  - rewrite !Z.shiftl_spec by lia. rewrite Z.land_spec.
    destruct (Z.ltb_spec n 8) as [H8|H8].
    + rewrite !(Z.testbit_neg_r _ (n - 8)) by lia. reflexivity.
    + change 15 with (Z.ones 4). rewrite Z.ones_spec_low by lia.
      now rewrite andb_true_r.
  - change 4095 with (Z.ones 12). rewrite Z.ones_spec_high by lia.
    now rewrite !andb_false_r.
Qed.

Lemma parse_temp10_low_nibble (b0 b1 b2 b3 b4 : Z) :
  parse_temp10 [b0; b1; b2; b3; b4] = parse_temp10 [0; b1; Z.land b2 0x0F; 0; 0].
Proof.
  unfold parse_temp10, parse_temp_u16.
  change (read_u16 [b0; b1; b2; b3; b4] 1) with (Z.lor b1 (Z.shiftl b2 8)).
  change (read_u16 [0; b1; Z.land b2 15; 0; 0] 1)
    with (Z.lor b1 (Z.shiftl (Z.land b2 15) 8)).
  now rewrite land_low12.
Qed.

Lemma b12_check_true (sync batt : bool) (channel temp10 : Z) :
  1 <= channel <= 4 -> -2048 <= temp10 < 2048 ->
  b12_check sync batt channel temp10 = true.
Proof.
  intros Hc Ht.
  pose proof (forallb_seqZ_from _ (-2048) 4096 temp_check_all temp10 ltac:(lia)) as HA.
  assert (Hlo : 0 <= Z.land (Z.shiftr temp10 8) 15 < 16)
    by (apply (land_ones_range _ 4); lia).
  assert (HB : b2_check sync batt channel (Z.land (Z.shiftr temp10 8) 15) = true).
  { pose proof b2_check_all as H.
    rewrite forallb_forall in H. specialize (H sync ltac:(destruct sync; simpl; auto)).
    rewrite forallb_forall in H. specialize (H batt ltac:(destruct batt; simpl; auto)).
    pose proof (forallb_seqZ_from _ 1 4 H channel ltac:(lia)) as H1.
    exact (forallb_seqZ _ _ H1 _ Hlo). }
  unfold temp_check in HA. unfold b2_check in HB. cbv zeta in HA, HB.
  apply andb_prop in HA as [HA A2]. apply andb_prop in HA as [A0 A1].
  apply andb_prop in HB as [HB B4]. apply andb_prop in HB as [HB B3].
  apply andb_prop in HB as [HB B2]. apply andb_prop in HB as [B0 B1].
  apply Z.eqb_eq in A0, B0.
  unfold b12_check. cbv zeta.
  change ([0; encode_b1 temp10; encode_b2 temp10 channel sync batt; 0; 0] !!! 2%nat)
    with (encode_b2 temp10 channel sync batt).
  rewrite parse_temp10_low_nibble.
  unfold encode_b2. rewrite B0, A0, Z.eqb_refl, B1, B2, A1, A2, B3, B4. reflexivity.
Qed.

Lemma b34_check_all :
  forallb (fun id => forallb (b34_check id) (seqZ 0 256)) (seqZ 0 16) = true.
Proof. vm_compute. reflexivity. Qed.

Lemma b34_check_true (id type : Z) :
  0 <= id < 16 -> 0 <= type < 256 -> b34_check id type = true.
Proof.
  intros Hi Ht. pose proof b34_check_all as H.
  pose proof (forallb_seqZ _ _ H id Hi) as H1.
  exact (forallb_seqZ _ _ H1 type Ht).
Qed.

(** Parsing the bytes of an encoded reading gives the reading back. *)
Lemma tfa_parse_encode_bytes (r : reading) (d : list (list Z)) (n f : Z) :
  valid_reading r ->
  tfa_parse (TTFA.mk d n (encode_bytes r) f)
  = (if r_type r =? TFA_TYPE then 1 else 0, sensor_of_reading r).
Proof.
  intros (Hrh & Ht & Hc & Hi & Hty).
  pose proof (b12_check_true (r_sync r) (r_batt r) (r_channel r) (r_temp10 r) Hc Ht) as H12.
  pose proof (b34_check_true (r_id r) (r_type r) Hi Hty) as H34.
  unfold b12_check in H12. unfold b34_check in H34. cbv zeta in H12, H34.
  repeat (apply andb_prop in H12 as [H12 _]).
  pose proof (b12_check_true (r_sync r) (r_batt r) (r_channel r) (r_temp10 r) Hc Ht) as H12'.
  unfold b12_check in H12'. cbv zeta in H12'.
  do 4 (apply andb_prop in H12' as [H12' _]).
  apply andb_prop in H12' as [H12' Hfl]. apply andb_prop in H12' as [_ Hch].
  do 4 (apply andb_prop in H34 as [H34 _]).
  apply andb_prop in H34 as [Hid Htype].
  apply Z.eqb_eq in H12, Hfl, Hch, Hid, Htype.
  unfold tfa_parse, encode_bytes, sensor_of_reading. cbn [TTFA.packet].
  change (parse_temp10 [0; encode_b1 (r_temp10 r);
                        encode_b2 (r_temp10 r) (r_channel r) (r_sync r) (r_batt r); 0; 0])
    with (parse_temp10 [r_rh r; encode_b1 (r_temp10 r);
                        encode_b2 (r_temp10 r) (r_channel r) (r_sync r) (r_batt r);
                        encode_b3 (r_id r) (r_type r); encode_b4 (r_type r)]) in H12.
  rewrite H12.
  change ([0; encode_b1 (r_temp10 r);
           encode_b2 (r_temp10 r) (r_channel r) (r_sync r) (r_batt r); 0; 0] !!! 2%nat)
    with (encode_b2 (r_temp10 r) (r_channel r) (r_sync r) (r_batt r)) in Hch, Hfl.
  change ([0; 0; 0; encode_b3 (r_id r) (r_type r); encode_b4 (r_type r)] !!! 3%nat)
    with (encode_b3 (r_id r) (r_type r)) in Hid.
  change (read_u16 [0; 0; 0; encode_b3 (r_id r) (r_type r); encode_b4 (r_type r)] 3)
    with (read_u16 [r_rh r; encode_b1 (r_temp10 r);
                    encode_b2 (r_temp10 r) (r_channel r) (r_sync r) (r_batt r);
                    encode_b3 (r_id r) (r_type r); encode_b4 (r_type r)] 3) in Htype.
  rewrite Htype.
  change ([r_rh r; encode_b1 (r_temp10 r);
           encode_b2 (r_temp10 r) (r_channel r) (r_sync r) (r_batt r);
           encode_b3 (r_id r) (r_type r); encode_b4 (r_type r)] !!! 2%nat)
    with (encode_b2 (r_temp10 r) (r_channel r) (r_sync r) (r_batt r)).
  change ([r_rh r; encode_b1 (r_temp10 r);
           encode_b2 (r_temp10 r) (r_channel r) (r_sync r) (r_batt r);
           encode_b3 (r_id r) (r_type r); encode_b4 (r_type r)] !!! 3%nat)
    with (encode_b3 (r_id r) (r_type r)).
  rewrite Hch, Hfl, Hid. reflexivity.
Qed.

(** ** Storing one bit *)

Lemma store_bit_check_all :
  forallb (fun j => forallb (store_bit_check j) (seqZ 0 256)) (seqZ 0 8) = true.
Proof. vm_compute. reflexivity. Qed.

Lemma store_bit_spec (j x : Z) (d : bool) :
  0 <= j < 8 -> 0 <= x < 256 ->
  0 <= store_bit (uint8 (Z.shiftl 1 j)) d x < 256 /\
  forall t, 0 <= t < 8 ->
    Z.testbit (store_bit (uint8 (Z.shiftl 1 j)) d x) t
    = if t =? j then d else Z.testbit x t.
Proof.
  intros Hj Hx.
  pose proof (forallb_seqZ _ _ store_bit_check_all j Hj) as H1.
  pose proof (forallb_seqZ _ _ H1 x Hx) as H2.
  unfold store_bit_check in H2. rewrite forallb_forall in H2.
  specialize (H2 d ltac:(destruct d; simpl; auto)). cbv zeta in H2.
  apply andb_prop in H2 as [H2 Hb]. apply andb_prop in H2 as [Hlo Hhi].
  apply Z.leb_le in Hlo. apply Z.ltb_lt in Hhi. split; [lia|].
  intros t Ht. apply eqb_prop. exact (forallb_seqZ _ _ Hb t Ht).
Qed.

Lemma wf_row_byte (row : list Z) (i : nat) :
  wf_row row -> (i < 5)%nat -> 0 <= row !!! i < 256.
Proof.
  intros [Hl Hr] Hi.
  apply (Forall_lookup_total_1 (fun b => 0 <= b < 256)); [exact Hr|].
  rewrite Hl. exact Hi.
Qed.

Lemma wf_row_alter (row : list Z) (i : nat) (f : Z -> Z) :
  wf_row row -> (forall x, 0 <= x < 256 -> 0 <= f x < 256) -> wf_row (alter f i row).
Proof.
  intros [Hl Hr] Hf. split; [now rewrite length_alter|].
  apply Forall_alter; [exact Hr|]. intros x _ Hx. now apply Hf.
Qed.

(** Storing at position [p] of a capture sets that bit and no other. *)
Lemma capture_bit_store (row : list Z) (p q : Z) (b : bool) :
  wf_row row -> 0 <= p < 40 -> 0 <= q < 40 ->
  capture_bit (alter (store_bit (uint8 (Z.shiftl 1 (p mod 8))) b) (Z.to_nat (p / 8)) row) q
  = if q =? p then b else capture_bit row q.
Proof.
  intros Hwf Hp Hq. unfold capture_bit.
  assert (Hp8 : 0 <= p mod 8 < 8) by (apply Z.mod_pos_bound; lia).
  assert (Hq8 : 0 <= q mod 8 < 8) by (apply Z.mod_pos_bound; lia).
  assert (Hpi : (Z.to_nat (p / 8) < 5)%nat) by (Z.div_mod_to_equations; lia).
  destruct (decide (Z.to_nat (p / 8) = Z.to_nat (q / 8))) as [E|E].
  - rewrite <- E. rewrite list_lookup_total_alter_eq by (destruct Hwf as [-> _]; exact Hpi).
    destruct (store_bit_spec (p mod 8) (row !!! Z.to_nat (p / 8)) b Hp8
                (wf_row_byte _ _ Hwf Hpi)) as [_ Hb].
    rewrite (Hb _ Hq8).
    destruct (Z.eqb_spec (q mod 8) (p mod 8)) as [E'|E'];
      destruct (Z.eqb_spec q p) as [E''|E'']; try reflexivity.
    + exfalso. apply E''. Z.div_mod_to_equations. lia.
    + exfalso. apply E'. now rewrite E''.
  - rewrite list_lookup_total_alter_ne by exact E.
    destruct (Z.eqb_spec q p) as [E'|E']; [|reflexivity].
    exfalso. apply E. now rewrite E'.
Qed.

Lemma store_bit_wf_row (row : list Z) (p : Z) (b : bool) :
  wf_row row -> 0 <= p < 40 ->
  wf_row (alter (store_bit (uint8 (Z.shiftl 1 (p mod 8))) b) (Z.to_nat (p / 8)) row).
Proof.
  intros Hwf Hp. apply wf_row_alter; [exact Hwf|].
  intros x Hx. apply store_bit_spec; [apply Z.mod_pos_bound; lia | exact Hx].
Qed.

(** ** One repetition, pulse by pulse *)

Lemma wf_buf_row (buf : list (list Z)) (k : nat) :
  wf_buf buf -> (k < 7)%nat -> exists row, buf !! k = Some row /\ wf_row row.
Proof.
  intros [Hl Hr] Hk.
  destruct (lookup_lt_is_Some_2 buf k) as [row Hrow]; [rewrite Hl; exact Hk|].
  exists row. split; [exact Hrow|]. exact (Forall_lookup_1 _ _ _ _ Hr Hrow).
Qed.

(** The start pulse arms the countdown and clears the last byte. *)
Lemma start_data_inv (F : Z) (d : Z) (k : nat) (s : isr_state) :
  classify F d = StartBit -> wf_buf (tfa_buf s) ->
  tfa_buf_packet s = Z.of_nat k -> (k < 7)%nat ->
  data_inv k (tfa_buf s) (p_tfa s) [] (isr_decode F (set_tfa_timer d s)).
Proof.
  intros Hc Hwf Hk Hk7. rewrite isr_decode_framer. cbn [tfa_timer set_tfa_timer].
  rewrite Hc. unfold framer, on_start.
  cbn [tfa_buf_packet set_tfa_buf_bit set_tfa_timer tfa_buf].
  rewrite Hk. unfold TFA_PACKETS.
  destruct (Z.ltb_spec (Z.of_nat k) 7); [|lia].
  rewrite Nat2Z.id.
  destruct (wf_buf_row _ k Hwf Hk7) as (row & Hrow & Hwr).
  unfold data_inv. cbn.
  split; [reflexivity|]. split; [exact Hk|]. split; [reflexivity|].
  split; [apply length_alter|].
  split; [intros m Hm; now apply list_lookup_alter_ne|].
  exists (<[4%nat := 0]> row).
  split; [now rewrite list_lookup_alter_eq, Hrow|].
  destruct Hwr as [Hl Hr].
  split; [split; [now rewrite length_insert | apply Forall_insert; [exact Hr | lia]]|].
  split; [intros i b Hi; discriminate|].
  intros q Hq. unfold capture_bit.
  replace (Z.to_nat (q / 8)) with 4%nat by (Z.div_mod_to_equations; lia).
  rewrite list_lookup_total_insert_eq by (rewrite Hl; unfold TFA_BUF_BYTES; lia).
  apply Z.bits_0.
Qed.

(** A data pulse during an active repetition stores its bit at the
    position the decremented countdown gives. *)
Lemma data_step (F : Z) (d : Z) (b : bool) (k : nat) (buf0 : list (list Z))
    (t0 : TTFA.t) (done : list bool) (s : isr_state) :
  classify F d = DataBit b -> (k < 7)%nat -> (length done < 36)%nat ->
  data_inv k buf0 t0 done s ->
  data_inv k buf0 t0 (done ++ [b]) (isr_decode F (set_tfa_timer d s)).
Proof.
  intros Hc Hk7 Hn (Hbit & Hpk & Hp & Hlen & Hoth & row & Hrow & Hwr & Hbits & Hpad).
  rewrite isr_decode_framer. cbn [tfa_timer set_tfa_timer].
  rewrite Hc. unfold framer, on_data.
  cbn [tfa_buf_packet tfa_buf_bit set_tfa_buf_bit set_tfa_timer tfa_buf].
  rewrite Hbit, Hpk. unfold TFA_PACKETS.
  set (p := 35 - Z.of_nat (length done)).
  assert (Hp35 : 0 <= p <= 35) by (unfold p; lia).
  destruct (Z.ltb_spec 0 (36 - Z.of_nat (length done))); [|lia].
  destruct (Z.ltb_spec (Z.of_nat k) 7); [|lia]. cbn [andb].
  replace (36 - Z.of_nat (length done) - 1) with p by (unfold p; lia).
  rewrite sint8_small by lia.
  change 7 with (Z.ones 3) at 1. rewrite Z.land_ones by lia.
  rewrite Z.shiftr_div_pow2 by lia. change (2 ^ 3) with 8.
  rewrite Nat2Z.id.
  unfold data_inv. cbn [tfa_buf_bit tfa_buf_packet p_tfa tfa_buf set_tfa_buf set_tfa_buf_bit
                        set_tfa_timer].
  split; [rewrite length_app; cbn [length]; unfold p; lia|].
  split; [exact Hpk|]. split; [exact Hp|].
  split; [rewrite length_alter; exact Hlen|].
  split; [intros m Hm; rewrite list_lookup_alter_ne by congruence; now apply Hoth|].
  eexists. split; [rewrite list_lookup_alter_eq, Hrow; reflexivity|].
  split; [apply store_bit_wf_row; [exact Hwr | lia]|].
  split.
  - intros i b' Hi. rewrite capture_bit_store by (try exact Hwr; lia || (apply lookup_lt_Some in Hi; rewrite length_app in Hi; cbn [length] in Hi; lia)).
    apply lookup_snoc_Some in Hi as [[Hi Hd]|[Hi Hb]].
    + destruct (Z.eqb_spec (35 - Z.of_nat i) p); [unfold p in *; lia|]. now apply Hbits.
    + subst i. rewrite Z.eqb_refl. exact Hb.
  - intros q Hq. rewrite capture_bit_store by (try exact Hwr; lia).
    destruct (Z.eqb_spec q p); [lia|]. now apply Hpad.
Qed.

(** The data pulses of a repetition, one after the other. *)
Lemma feed_data (F : Z) (k : nat) (buf0 : list (list Z)) (t0 : TTFA.t)
    (ds : list Z) (bs : list bool) :
  Forall2 (fun d b => classify F d = DataBit b) ds bs -> (k < 7)%nat ->
  forall (done : list bool) (s : isr_state),
    (length done + length bs <= 36)%nat ->
    data_inv k buf0 t0 done s ->
    data_inv k buf0 t0 (done ++ bs) (feed F ds s).
Proof.
  intros H Hk7. induction H as [|d b ds bs Hd _ IH]; intros done s Hn Hinv.
  - now rewrite app_nil_r.
  - cbn [feed foldl]. fold (feed F ds).
    cbn [length] in Hn.
    replace (done ++ b :: bs) with ((done ++ [b]) ++ bs) by (now rewrite <- app_assoc).
    apply IH.
    + rewrite length_app. cbn [length]. lia.
    + apply (data_step F d b); [exact Hd | exact Hk7 | lia | exact Hinv].
Qed.

(** The stop pulse after 36 bits closes the repetition. *)
Lemma stop_after_36 (F : Z) (d : Z) (k : nat) (buf0 : list (list Z)) (t0 : TTFA.t)
    (bits : list bool) (s : isr_state) :
  classify F d = StopBit -> (k < 7)%nat -> length bits = 36%nat ->
  data_inv k buf0 t0 bits s ->
  let s' := isr_decode F (set_tfa_timer d s) in
  tfa_buf s' = tfa_buf s /\ tfa_buf_bit s' = -1 /\
  tfa_buf_packet s' = Z.of_nat k + 1 /\ p_tfa s' = t0.
Proof.
  intros Hc Hk7 Hn (Hbit & Hpk & Hp & _). cbv zeta.
  rewrite isr_decode_framer. cbn [tfa_timer set_tfa_timer].
  rewrite Hc. unfold framer, on_stop.
  cbn [tfa_buf_packet tfa_buf_bit set_tfa_buf_bit set_tfa_timer].
  rewrite Hbit, Hpk, Hn. change (36 - Z.of_nat 36 =? 0) with true. cbv iota.
  unfold TFA_PACKETS. destruct (Z.ltb_spec (Z.of_nat k) (7 + 1)); [|lia].
  cbn [tfa_buf tfa_buf_bit tfa_buf_packet p_tfa set_tfa_buf_packet set_tfa_buf_bit set_tfa_timer].
  rewrite uint8_small by lia.
  split; [reflexivity|]. split; [reflexivity|]. split; [reflexivity | exact Hp].
Qed.

Lemma feed_app (F : Z) (a b : list Z) (s : isr_state) :
  feed F (a ++ b) s = feed F b (feed F a s).
Proof. unfold feed. apply foldl_app. Qed.

(** A start pulse, 36 data pulses and a stop pulse, seen pulse by pulse. *)
Lemma feed_repetition (F : Z) (d0 dstop : Z) (ds : list Z) (bits : list bool)
    (k : nat) (s : isr_state) :
  wf_buf (tfa_buf s) -> tfa_buf_packet s = Z.of_nat k -> (k < 7)%nat ->
  classify F d0 = StartBit ->
  Forall2 (fun d b => classify F d = DataBit b) ds bits ->
  length bits = 36%nat ->
  classify F dstop = StopBit ->
  let s' := feed F (d0 :: ds ++ [dstop]) s in
  tfa_buf_packet s' = Z.of_nat k + 1 /\ tfa_buf_bit s' = -1 /\ p_tfa s' = p_tfa s /\
  (forall m, m <> k -> tfa_buf s' !! m = tfa_buf s !! m) /\
  exists row,
    tfa_buf s' !! k = Some row /\ wf_row row /\
    (forall i b, bits !! i = Some b -> capture_bit row (35 - Z.of_nat i) = b) /\
    (forall q, 36 <= q < 40 -> capture_bit row q = false).
Proof.
  intros Hwf Hk Hk7 Hc0 Hds Hn Hcs. cbv zeta.
  change (d0 :: ds ++ [dstop]) with ([d0] ++ ds ++ [dstop]). rewrite !feed_app.
  pose proof (start_data_inv F d0 k s Hc0 Hwf Hk Hk7) as H0.
  change (isr_decode F (set_tfa_timer d0 s)) with (feed F [d0] s) in H0.
  pose proof (feed_data F k _ _ ds bits Hds Hk7 [] _ ltac:(cbn [length]; lia) H0) as H1.
  cbn [app] in H1.
  destruct (stop_after_36 F dstop k _ _ bits _ Hcs Hk7 Hn H1) as (Hb & Hbit & Hpk & Hp).
  change (isr_decode F (set_tfa_timer dstop (feed F ds (feed F [d0] s))))
    with (feed F [dstop] (feed F ds (feed F [d0] s))) in *.
  destruct H1 as (_ & _ & _ & _ & Hoth & row & Hrow & Hwr & Hbits & Hpad).
  split; [exact Hpk|]. split; [exact Hbit|]. split; [exact Hp|].
  rewrite Hb. split; [exact Hoth|].
  exists row. auto.
Qed.

(** With the buffer full a data pulse only counts down. *)
Lemma feed_data_full (F : Z) (ds : list Z) (bs : list bool) :
  Forall2 (fun d b => classify F d = DataBit b) ds bs ->
  forall s : isr_state,
    TFA_PACKETS <= tfa_buf_packet s ->
    Z.of_nat (length bs) <= tfa_buf_bit s <= 36 ->
    tfa_buf (feed F ds s) = tfa_buf s /\
    tfa_buf_packet (feed F ds s) = tfa_buf_packet s /\
    p_tfa (feed F ds s) = p_tfa s /\
    tfa_buf_bit (feed F ds s) = tfa_buf_bit s - Z.of_nat (length bs).
Proof.
  induction 1 as [|d b ds bs Hd _ IH]; intros s Hpk Hbit.
  - cbn. repeat split; lia.
  - change (feed F (d :: ds) s) with (feed F ds (isr_decode F (set_tfa_timer d s))).
    cbn [length] in Hbit |- *.
    set (s1 := isr_decode F (set_tfa_timer d s)).
    assert (H1 : tfa_buf s1 = tfa_buf s /\ tfa_buf_packet s1 = tfa_buf_packet s /\
                 p_tfa s1 = p_tfa s /\ tfa_buf_bit s1 = tfa_buf_bit s - 1).
    { unfold s1. rewrite isr_decode_framer. cbn [tfa_timer set_tfa_timer].
      rewrite Hd. unfold framer, on_data.
      cbn [tfa_buf_packet tfa_buf_bit set_tfa_timer].
      unfold TFA_PACKETS in *.
      destruct (Z.ltb_spec (tfa_buf_packet s) 7); [lia|]. rewrite andb_false_r.
      destruct (Z.leb_spec 0 (tfa_buf_bit s)); [|lia].
      cbn [tfa_buf tfa_buf_packet p_tfa tfa_buf_bit set_tfa_buf_bit set_tfa_timer].
      rewrite sint8_small by lia. auto. }
    destruct H1 as (Hb & Hp & Ht & Hbit1).
    destruct (IH s1) as (Hb' & Hp' & Ht' & Hbit'); [lia | lia |].
    rewrite Hb', Hp', Ht', Hbit', Hb, Hp, Ht, Hbit1.
    split; [reflexivity|]. split; [reflexivity|]. split; [reflexivity | lia].
Qed.

(** A whole repetition that arrives with the buffer full: nothing is
    stored, the index ends one above the capacity. *)
Lemma feed_repetition_full (F : Z) (d0 dstop : Z) (ds : list Z) (bits : list bool)
    (s : isr_state) :
  TFA_PACKETS <= tfa_buf_packet s <= TFA_PACKETS + 1 ->
  classify F d0 = StartBit ->
  Forall2 (fun d b => classify F d = DataBit b) ds bits ->
  length bits = 36%nat ->
  classify F dstop = StopBit ->
  let s' := feed F (d0 :: ds ++ [dstop]) s in
  tfa_buf s' = tfa_buf s /\ tfa_buf_packet s' = TFA_PACKETS + 1 /\
  tfa_buf_bit s' = -1 /\ p_tfa s' = p_tfa s.
Proof.
  intros Hpk Hc0 Hds Hn Hcs. cbv zeta.
  change (d0 :: ds ++ [dstop]) with ([d0] ++ ds ++ [dstop]). rewrite !feed_app.
  set (s0 := feed F [d0] s).
  assert (H0 : tfa_buf s0 = tfa_buf s /\ tfa_buf_packet s0 = tfa_buf_packet s /\
               p_tfa s0 = p_tfa s /\ tfa_buf_bit s0 = 36).
  { unfold s0. cbn [feed foldl]. rewrite isr_decode_framer. cbn [tfa_timer set_tfa_timer].
    rewrite Hc0. unfold framer, on_start.
    cbn [tfa_buf_packet set_tfa_buf_bit set_tfa_timer].
    unfold TFA_PACKETS in *. destruct (Z.ltb_spec (tfa_buf_packet s) 7); [lia|].
    cbn. auto. }
  destruct H0 as (Hb0 & Hp0 & Ht0 & Hbit0).
  destruct (feed_data_full F ds bits Hds s0) as (Hb1 & Hp1 & Ht1 & Hbit1);
    [lia | rewrite Hbit0, Hn; lia |].
  set (s1 := feed F ds s0) in *.
  rewrite Hbit0, Hn in Hbit1. change (36 - Z.of_nat 36) with 0 in Hbit1.
  cbn [feed foldl]. rewrite isr_decode_framer. cbn [tfa_timer set_tfa_timer].
  rewrite Hcs. unfold framer, on_stop.
  cbn [tfa_buf_packet tfa_buf_bit set_tfa_buf_bit set_tfa_timer].
  rewrite Hbit1. change (0 =? 0) with true. cbv iota.
  unfold TFA_PACKETS in *.
  destruct (Z.ltb_spec (tfa_buf_packet s1) (7 + 1)).
  - cbn [tfa_buf tfa_buf_bit tfa_buf_packet p_tfa set_tfa_buf_packet set_tfa_buf_bit
         set_tfa_timer].
    rewrite uint8_small by lia.
    split; [congruence|]. split; [lia|]. split; [reflexivity | congruence].
  - cbn [tfa_buf tfa_buf_bit tfa_buf_packet p_tfa set_tfa_buf_packet set_tfa_buf_bit
         set_tfa_timer].
    split; [congruence|]. split; [lia|]. split; [reflexivity | congruence].
Qed.

(** ** Captures are determined by their bits *)

Lemma byte_ext (x y : Z) :
  0 <= x < 256 -> 0 <= y < 256 ->
  (forall t, 0 <= t < 8 -> Z.testbit x t = Z.testbit y t) -> x = y.
Proof.
  intros Hx Hy H. apply Z.bits_inj'. intros n Hn.
  destruct (Z.lt_ge_cases n 8) as [Hlt|Hge]; [apply H; lia|].
  rewrite <- (Z.mod_small x 256), <- (Z.mod_small y 256) by lia.
  change 256 with (2 ^ 8). now rewrite !Z.mod_pow2_bits_high by lia.
Qed.

Lemma row_ext (a b : list Z) :
  wf_row a -> wf_row b ->
  (forall q, 0 <= q < 40 -> capture_bit a q = capture_bit b q) -> a = b.
Proof.
  intros Ha Hb H.
  assert (Hbyte : forall i, (i < 5)%nat -> a !!! i = b !!! i).
  { intros i Hi. apply byte_ext; [now apply wf_row_byte | now apply wf_row_byte |].
    intros t Ht. specialize (H (8 * Z.of_nat i + t) ltac:(lia)). unfold capture_bit in H.
    replace ((8 * Z.of_nat i + t) / 8) with (Z.of_nat i) in H
      by (Z.div_mod_to_equations; lia).
    replace ((8 * Z.of_nat i + t) mod 8) with t in H by (Z.div_mod_to_equations; lia).
    now rewrite Nat2Z.id in H. }
  destruct Ha as [La _], Hb as [Lb _].
  destruct a as [|a0 [|a1 [|a2 [|a3 [|a4 [|]]]]]]; try discriminate.
  destruct b as [|b0 [|b1 [|b2 [|b3 [|b4 [|]]]]]]; try discriminate.
  pose proof (Hbyte 0%nat ltac:(lia)) as E0. pose proof (Hbyte 1%nat ltac:(lia)) as E1.
  pose proof (Hbyte 2%nat ltac:(lia)) as E2. pose proof (Hbyte 3%nat ltac:(lia)) as E3.
  pose proof (Hbyte 4%nat ltac:(lia)) as E4.
  cbn in E0, E1, E2, E3, E4. congruence.
Qed.

Lemma encode_bytes_wf (r : reading) : valid_reading r -> wf_row (encode_bytes r).
Proof.
  intros (Hrh & Ht & Hc & Hi & Hty).
  pose proof (b12_check_true (r_sync r) (r_batt r) (r_channel r) (r_temp10 r) Hc Ht) as H12.
  pose proof (b34_check_true (r_id r) (r_type r) Hi Hty) as H34.
  unfold b12_check in H12. unfold b34_check in H34. cbv zeta in H12, H34.
  apply andb_prop in H12 as [H12 A4]. apply andb_prop in H12 as [H12 A3].
  apply andb_prop in H12 as [H12 A2]. apply andb_prop in H12 as [_ A1].
  apply andb_prop in H34 as [H34 B4]. apply andb_prop in H34 as [H34 B3].
  apply andb_prop in H34 as [H34 B2]. apply andb_prop in H34 as [_ B1].
  apply Z.leb_le in A1, A3, B1, B3. apply Z.ltb_lt in A2, A4, B2, B4.
  split; [reflexivity|]. unfold encode_bytes.
  repeat (apply Forall_cons; split; [lia|]). apply Forall_nil. exact I.
Qed.

Lemma encode_bytes_pad (r : reading) (q : Z) :
  valid_reading r -> 36 <= q < 40 -> capture_bit (encode_bytes r) q = false.
Proof.
  intros (Hrh & Ht & Hc & Hi & Hty) Hq.
  pose proof (b34_check_true (r_id r) (r_type r) Hi Hty) as H34.
  unfold b34_check in H34. cbv zeta in H34.
  apply andb_prop in H34 as [H34 B4]. apply andb_prop in H34 as [_ B3].
  apply Z.leb_le in B3. apply Z.ltb_lt in B4.
  unfold capture_bit. replace (Z.to_nat (q / 8)) with 4%nat by (Z.div_mod_to_equations; lia).
  change (encode_bytes r !!! 4%nat) with (encode_b4 (r_type r)).
  rewrite <- (Z.mod_small (encode_b4 (r_type r)) 16) by lia.
  change 16 with (2 ^ 4). apply Z.mod_pow2_bits_high. Z.div_mod_to_equations. lia.
Qed.

Lemma encode_bits_lookup (r : reading) (i : nat) :
  (i < 36)%nat ->
  encode_bits r !! i = Some (capture_bit (encode_bytes r) (35 - Z.of_nat i)).
Proof.
  intros Hi. unfold encode_bits. rewrite list_lookup_fmap, lookup_seq_lt by exact Hi.
  reflexivity.
Qed.

(** ** Framing a repetition *)

Lemma parse_temp10_encode_bytes (r : reading) :
  valid_reading r -> parse_temp10 (encode_bytes r) = r_temp10 r.
Proof.
  intros (Hrh & Ht & Hc & Hi & Hty).
  pose proof (b12_check_true (r_sync r) (r_batt r) (r_channel r) (r_temp10 r) Hc Ht) as H12.
  unfold b12_check in H12. cbv zeta in H12.
  repeat (apply andb_prop in H12 as [H12 _]).
  apply Z.eqb_eq in H12. exact H12.
Qed.

(** What parsing the capture of a reading gives back: every field of the
    reading, the temperature as the tenths it was encoded from. *)
Lemma tfa_parse_recovers_reading (r : reading) (d : list (list Z)) (n f : Z) :
  valid_reading r ->
  let parsed := snd (tfa_parse (TTFA.mk d n (encode_bytes r) f)) in
  fst (tfa_parse (TTFA.mk d n (encode_bytes r) f)) = (if r_type r =? TFA_TYPE then 1 else 0) /\
  TSensor.rh parsed = r_rh r /\
  TSensor.channel parsed = r_channel r /\
  TSensor.id parsed = r_id r /\
  TSensor.type parsed = r_type r /\
  SENSOR_IS_SYNC (TSensor.flags parsed) = Z.b2z (r_sync r) /\
  SENSOR_IS_LOW_BATT (TSensor.flags parsed) = Z.b2z (r_batt r) /\
  parse_temp10 (encode_bytes r) = r_temp10 r /\
  TSensor.temp parsed = f32_mul (f32_const 1 10) (f32_of_Z (r_temp10 r)) /\
  tenths_of (TSensor.temp parsed) = r_temp10 r /\
  (Qabs (f32_value (TSensor.temp parsed) - (r_temp10 r # 10)) <= 1 # 100000)%Q.
Proof.
  intros Hr. cbv zeta.
  pose proof (tfa_parse_encode_bytes r d n f Hr) as E.
  destruct Hr as (Hrh & Ht & Hc & Hi & Hty).
  pose proof (temp_scale_check_true _ Ht) as Hs. unfold temp_scale_check in Hs.
  apply andb_prop in Hs as [Hq Hz]. apply Qle_bool_iff in Hq. apply Z.eqb_eq in Hz.
  rewrite E. cbn [fst snd sensor_of_reading TSensor.rh TSensor.channel TSensor.id
                  TSensor.type TSensor.flags TSensor.temp].
  split; [reflexivity|]. split; [reflexivity|]. split; [reflexivity|].
  split; [reflexivity|]. split; [reflexivity|].
  split; [destruct (r_batt r), (r_sync r); reflexivity|].
  split; [destruct (r_batt r), (r_sync r); reflexivity|].
  split; [apply parse_temp10_encode_bytes; repeat split; lia|].
  split; [reflexivity|]. split; [exact Hz | exact Hq].
Qed.

(** C4: a start pulse, exactly 36 data pulses and a stop pulse are fed to
    the handler sample by sample.  While the repetition index is below the
    capacity of 7, they leave in the current capture slot a 5-byte capture
    whose bit (35-i) mod 8 of byte (35-i) div 8 is the i-th received bit, for
    i from 0; the other slots keep their content and the repetition index
    advances by one.  When the 36 bits are those of a reading laid out as the
    packet byte table has it, the capture is the encoded reading, and
    [tfa_parse] on it returns the humidity, channel, identity, type tag, sync
    and battery flags of the reading and its number of tenths of a degree,
    valid exactly when the type tag is 0x90; the temperature is the binary32
    product of 0.1 and the tenths, from which the tenths are read back by
    rounding ten times its value, and it lies within 1/100000 degree of the
    tenth part of the tenths.  When the repetition index has reached the
    capacity, the same pulses store nothing: the buffer is as before and the
    index ends at 8. *)
Theorem frame_36_bits_roundtrip (F : Z) (s : isr_state)
    (start stop : nat * nat) (data : list (nat * nat)) (bits : list bool) :
  wf_buf (tfa_buf s) ->
  0 <= tfa_buf_packet s <= TFA_PACKETS + 1 ->
  tfa_old s <> 0 \/ tfa_timer s = 0 ->
  wf_pulse start -> Forall wf_pulse data -> wf_pulse stop ->
  classify F (measured start) = StartBit ->
  Forall2 (fun p b => classify F (measured p) = DataBit b) data bits ->
  length bits = 36%nat ->
  classify F (measured stop) = StopBit ->
  let s' := run F (pulse_train (start :: data ++ [stop])) s in
  let k := Z.to_nat (tfa_buf_packet s) in
  (tfa_buf_packet s < TFA_PACKETS ->
   exists capture : list Z,
    tfa_buf s' !! k = Some capture /\
    length capture = 5%nat /\
    (forall (i : nat) (b : bool), bits !! i = Some b ->
       Z.testbit (capture !!! Z.to_nat ((35 - Z.of_nat i) / 8)) ((35 - Z.of_nat i) mod 8) = b) /\
    (forall m, m <> k -> tfa_buf s' !! m = tfa_buf s !! m) /\
    tfa_buf_packet s' = tfa_buf_packet s + 1 /\
    forall r : reading,
      valid_reading r -> bits = encode_bits r ->
      capture = encode_bytes r /\
      forall (d : list (list Z)) (n f : Z),
        let parsed := snd (tfa_parse (TTFA.mk d n capture f)) in
        tfa_parse (TTFA.mk d n capture f)
        = (if r_type r =? TFA_TYPE then 1 else 0, sensor_of_reading r) /\
        TSensor.rh parsed = r_rh r /\
        TSensor.channel parsed = r_channel r /\
        TSensor.id parsed = r_id r /\
        TSensor.type parsed = r_type r /\
        SENSOR_IS_SYNC (TSensor.flags parsed) = Z.b2z (r_sync r) /\
        SENSOR_IS_LOW_BATT (TSensor.flags parsed) = Z.b2z (r_batt r) /\
        parse_temp10 capture = r_temp10 r /\
        TSensor.temp parsed = f32_mul (f32_const 1 10) (f32_of_Z (r_temp10 r)) /\
        tenths_of (TSensor.temp parsed) = r_temp10 r /\
        (Qabs (f32_value (TSensor.temp parsed) - (r_temp10 r # 10)) <= 1 # 100000)%Q) /\
  (TFA_PACKETS <= tfa_buf_packet s ->
   tfa_buf s' = tfa_buf s /\ tfa_buf_packet s' = TFA_PACKETS + 1).
Proof.
  intros Hwf Hpk Hs Hw0 Hwd Hws Hc0 Hcd Hn Hcs s' k.
  assert (Hsame : same_framer s' (feed F (measured <$> (start :: data ++ [stop])) s)).
  { apply run_pulse_train; [|exact Hs].
    apply Forall_cons. split; [exact Hw0|]. apply Forall_app. split; [exact Hwd|].
    apply Forall_cons. split; [exact Hws | apply Forall_nil; exact I]. }
  rewrite fmap_cons, fmap_app in Hsame. cbn [fmap list_fmap] in Hsame.
  assert (Hcd' : Forall2 (fun d b => classify F d = DataBit b) (measured <$> data) bits)
    by (apply Forall2_fmap_l; exact Hcd).
  destruct Hsame as (Hbuf & _ & Hpkt & _).
  split.
  - intros Hlt.
    assert (Hk : tfa_buf_packet s = Z.of_nat k) by (unfold k; lia).
    assert (Hk7 : (k < 7)%nat) by (unfold k, TFA_PACKETS in *; lia).
    destruct (feed_repetition F (measured start) (measured stop) (measured <$> data) bits k s
                Hwf Hk Hk7 Hc0 Hcd' Hn Hcs)
      as (Hpk' & _ & _ & Hoth & row & Hrow & Hwr & Hbits & Hpad).
    exists row. rewrite Hbuf, Hpkt.
    split; [exact Hrow|]. split; [apply Hwr|]. split; [exact Hbits|].
    split; [exact Hoth|]. split; [rewrite Hpk'; lia|].
    intros r Hr Hbits_r.
    assert (E : row = encode_bytes r).
    { apply row_ext; [exact Hwr | now apply encode_bytes_wf |].
      intros q Hq. destruct (Z.lt_ge_cases q 36) as [Hlt'|Hge].
      - replace q with (35 - Z.of_nat (Z.to_nat (35 - q))) by lia.
        apply Hbits. rewrite Hbits_r. apply encode_bits_lookup. lia.
      - rewrite Hpad by lia. symmetry. apply encode_bytes_pad; [exact Hr | lia]. }
    split; [exact E|]. intros d n f. rewrite E. cbv zeta.
    split; [now apply tfa_parse_encode_bytes|].
    destruct (tfa_parse_recovers_reading r d n f Hr) as (_ & H). exact H.
  - intros Hge.
    destruct (feed_repetition_full F (measured start) (measured stop) (measured <$> data) bits s
                ltac:(lia) Hc0 Hcd' Hn Hcs) as (Hb & Hp & _).
    rewrite Hbuf, Hpkt. split; [exact Hb | exact Hp].
Qed.

Lemma frame_36_bits_roundtrip_witness :
  exists capture : list Z,
    tfa_buf (run F_CPU_8MHz
                 (pulse_train (start_pulse :: map data_pulse (encode_bits reading_example)
                               ++ [stop_pulse]))
                 (isr_init tfa_zero 0))
      !! Z.to_nat (tfa_buf_packet (isr_init tfa_zero 0)) = Some capture /\
    capture = encode_bytes reading_example /\
    tenths_of (TSensor.temp (snd (tfa_parse (TTFA.mk [] 0 capture 0)))) = 237.
Proof.
  destruct (frame_36_bits_roundtrip F_CPU_8MHz (isr_init tfa_zero 0) start_pulse stop_pulse
              (map data_pulse (encode_bits reading_example)) (encode_bits reading_example))
    as [Hlow _].
  - split; [reflexivity|].
    repeat (constructor; [split; [reflexivity | repeat (constructor; [lia|]); constructor]|]).
    constructor.
  - simpl. unfold TFA_PACKETS. lia.
  - right. reflexivity.
  - split; simpl; lia.
  - repeat (constructor; [split; vm_compute; repeat constructor|]). constructor.
  - split; simpl; lia.
  - vm_compute. reflexivity.
  - repeat (constructor; [vm_compute; reflexivity|]). constructor.
  - vm_compute. reflexivity.
  - vm_compute. reflexivity.
  - destruct Hlow as (capture & Hrow & _ & _ & _ & _ & Hr); [vm_compute; reflexivity|].
    assert (Hv : valid_reading reading_example)
      by (unfold valid_reading; simpl; unfold TFA_TYPE; lia).
    destruct (Hr reading_example Hv eq_refl) as (E & Hp).
    exists capture. split; [exact Hrow|]. split; [exact E|].
    destruct (Hp [] 0 0) as (_ & _ & _ & _ & _ & _ & _ & _ & _ & Ht & _). exact Ht.
Defined.


Lemma identity_locking_and_resync_witness :
  exists st',
    accept reading_id5_chn2 main_locked_example = Some st' /\
    sensors st' = sensors main_locked_example.
Proof.
  destruct (identity_locking_and_resync reading_id5_chn2 main_locked_example 2
              reading_id9_chn2) as (_ & H & _).
  - reflexivity.
  - reflexivity.
  - lia.
  - reflexivity.
  - apply H; simpl; lia.
Defined.

(** * Further properties of the interrupt handler *)

Lemma land_ARX_cases (pind : Z) :
  Z.land pind (Z.shiftl 1 ARX) = 0 \/ Z.land pind (Z.shiftl 1 ARX) = Z.shiftl 1 ARX.
Proof.
  change (Z.shiftl 1 ARX) with (2 ^ 2).
  destruct (Z.testbit pind 2) eqn:E; [right|left]; apply Z.bits_inj'; intros n Hn;
    rewrite Z.land_spec, ?Z.bits_0, Z.pow2_bits_eqb by lia;
    destruct (Z.eqb_spec 2 n) as [<-|Hne]; rewrite ?E, ?andb_false_r; reflexivity.
Qed.

Lemma wf_buf_alter (buf : list (list Z)) (k : nat) (f : list Z -> list Z) :
  wf_buf buf -> (forall row, wf_row row -> wf_row (f row)) -> wf_buf (alter f k buf).
Proof.
  intros [Hl Hr] Hf. split; [now rewrite length_alter|].
  apply Forall_alter; [exact Hr|]. intros row _ Hrow. now apply Hf.
Qed.

Lemma wf_row_clear_last (row : list Z) : wf_row row -> wf_row (<[4%nat := 0]> row).
Proof.
  intros [Hl Hr]. split; [now rewrite length_insert|].
  apply Forall_insert; [exact Hr | lia].
Qed.

Lemma wf_row_store_bit (row : list Z) (j : Z) (i : nat) (d : bool) :
  wf_row row -> wf_row (alter (store_bit (uint8 (Z.shiftl 1 (Z.land j 7))) d) i row).
Proof.
  intros Hwf. apply wf_row_alter; [exact Hwf|].
  intros x Hx. apply store_bit_spec; [|exact Hx].
  change 7 with (Z.ones 3). apply (land_ones_range j 3). lia.
Qed.

Ltac isr_simpl :=
  cbn [tfa_timer led_delay tfa_buf_bit tfa_buf_packet tfa_buf tfa_old p_tfa PORTD
       set_tfa_buf_packet set_tfa_buf_bit set_tfa_buf set_led_delay set_PORTD set_p_tfa
       set_tfa_timer set_tfa_old andb].
Ltac isr_simpl_in_all :=
  cbn [tfa_timer led_delay tfa_buf_bit tfa_buf_packet tfa_buf tfa_old p_tfa PORTD
       set_tfa_buf_packet set_tfa_buf_bit set_tfa_buf set_led_delay set_PORTD set_p_tfa
       set_tfa_timer set_tfa_old andb] in *.

Lemma isr_decode_wf (F : Z) (s : isr_state) : isr_wf s -> isr_wf (isr_decode F s).
Proof.
  unfold isr_wf. change TFA_BITS with 36. change (TFA_PACKETS + 1) with 8.
  intros (Ht & Hl & Hb & Hp & Hw & Ho).
  rewrite isr_decode_framer. destruct (classify F (tfa_timer s)); unfold framer.
  - unfold on_glitch. isr_simpl. repeat (split; [auto; lia|]). auto.
  - unfold on_stop. change (TFA_PACKETS + 1) with 8.
    destruct (Z.eqb_spec (tfa_buf_bit s) 0) as [E|E];
      [|repeat (split; [auto; lia|]); auto].
    rewrite E. change (sint8 (0 - 1)) with (-1).
    cbn [tfa_buf_packet set_tfa_buf_bit].
    destruct (Z.ltb_spec (tfa_buf_packet s) 8).
    + rewrite uint8_small by lia. isr_simpl. repeat (split; [auto; lia|]). auto.
    + isr_simpl. repeat (split; [auto; lia|]). auto.
  - unfold on_gap.
    destruct ((3 <=? tfa_buf_packet s) && (tfa_buf_packet s <=? TFA_PACKETS));
      isr_simpl; repeat (split; [auto; lia|]); auto.
  - unfold on_start. change TFA_BITS with 36. cbn [tfa_buf_packet set_tfa_buf_bit tfa_buf].
    destruct (tfa_buf_packet s <? TFA_PACKETS); isr_simpl.
    + do 4 (split; [auto; lia|]). split; [|auto].
      apply wf_buf_alter; [exact Hw|]. intros row. apply wf_row_clear_last.
    + repeat (split; [auto; lia|]). auto.
  - unfold on_data. change TFA_PACKETS with 7.
    destruct (Z.ltb_spec 0 (tfa_buf_bit s)); destruct (Z.ltb_spec (tfa_buf_packet s) 7);
      cbn [andb].
    + isr_simpl. rewrite sint8_small by lia. do 4 (split; [auto; lia|]). split; [|auto].
      apply wf_buf_alter; [exact Hw|]. intros row. apply wf_row_store_bit.
    + destruct (Z.leb_spec 0 (tfa_buf_bit s)); isr_simpl; rewrite ?sint8_small by lia;
        repeat (split; [auto; lia|]); auto.
    + destruct (Z.leb_spec 0 (tfa_buf_bit s)); isr_simpl; rewrite ?sint8_small by lia;
        repeat (split; [auto; lia|]); auto.
    + destruct (Z.leb_spec 0 (tfa_buf_bit s)); isr_simpl; rewrite ?sint8_small by lia;
        repeat (split; [auto; lia|]); auto.
Qed.

Lemma ISR_tail_wf (F : Z) (s : isr_state) :
  isr_wf s ->
  isr_wf
    (let s := if tfa_timer s <? 255 then set_tfa_timer (uint8 (tfa_timer s + 1)) s else s in
     let s := set_led_delay (uint16 (led_delay s + 1)) s in
     if SFleb (LED_DELAY F) (f32_of_Z (led_delay s))
     then set_PORTD (cbi (PORTD s) LED_PACKET) s
     else s).
Proof.
  unfold isr_wf. intros (Ht & Hl & Hb & Hp & Hw & Ho). cbv zeta.
  assert (Hu : forall z, 0 <= uint16 z < 65536) by (intros z; apply Z.mod_pos_bound; lia).
  destruct (Z.ltb_spec (tfa_timer s) 255);
    match goal with |- context [if SFleb ?a ?b then _ else _] => destruct (SFleb a b) end;
    isr_simpl; rewrite ?uint8_small by lia;
    (split; [lia|]); (split; [apply Hu|]); repeat (split; [auto; lia|]); auto.
Qed.

Lemma ISR_wf (F : Z) (pind : Z) (s : isr_state) :
  isr_wf s -> isr_wf (ISR_TIMER0_COMPA F pind s).
Proof.
  intros Hs. unfold ISR_TIMER0_COMPA.
  set (st := Z.land pind (Z.shiftl 1 ARX)).
  assert (H1 : isr_wf (set_tfa_old st s)).
  { unfold isr_wf in *. destruct Hs as (Ht & Hl & Hb & Hp & Hw & Ho). isr_simpl.
    repeat (split; [auto; lia|]). apply land_ARX_cases. }
  apply ISR_tail_wf.
  destruct (negb (Z.land (Z.lxor st (tfa_old s)) (tfa_old s) =? 0)).
  - unfold isr_wf in *. destruct H1 as (Ht & Hl & Hb & Hp & Hw & Ho). isr_simpl_in_all.
    repeat (split; [auto; lia|]). auto.
  - destruct (negb (Z.land (Z.lxor st (tfa_old s)) st =? 0)); [|exact H1].
    now apply isr_decode_wf.
Qed.

Lemma isr_init_wf (t : TTFA.t) (portd : Z) : isr_wf (isr_init t portd).
Proof.
  unfold isr_wf, isr_init. isr_simpl. change TFA_BITS with 36. change (TFA_PACKETS + 1) with 8.
  do 4 (split; [lia|]). split; [|auto].
  split; [reflexivity|].
  repeat (constructor; [split; [reflexivity | repeat (constructor; [lia|]); constructor]|]).
  constructor.
Qed.

Lemma run_wf (F : Z) (pins : list Z) (s : isr_state) : isr_wf s -> isr_wf (run F pins s).
Proof.
  revert s. induction pins as [|pind pins IH]; intros s Hs; [exact Hs|].
  rewrite run_cons. apply IH. now apply ISR_wf.
Qed.


(** A tick decodes a pulse exactly when the line was sampled low on the
    previous tick and is sampled high now; every other tick leaves the
    framer's part of the state as it was. *)
Theorem only_rising_edge_decodes (F : Z) (pind : Z) (s : isr_state) :
  tfa_old s = 0 \/ tfa_old s = Z.shiftl 1 ARX ->
  (tfa_old s = 0 /\ Z.testbit pind ARX = true ->
     same_framer (ISR_TIMER0_COMPA F pind s) (isr_decode F s)) /\
  (~ (tfa_old s = 0 /\ Z.testbit pind ARX = true) ->
     same_framer (ISR_TIMER0_COMPA F pind s) s).
Proof.
  intros Ho.
  assert (Hbit : Z.testbit (Z.land pind (Z.shiftl 1 ARX)) ARX = Z.testbit pind ARX).
  { rewrite Z.land_spec. change (Z.testbit (Z.shiftl 1 ARX) ARX) with true.
    apply andb_true_r. }
  split.
  - intros [Hold Hpin]. apply ISR_rise; [exact Hold|].
    intros E. rewrite E in Hbit. rewrite Hpin in Hbit. discriminate.
  - intros Hn. unfold ISR_TIMER0_COMPA.
    eapply same_framer_trans; [apply ISR_tail_same_framer|].
    destruct (land_ARX_cases pind) as [E|E]; rewrite E in *.
    + rewrite Z.lxor_0_l, Z.land_diag, Z.land_0_r. change (negb (0 =? 0)) with false.
      destruct (negb (tfa_old s =? 0)); unfold same_framer; cbn; auto.
    + destruct Ho as [Ho|Ho]; rewrite Ho.
      * exfalso. apply Hn. split; [exact Ho|]. rewrite <- Hbit. reflexivity.
      * cbn. unfold same_framer; cbn; auto.
Qed.

Lemma only_rising_edge_decodes_witness :
  same_framer (ISR_TIMER0_COMPA F_CPU_8MHz 0 idle_example) idle_example.
Proof.
  destruct (only_rising_edge_decodes F_CPU_8MHz 0 idle_example) as [_ H].
  - right. reflexivity.
  - apply H. intros [E _]. discriminate E.
Defined.

(** After a falling edge the pulse timer counts the low samples and stops
    at 255: [n] low samples give a timer of min(n, 255), and the framer is
    not touched meanwhile. *)
Theorem low_pulse_length_is_measured (F : Z) (n : nat) (s : isr_state) :
  (1 <= n)%nat -> tfa_old s <> 0 ->
  let s' := run F (repeat 0 n) s in
  tfa_timer s' = Z.min (Z.of_nat n) 255 /\ tfa_old s' = 0 /\ same_framer s' s.
Proof.
  intros Hn Ho. destruct (run_lows F n s Hn (or_introl Ho)) as (Hf & Ho' & Ht).
  cbv zeta. auto.
Qed.

Lemma low_pulse_length_is_measured_witness :
  tfa_timer (run F_CPU_8MHz (repeat 0 300%nat) idle_example) = Z.min (Z.of_nat 300) 255.
Proof.
  destruct (low_pulse_length_is_measured F_CPU_8MHz 300 idle_example) as (H & _).
  - lia.
  - discriminate.
  - exact H.
Defined.

(** The handler run over the samples of a train of low pulses leaves the
    framer where the pulse decoder leaves it when run once per pulse on the
    measured lengths, in order. *)
Theorem samples_decode_once_per_pulse (F : Z) (ps : list (nat * nat)) (s : isr_state) :
  Forall wf_pulse ps -> tfa_old s <> 0 \/ tfa_timer s = 0 ->
  same_framer (run F (pulse_train ps) s) (feed F (measured <$> ps) s).
Proof. apply run_pulse_train. Qed.

Lemma samples_decode_once_per_pulse_witness :
  same_framer (run F_CPU_8MHz (pulse_train [(3, 2); start_pulse; data_pulse true]%nat)
                   idle_example)
              (feed F_CPU_8MHz [3; 160; 72] idle_example).
Proof.
  apply (samples_decode_once_per_pulse F_CPU_8MHz [(3, 2); start_pulse; data_pulse true]%nat
           idle_example).
  - repeat (constructor; [split; vm_compute; repeat constructor|]). constructor.
  - left. discriminate.
Defined.

(** ** Counting repetitions *)

Lemma data_countdown (F : Z) (d : Z) (b : bool) (s : isr_state) :
  classify F d = DataBit b -> -1 <= tfa_buf_bit s <= 36 ->
  let s' := isr_decode F (set_tfa_timer d s) in
  tfa_buf_bit s' = Z.max (tfa_buf_bit s - 1) (-1) /\
  tfa_buf_packet s' = tfa_buf_packet s /\ p_tfa s' = p_tfa s.
Proof.
  intros Hc Hb. cbv zeta. rewrite isr_decode_framer. cbn [tfa_timer set_tfa_timer].
  rewrite Hc. unfold framer, on_data.
  cbn [tfa_buf_bit tfa_buf_packet set_tfa_timer].
  destruct (Z.ltb_spec 0 (tfa_buf_bit s)); destruct (tfa_buf_packet s <? TFA_PACKETS);
    cbn [andb]; try (isr_simpl; rewrite sint8_small by lia; repeat split; lia);
    destruct (Z.leb_spec 0 (tfa_buf_bit s)); isr_simpl; rewrite ?sint8_small by lia;
    repeat split; lia.
Qed.

Lemma feed_cons (F : Z) (d : Z) (ds : list Z) (s : isr_state) :
  feed F (d :: ds) s = feed F ds (isr_decode F (set_tfa_timer d s)).
Proof. reflexivity. Qed.

Lemma feed_data_countdown (F : Z) (ds : list Z) (s : isr_state) :
  Forall (fun d => exists b, classify F d = DataBit b) ds -> -1 <= tfa_buf_bit s <= 36 ->
  tfa_buf_bit (feed F ds s) = Z.max (tfa_buf_bit s - Z.of_nat (length ds)) (-1) /\
  tfa_buf_packet (feed F ds s) = tfa_buf_packet s /\ p_tfa (feed F ds s) = p_tfa s.
Proof.
  intros H. revert s. induction H as [|d ds [b Hd] _ IH]; intros s Hb.
  - cbn. repeat split. lia.
  - rewrite feed_cons. cbn [length].
    destruct (data_countdown F d b s Hd Hb) as (E1 & E2 & E3). cbv zeta in *.
    destruct (IH (isr_decode F (set_tfa_timer d s)) ltac:(lia)) as (I1 & I2 & I3).
    rewrite I1, I2, I3, E1, E2, E3. repeat split. lia.
Qed.

(** A stop pulse closes a repetition only after exactly 36 data pulses: for
    a start pulse, any number of data pulses and a stop pulse, fed sample by
    sample, the repetition index advances by one (up to 8) when there were
    exactly 36 data pulses and stays as it was otherwise; the published
    object is not touched. *)
Theorem repetition_counted_iff_36_bits (F : Z) (s : isr_state)
    (start stop : nat * nat) (data : list (nat * nat)) :
  0 <= tfa_buf_packet s <= TFA_PACKETS + 1 ->
  tfa_old s <> 0 \/ tfa_timer s = 0 ->
  wf_pulse start -> Forall wf_pulse data -> wf_pulse stop ->
  classify F (measured start) = StartBit ->
  Forall (fun p => exists b, classify F (measured p) = DataBit b) data ->
  classify F (measured stop) = StopBit ->
  let s' := run F (pulse_train (start :: data ++ [stop])) s in
  tfa_buf_packet s' =
    (if (length data =? 36)%nat then Z.min (tfa_buf_packet s + 1) (TFA_PACKETS + 1)
     else tfa_buf_packet s) /\
  p_tfa s' = p_tfa s.
Proof.
  intros Hpk Hs Hw0 Hwd Hws Hc0 Hcd Hcs s'.
  assert (Hsame : same_framer s' (feed F (measured <$> (start :: data ++ [stop])) s)).
  { apply run_pulse_train; [|exact Hs].
    apply Forall_cons. split; [exact Hw0|]. apply Forall_app. split; [exact Hwd|].
    apply Forall_cons. split; [exact Hws | apply Forall_nil; exact I]. }
  destruct Hsame as (_ & _ & -> & ->).
  rewrite fmap_cons, fmap_app. cbn [fmap list_fmap].
  change (measured start :: (measured <$> data) ++ [measured stop])
    with ([measured start] ++ (measured <$> data) ++ [measured stop]).
  rewrite !feed_app.
  set (s1 := feed F [measured start] s).
  assert (H1 : tfa_buf_bit s1 = 36 /\ tfa_buf_packet s1 = tfa_buf_packet s /\
               p_tfa s1 = p_tfa s).
  { unfold s1. rewrite feed_cons. change (feed F [] ?x) with x. rewrite isr_decode_framer. cbn [tfa_timer set_tfa_timer].
    rewrite Hc0. unfold framer, on_start. cbn [tfa_buf_packet set_tfa_buf_bit set_tfa_timer].
    destruct (tfa_buf_packet s <? TFA_PACKETS); isr_simpl; auto. }
  destruct H1 as (B1 & P1 & T1).
  assert (Hcd' : Forall (fun d => exists b, classify F d = DataBit b) (measured <$> data)).
  { apply Forall_fmap. exact Hcd. }
  destruct (feed_data_countdown F _ s1 Hcd' ltac:(lia)) as (B2 & P2 & T2).
  rewrite length_fmap in B2.
  set (s2 := feed F (measured <$> data) s1) in *.
  rewrite feed_cons. change (feed F [] ?x) with x. rewrite isr_decode_framer. cbn [tfa_timer set_tfa_timer].
  rewrite Hcs. unfold framer, on_stop. cbn [tfa_buf_bit tfa_buf_packet set_tfa_timer].
  rewrite B2, B1. change (TFA_PACKETS + 1) with 8 in *.
  destruct (Nat.eqb_spec (length data) 36) as [E|E].
  - rewrite E. change (Z.max (36 - Z.of_nat 36) (-1) =? 0) with true. cbv iota.
    isr_simpl. rewrite P2, P1.
    destruct (Z.ltb_spec (tfa_buf_packet s) 8); isr_simpl.
    + rewrite ?P2, ?P1. rewrite uint8_small by lia. rewrite T2, T1. split; [lia | reflexivity].
    + rewrite ?P2, ?P1, T2, T1. split; [lia | reflexivity].
  - destruct (Z.eqb_spec (Z.max (36 - Z.of_nat (length data)) (-1)) 0) as [E0|E0]; [lia|].
    isr_simpl. rewrite P2, P1, T2, T1. auto.
Qed.

Lemma repetition_counted_iff_36_bits_witness :
  tfa_buf_packet (run F_CPU_8MHz
                      (pulse_train (start_pulse :: map data_pulse (repeat true 35)
                                    ++ [stop_pulse]))
                      idle_example)
  = (if (length (map data_pulse (repeat true 35)) =? 36)%nat
     then Z.min (tfa_buf_packet idle_example + 1) (TFA_PACKETS + 1)
     else tfa_buf_packet idle_example).
Proof.
  destruct (repetition_counted_iff_36_bits F_CPU_8MHz idle_example start_pulse stop_pulse
              (map data_pulse (repeat true 35))) as [H _].
  - vm_compute. split; discriminate.
  - left. discriminate.
  - split; vm_compute; repeat constructor.
  - repeat (constructor; [split; vm_compute; repeat constructor|]). constructor.
  - split; vm_compute; repeat constructor.
  - vm_compute. reflexivity.
  - repeat (constructor; [exists true; vm_compute; reflexivity|]). constructor.
  - vm_compute. reflexivity.
  - exact H.
Defined.

(** A data pulse during an active repetition changes exactly one bit of the
    capture buffer: in the slot of the current repetition, the bit whose
    position is the countdown minus one becomes the classified value; all
    other bits of that slot and all other slots stay as they were, and the
    countdown goes down by one. *)
Theorem data_pulse_stores_one_bit (F : Z) (s : isr_state) (b : bool) :
  classify F (tfa_timer s) = DataBit b ->
  wf_buf (tfa_buf s) ->
  0 < tfa_buf_bit s <= TFA_BITS ->
  0 <= tfa_buf_packet s < TFA_PACKETS ->
  let s' := isr_decode F s in
  let p := tfa_buf_bit s - 1 in
  let k := Z.to_nat (tfa_buf_packet s) in
  tfa_buf_bit s' = p /\
  tfa_buf_packet s' = tfa_buf_packet s /\
  (forall m, m <> k -> tfa_buf s' !! m = tfa_buf s !! m) /\
  (forall q, 0 <= q < 40 ->
     capture_bit (tfa_buf s' !!! k) q
     = if q =? p then b else capture_bit (tfa_buf s !!! k) q).
Proof.
  intros Hc Hw Hb Hp s' p k. unfold TFA_BITS, TFA_PACKETS in Hb, Hp. subst s'.
  rewrite isr_decode_framer, Hc. unfold framer, on_data. change TFA_PACKETS with 7.
  destruct (Z.ltb_spec 0 (tfa_buf_bit s)); [|lia].
  destruct (Z.ltb_spec (tfa_buf_packet s) 7); [|lia]. cbn [andb]. isr_simpl.
  fold p. rewrite sint8_small by (unfold p; lia).
  change 7 with (Z.ones 3). rewrite Z.land_ones by lia.
  rewrite Z.shiftr_div_pow2 by lia. change (2 ^ 3) with 8. fold k.
  assert (Hk : (k < length (tfa_buf s))%nat)
    by (destruct Hw as [Hl _]; rewrite Hl; unfold k, TFA_PACKETS; lia).
  assert (Hrow : wf_row (tfa_buf s !!! k)).
  { destruct Hw as [_ Hr]. exact (Forall_lookup_total_1 _ _ _ Hr Hk). }
  split; [reflexivity|]. split; [reflexivity|]. split.
  - intros m Hm. now apply list_lookup_alter_ne.
  - intros q Hq. rewrite list_lookup_total_alter_eq by exact Hk.
    apply capture_bit_store; [exact Hrow | unfold p; lia | exact Hq].
Qed.

Lemma data_pulse_stores_one_bit_witness :
  capture_bit (tfa_buf (isr_decode F_CPU_8MHz data_example) !!! 2%nat) 19 = true /\
  capture_bit (tfa_buf (isr_decode F_CPU_8MHz data_example) !!! 2%nat) 20
  = capture_bit (tfa_buf data_example !!! 2%nat) 20.
Proof.
  destruct (data_pulse_stores_one_bit F_CPU_8MHz data_example true) as (_ & _ & _ & H).
  - vm_compute. reflexivity.
  - split; [reflexivity|].
    repeat (constructor; [split; [reflexivity | repeat (constructor; [lia|]); constructor]|]).
    constructor.
  - vm_compute. split; [reflexivity | discriminate].
  - vm_compute. split; [discriminate | reflexivity].
  - split.
    + exact (H 19 ltac:(lia)).
    + exact (H 20 ltac:(lia)).
Defined.

(** * Further properties of the reconciler *)

Lemma land_1_testbit (x : Z) : Z.testbit x 0 = false -> Z.land x TFA_NEW_PACKETS = 0.
Proof.
  intros H. apply Z.bits_inj'. intros n Hn. rewrite Z.land_spec, Z.bits_0.
  change TFA_NEW_PACKETS with (2 ^ 0). rewrite Z.pow2_bits_eqb by lia.
  destruct (Z.eqb_spec 0 n) as [<-|Hne]; [now rewrite H | apply andb_false_r].
Qed.

Lemma cleared_flag_bit0 (f : Z) :
  Z.testbit (uint8 (Z.land f (Z.lnot TFA_NEW_PACKETS))) 0 = false.
Proof.
  unfold uint8. change 256 with (2 ^ 8). rewrite Z.mod_pow2_bits_low by lia.
  rewrite Z.land_spec. change (Z.testbit (Z.lnot TFA_NEW_PACKETS) 0) with false.
  apply andb_false_r.
Qed.

(** A burst is consumed once: whatever [tfa_proc_packets] returns, it leaves
    the new-burst flag clear and the captures and their count as they were,
    so that a second call returns 0 and changes nothing.  Without the flag
    the first call already does so; and with the flag but no captures
    (count 0) the call returns 0 and leaves [packet] alone. *)
Theorem burst_is_consumed_once (t : TTFA.t) :
  let t' := snd (tfa_proc_packets t) in
  Z.land (TTFA.flags t') TFA_NEW_PACKETS = 0 /\
  TTFA.data t' = TTFA.data t /\
  TTFA.packets t' = TTFA.packets t /\
  tfa_proc_packets t' = (0, t') /\
  (Z.land (TTFA.flags t) TFA_NEW_PACKETS = 0 -> tfa_proc_packets t = (0, t)) /\
  (TTFA.packets t = 0 ->
     fst (tfa_proc_packets t) = 0 /\ TTFA.packet t' = TTFA.packet t).
Proof.
  cbv zeta.
  assert (Hidle : forall u, Z.land (TTFA.flags u) TFA_NEW_PACKETS = 0 ->
                            tfa_proc_packets u = (0, u)).
  { intros u Hu. unfold tfa_proc_packets. now rewrite Hu. }
  assert (Hclr : Z.land (TTFA.flags (snd (tfa_proc_packets t))) TFA_NEW_PACKETS = 0).
  { unfold tfa_proc_packets.
    destruct (Z.eqb_spec (Z.land (TTFA.flags t) TFA_NEW_PACKETS) 0) as [E|E]; [exact E|].
    match goal with |- context [if ?b then _ else _] => destruct b end;
      cbn [snd TTFA.flags]; apply land_1_testbit.
    - apply cleared_flag_bit0.
    - rewrite Z.lor_spec, cleared_flag_bit0. reflexivity. }
  split; [exact Hclr|].
  split.
  { unfold tfa_proc_packets.
    repeat match goal with |- context [if ?b then _ else _] => destruct b end; reflexivity. }
  split.
  { unfold tfa_proc_packets.
    repeat match goal with |- context [if ?b then _ else _] => destruct b end; reflexivity. }
  split; [now apply Hidle|]. split; [apply Hidle|].
  intros Hp. unfold tfa_proc_packets. rewrite Hp.
  destruct (Z.land (TTFA.flags t) TFA_NEW_PACKETS =? 0); [split; reflexivity|].
  change (vote_loop (TTFA.data t) (Z.to_nat 0))
    with (mk_vote (repeat 0 (Z.to_nat TFA_PACKETS)) (0, 0) 0).
  cbn. split; reflexivity.
Qed.

(** *** Which capture is selected *)

Lemma vote_loop_labels_upto (buf : list (list Z)) (p : nat) :
  Forall (fun row => length row = TFA_BUF_BYTES) buf -> (p <= length buf)%nat ->
  vote_loop buf p = vote_loop (row_of_label <$> labels buf) p.
Proof.
  intros Hwf Hp. unfold vote_loop. apply foldl_ext_in.
  intros v m Hm%elem_of_seq. unfold vote_outer.
  destruct (negb (counts v !!! m =? 0)); [reflexivity|].
  apply foldl_ext_in. intros v' n Hn%elem_of_seq.
  unfold vote_inner. rewrite (memcmp_labels buf m n Hwf) by lia. reflexivity.
Qed.

Lemma labels_lookup_total (buf : list (list Z)) (i : nat) :
  (i < length buf)%nat -> labels buf !!! i = index_of (buf !!! i) buf.
Proof.
  intros Hi. destruct (lookup_lt_is_Some_2 buf i Hi) as [r Hr].
  rewrite (list_lookup_total_correct _ _ _ Hr). unfold labels.
  apply list_lookup_total_correct. now rewrite list_lookup_fmap, Hr.
Qed.

Lemma labels_canonical (buf : list (list Z)) :
  length buf = 7%nat -> canonical (labels buf) = true.
Proof.
  intros Hlen. unfold canonical. apply forallb_forall. intros i Hi%in_seq.
  apply Nat.eqb_eq.
  assert (Hi' : (i < length buf)%nat) by lia.
  destruct (lookup_lt_is_Some_2 buf i Hi') as [r Hr].
  assert (Hin : r ∈ buf) by (eapply list_elem_of_lookup_2, Hr).
  rewrite (labels_lookup_total buf i Hi'), (list_lookup_total_correct _ _ _ Hr).
  pose proof (index_of_lookup r buf Hin) as Hj.
  rewrite (labels_lookup_total buf _ (lookup_lt_Some _ _ _ Hj)).
  now rewrite (list_lookup_total_correct _ _ _ Hj).
Qed.

Lemma select_check_all :
  forallb (fun l0 => forallb (fun l1 => forallb (fun l2 => forallb (fun l3 =>
  forallb (fun l4 => forallb (fun l5 => forallb (fun l6 =>
    select_check [l0; l1; l2; l3; l4; l5; l6])
  (seq 0 7)) (seq 0 6)) (seq 0 5)) (seq 0 4)) (seq 0 3)) (seq 0 2)) (seq 0 1) = true.
Proof. vm_compute. reflexivity. Qed.

Lemma select_check_bounded (l0 l1 l2 l3 l4 l5 l6 : nat) :
  (l0 <= 0)%nat -> (l1 <= 1)%nat -> (l2 <= 2)%nat -> (l3 <= 3)%nat ->
  (l4 <= 4)%nat -> (l5 <= 5)%nat -> (l6 <= 6)%nat ->
  select_check [l0; l1; l2; l3; l4; l5; l6] = true.
Proof.
  intros H0 H1 H2 H3 H4 H5 H6.
  pose proof (forallb_seq _ _ select_check_all l0 ltac:(lia)) as A0.
  pose proof (forallb_seq _ _ A0 l1 ltac:(lia)) as A1.
  pose proof (forallb_seq _ _ A1 l2 ltac:(lia)) as A2.
  pose proof (forallb_seq _ _ A2 l3 ltac:(lia)) as A3.
  pose proof (forallb_seq _ _ A3 l4 ltac:(lia)) as A4.
  pose proof (forallb_seq _ _ A4 l5 ltac:(lia)) as A5.
  exact (forallb_seq _ _ A5 l6 ltac:(lia)).
Qed.

Lemma labels_select_check (buf : list (list Z)) :
  length buf = 7%nat -> select_check (labels buf) = true.
Proof.
  intros Hlen.
  destruct buf as [|r0 [|r1 [|r2 [|r3 [|r4 [|r5 [|r6 [|]]]]]]]]; try discriminate.
  rewrite labels_7.
  apply select_check_bounded; apply index_of_le; reflexivity.
Qed.

Lemma select_props_spec (p : nat) (v : vote) (l : list nat) :
  select_props p v l = true ->
  (0 <= maxid v /\ (Z.to_nat (maxid v) < p)%nat) /\
  (forall k, (k < 7)%nat -> (4 <= count_occ Nat.eq_dec (take p l) k)%nat ->
             l !!! Z.to_nat (maxid v) = k) /\
  ((forall k, (k < 7)%nat -> (count_occ Nat.eq_dec (take p l) k < 4)%nat) -> maxid v = 0).
Proof.
  unfold select_props. intros H.
  apply andb_prop in H as [H Hnone]. apply andb_prop in H as [H Hall].
  apply andb_prop in H as [Hlo Hhi].
  apply Z.leb_le in Hlo. apply Nat.ltb_lt in Hhi.
  split; [split; assumption|]. split.
  - intros k Hk Hc. pose proof (forallb_seq _ _ Hall k Hk) as Hsel. cbn beta in Hsel.
    apply Nat.leb_le in Hc. rewrite Hc in Hsel. now apply Nat.eqb_eq.
  - intros Hlt.
    assert (E : forallb (fun k => (count_occ Nat.eq_dec (take p l) k <? 4)%nat) (seq 0 7)
                = true).
    { apply forallb_forall. intros k Hk%in_seq. apply Nat.ltb_lt, Hlt. lia. }
    rewrite E in Hnone. now apply Z.eqb_eq.
Qed.

(** The search among the first [p] of 7 captures. *)
Lemma vote_loop_selects (B : list (list Z)) (p : nat) :
  length B = 7%nat -> Forall (fun row => length row = TFA_BUF_BYTES) B ->
  (1 <= p <= 7)%nat ->
  exists v, vote_loop B p = v /\
    (0 <= maxid v /\ (Z.to_nat (maxid v) < p)%nat) /\
    (forall g, (4 <= occurrences g (take p B))%nat -> B !!! Z.to_nat (maxid v) = g) /\
    ((forall g, (occurrences g (take p B) < 4)%nat) -> maxid v = 0).
Proof.
  intros Hlen Hwf Hp.
  pose proof (labels_select_check B Hlen) as Hc. unfold select_check in Hc.
  rewrite (labels_canonical B Hlen) in Hc. cbn [implb] in Hc.
  rewrite forallb_forall in Hc. specialize (Hc p ltac:(apply in_seq; lia)).
  rewrite <- (vote_loop_labels_upto B p Hwf ltac:(lia)) in Hc.
  exists (vote_loop B p). split; [reflexivity|].
  generalize dependent (vote_loop B p). intros v Hc.
  apply select_props_spec in Hc as (Hid & Hsel & Hnone).
  assert (Htake : forall a, a ∈ take p B -> a ∈ B).
  { intros a Ha. apply list_elem_of_lookup in Ha as [i Hi].
    rewrite lookup_take_Some in Hi. destruct Hi as [Hi _].
    eapply list_elem_of_lookup_2, Hi. }
  assert (Hcount : forall g, g ∈ B ->
            count_occ Nat.eq_dec (take p (labels B)) (index_of g B)
            = occurrences g (take p B)).
  { intros g Hg. unfold labels. rewrite <- fmap_take. now apply count_labels. }
  split; [exact Hid|]. split.
  - intros g Hocc.
    assert (HgB : g ∈ B).
    { apply Htake, list_elem_of_In, (count_occ_In (List.list_eq_dec Z.eq_dec)).
      unfold occurrences in Hocc. lia. }
    assert (Hk : (index_of g B < 7)%nat).
    { rewrite <- Hlen. eapply lookup_lt_Some, index_of_lookup, HgB. }
    specialize (Hsel (index_of g B) Hk). rewrite Hcount in Hsel by exact HgB.
    specialize (Hsel Hocc).
    assert (Hi : (Z.to_nat (maxid v) < length B)%nat) by lia.
    rewrite (labels_lookup_total B _ Hi) in Hsel.
    apply (index_of_inj _ g B); [|exact HgB|exact Hsel].
    destruct (lookup_lt_is_Some_2 B _ Hi) as [r Er].
    rewrite (list_lookup_total_correct _ _ _ Er). eapply list_elem_of_lookup_2, Er.
  - intros Hlt. apply Hnone. intros k Hk.
    assert (Hk' : (k < length B)%nat) by lia.
    destruct (lookup_lt_is_Some_2 B k Hk') as [r Er].
    destruct (decide (index_of r B = k)) as [E|E].
    + rewrite <- E. rewrite Hcount by (eapply list_elem_of_lookup_2, Er). apply Hlt.
    + (* no capture is labelled k *)
      destruct (count_occ Nat.eq_dec (take p (labels B)) k) eqn:Ec; [lia|].
      exfalso.
      assert (Hin : In k (take p (labels B)))
        by (apply (count_occ_In Nat.eq_dec); lia).
      apply list_elem_of_In, list_elem_of_lookup in Hin as [i Hi].
      rewrite lookup_take_Some in Hi. destruct Hi as [Hi _].
      unfold labels in Hi. rewrite list_lookup_fmap in Hi.
      destruct (B !! i) as [ri|] eqn:Eri; [|discriminate].
      cbn in Hi. injection Hi as Hi.
      assert (Hri : ri ∈ B) by (eapply list_elem_of_lookup_2, Eri).
      pose proof (index_of_lookup ri B Hri) as Hl. rewrite Hi, Er in Hl.
      injection Hl as ->. apply E. exact Hi.
Qed.

(** With 1 to 7 captures in a pending burst, [tfa_proc_packets] always
    returns 1 and sets [TFA_NEW_PACKET]; it stores the capture that occurs at
    least four times among those counted, when there is one, and the first
    capture in every other case (also a capture that is in the minority). *)
Theorem reconciler_selection (t : TTFA.t) :
  Z.land (TTFA.flags t) TFA_NEW_PACKETS <> 0 ->
  1 <= TTFA.packets t <= 7 ->
  length (TTFA.data t) = 7%nat ->
  Forall (fun row => length row = TFA_BUF_BYTES) (TTFA.data t) ->
  let captures := take (Z.to_nat (TTFA.packets t)) (TTFA.data t) in
  let t' := snd (tfa_proc_packets t) in
  fst (tfa_proc_packets t) = 1 /\
  TTFA.flags t' = Z.lor (uint8 (Z.land (TTFA.flags t) (Z.lnot TFA_NEW_PACKETS))) TFA_NEW_PACKET /\
  (forall g, (4 <= occurrences g captures)%nat -> TTFA.packet t' = g) /\
  ((forall g, (occurrences g captures < 4)%nat) -> TTFA.packet t' = TTFA.data t !!! 0%nat).
Proof.
  intros Hf Hp Hlen Hwf captures t'. subst captures t'.
  destruct (vote_loop_selects (TTFA.data t) (Z.to_nat (TTFA.packets t)) Hlen Hwf ltac:(lia))
    as (v & Ev & Hid & Hsel & Hnone).
  assert (Hne : (fst (maxv v) =? snd (maxv v)) = false).
  { apply Z.eqb_neq. rewrite <- Ev.
    pose proof (vote_loop_never_ties (TTFA.data t) (Z.to_nat (TTFA.packets t)) ltac:(lia)).
    lia. }
  rewrite (tfa_proc_packets_selected t v Hf Ev Hne). cbn [fst snd TTFA.flags TTFA.packet].
  assert (Hrow : forall i, (i < 7)%nat ->
            take TFA_BUF_BYTES (TTFA.data t !!! i) = TTFA.data t !!! i).
  { intros i Hi. apply firstn_all2.
    rewrite (Forall_lookup_total_1 _ _ i Hwf) by lia. reflexivity. }
  split; [reflexivity|]. split; [reflexivity|]. split.
  - intros g Hg. rewrite Hrow by lia. now apply Hsel.
  - intros Hlt. rewrite (Hnone Hlt). apply Hrow. lia.
Qed.

Lemma reconciler_selection_witness :
  fst (tfa_proc_packets minority_first) = 1 /\
  TTFA.flags (snd (tfa_proc_packets minority_first))
  = Z.lor (uint8 (Z.land (TTFA.flags minority_first) (Z.lnot TFA_NEW_PACKETS))) TFA_NEW_PACKET.
Proof.
  destruct (reconciler_selection minority_first) as (H1 & H2 & _).
  - vm_compute. discriminate.
  - vm_compute. split; discriminate.
  - reflexivity.
  - repeat constructor.
  - split; [exact H1 | exact H2].
Defined.

(** * Further properties of the parser *)

Lemma flags_check_all : forallb flags_check (seqZ 0 256) = true.
Proof. vm_compute. reflexivity. Qed.

Lemma raw12_check_all : forallb raw12_check (seqZ 0 4096) = true.
Proof. vm_compute. reflexivity. Qed.

Lemma lo_check_all : forallb (fun lo => forallb (lo_check lo) (seqZ 0 256)) (seqZ 0 16) = true.
Proof. vm_compute. reflexivity. Qed.

Lemma b34_back_check_all :
  forallb (fun b4 => forallb (b34_back_check b4) (seqZ 0 256)) (seqZ 0 16) = true.
Proof. vm_compute. reflexivity. Qed.

(** The temperature of a packet, from the 12 bits the read keeps. *)
Lemma parse_temp10_raw (b0 b1 b2 b3 b4 : Z) :
  0 <= b1 < 256 ->
  let raw := Z.lor b1 (Z.shiftl (Z.land b2 0x0F) 8) in
  0 <= raw < 4096 /\ Z.land raw 0xFF = b1 /\ Z.shiftr raw 8 = Z.land b2 0x0F /\
  parse_temp10 [b0; b1; b2; b3; b4] = parse_temp10 [0; Z.land raw 0xFF; Z.shiftr raw 8; 0; 0].
Proof.
  intros H1 raw.
  assert (Hlo : 0 <= Z.land b2 15 < 16) by (apply (land_ones_range b2 4); lia).
  pose proof (forallb_seqZ _ _ lo_check_all _ Hlo) as A.
  pose proof (forallb_seqZ _ _ A b1 H1) as B. unfold lo_check in B. cbv zeta in B.
  apply andb_prop in B as [B B3]. apply andb_prop in B as [B B2].
  apply andb_prop in B as [B0 B1].
  apply Z.leb_le in B0. apply Z.ltb_lt in B1. apply Z.eqb_eq in B2, B3.
  fold raw in B0, B1, B2, B3.
  split; [lia|]. split; [exact B2|]. split; [exact B3|].
  rewrite B2, B3. apply parse_temp10_low_nibble.
Qed.

Lemma parse_temp10_range (packet : list Z) : wf_row packet ->
  -2048 <= parse_temp10 packet < 2048.
Proof.
  intros [Hl Hr].
  destruct packet as [|b0 [|b1 [|b2 [|b3 [|b4 [|]]]]]]; try discriminate.
  assert (H1 : 0 <= b1 < 256).
  { apply (Forall_lookup_1 _ _ 1%nat b1 Hr). reflexivity. }
  destruct (parse_temp10_raw b0 b1 b2 b3 b4 H1) as (Hraw & _ & _ & ->).
  pose proof (forallb_seqZ _ _ raw12_check_all _ Hraw) as C.
  unfold raw12_check in C. cbv zeta in C.
  apply andb_prop in C as [C C3]. apply andb_prop in C as [_ C2].
  apply Z.leb_le in C2. apply Z.ltb_lt in C3. lia.
Qed.

(** For every packet of five bytes, [tfa_parse] delivers fields within
    their ranges: identity 0..15, channel 1..4, type 0..255, humidity the
    first byte, temperature the binary32 product of 0.1 and a number of
    tenths between -2048 and 2047 (less than 1/100000 degree from the tenth
    part of that number), and flags made of [TFA_NEW_PACKET], always set, and at most the battery and
    sync bits; the return value is 1 when the type is 0x90 and 0 otherwise. *)
Theorem tfa_parse_field_ranges (t : TTFA.t) :
  wf_row (TTFA.packet t) ->
  let ok := fst (tfa_parse t) in
  let sensor := snd (tfa_parse t) in
  (ok = 0 \/ ok = 1) /\
  (ok = 1 <-> TSensor.type sensor = TFA_TYPE) /\
  0 <= TSensor.id sensor < 16 /\
  1 <= TSensor.channel sensor <= 4 /\
  0 <= TSensor.type sensor < 256 /\
  TSensor.rh sensor = TTFA.packet t !!! 0%nat /\
  0 <= TSensor.rh sensor < 256 /\
  (exists t10,
     -2048 <= t10 < 2048 /\
     TSensor.temp sensor = f32_mul (f32_const 1 10) (f32_of_Z t10) /\
     (Qabs (f32_value (TSensor.temp sensor) - (t10 # 10)) <= 1 # 100000)%Q) /\
  Z.land (TSensor.flags sensor) TFA_NEW_PACKET <> 0 /\
  Z.land (TSensor.flags sensor)
         (Z.lnot (Z.lor TFA_NEW_PACKET (Z.lor TFA_LOW_BATT TFA_SYNC))) = 0.
Proof.
  intros Hw ok sensor. subst ok sensor.
  pose proof (tfa_parse_channel_range t) as Hch.
  pose proof (parse_temp10_range _ Hw) as Ht.
  pose proof (wf_row_byte _ 0 Hw ltac:(lia)) as H0.
  pose proof (wf_row_byte _ 2 Hw ltac:(lia)) as H2.
  pose proof (forallb_seqZ _ _ flags_check_all _ H2) as Hf.
  unfold flags_check in Hf. cbv zeta in Hf.
  do 4 (apply andb_prop in Hf as [Hf _]). apply andb_prop in Hf as [Hf1 Hf2].
  apply negb_true_iff, Z.eqb_neq in Hf1. apply Z.eqb_eq in Hf2.
  unfold tfa_parse in *. cbn [fst snd TSensor.id TSensor.channel TSensor.type TSensor.rh
                              TSensor.temp TSensor.flags] in *.
  split. { destruct (_ =? TFA_TYPE); auto. }
  split. { destruct (Z.eqb_spec (uint8 (Z.shiftr (read_u16 (TTFA.packet t) 3) 4)) TFA_TYPE);
           split; intros; congruence || lia. }
  split. { change 15 with (Z.ones 4). apply (land_ones_range _ 4). lia. }
  split; [exact Hch|].
  split. { apply Z.mod_pos_bound. lia. }
  split; [reflexivity|]. split; [exact H0|].
  split.
  { exists (parse_temp10 (TTFA.packet t)). split; [exact Ht|]. split; [reflexivity|].
    pose proof (temp_scale_check_true _ Ht) as Hs.
    unfold temp_scale_check in Hs. apply andb_prop in Hs as [Hs _].
    apply Qle_bool_iff in Hs. exact Hs. }
  split; [exact Hf1 | exact Hf2].
Qed.

Lemma tfa_parse_field_ranges_witness :
  1 <= TSensor.channel (snd (tfa_parse (TTFA.mk [] 0 packet_example 0))) <= 4.
Proof.
  destruct (tfa_parse_field_ranges (TTFA.mk [] 0 packet_example 0)) as (_ & _ & _ & H & _).
  - split; [reflexivity|]. repeat (constructor; [lia|]). constructor.
  - exact H.
Defined.

Lemma tenths_inj (x y : Z) :
  -2048 <= x < 2048 -> -2048 <= y < 2048 -> tenths x = tenths y -> x = y.
Proof.
  intros Hx Hy H.
  pose proof (temp_scale_check_true _ Hx) as Cx. pose proof (temp_scale_check_true _ Hy) as Cy.
  unfold temp_scale_check in Cx, Cy.
  apply andb_prop in Cx as [_ Cx]. apply andb_prop in Cy as [_ Cy].
  apply Z.eqb_eq in Cx, Cy. unfold tenths in H. rewrite H in Cx. congruence.
Qed.

(** Parsing loses nothing: a packet of five bytes whose four padding bits
    are zero is the encoding of the reading its parsed fields stand for; so
    two such packets with the same parsed fields are the same packet. *)
Theorem tfa_parse_loses_nothing (packet : list Z) :
  wf_row packet -> packet !!! 4%nat < 16 ->
  valid_reading (reading_of_packet packet) /\
  encode_bytes (reading_of_packet packet) = packet /\
  (forall d n f, snd (tfa_parse (TTFA.mk d n packet f))
                 = sensor_of_reading (reading_of_packet packet)) /\
  forall packet',
    wf_row packet' -> packet' !!! 4%nat < 16 ->
    snd (tfa_parse (TTFA.mk [] 0 packet' 0)) = snd (tfa_parse (TTFA.mk [] 0 packet 0)) ->
    packet' = packet.
Proof.
  assert (Hmain : forall p, wf_row p -> p !!! 4%nat < 16 ->
            valid_reading (reading_of_packet p) /\ encode_bytes (reading_of_packet p) = p).
  { intros p Hw H4.
    pose proof (parse_temp10_range _ Hw) as Ht.
    pose proof (tfa_parse_channel_range (TTFA.mk [] 0 p 0)) as Hch.
    pose proof (wf_row_byte _ 0 Hw ltac:(lia)) as B0.
    pose proof (wf_row_byte _ 1 Hw ltac:(lia)) as B1.
    pose proof (wf_row_byte _ 2 Hw ltac:(lia)) as B2.
    pose proof (wf_row_byte _ 3 Hw ltac:(lia)) as B3.
    pose proof (wf_row_byte _ 4 Hw ltac:(lia)) as B4.
    destruct Hw as [Hl Hr].
    destruct p as [|b0 [|b1 [|b2 [|b3 [|b4 [|]]]]]]; try discriminate.
    cbn in B0, B1, B2, B3, B4, H4.
    pose proof (forallb_seqZ _ _ flags_check_all _ B2) as Hf.
    unfold flags_check in Hf. cbv zeta in Hf.
    apply andb_prop in Hf as [Hf F6]. apply andb_prop in Hf as [_ F5].
    apply Z.eqb_eq in F5, F6.
    pose proof (forallb_seqZ _ _ b34_back_check_all b4 ltac:(lia)) as A.
    pose proof (forallb_seqZ _ _ A b3 B3) as Hb. unfold b34_back_check in Hb.
    cbv zeta in Hb. apply andb_prop in Hb as [G1 G2]. apply Z.eqb_eq in G1, G2.
    destruct (parse_temp10_raw b0 b1 b2 b3 b4 B1) as (Hraw & R1 & R2 & Et).
    pose proof (forallb_seqZ _ _ raw12_check_all _ Hraw) as C.
    unfold raw12_check in C. cbv zeta in C.
    apply andb_prop in C as [C _]. apply andb_prop in C as [C _].
    apply andb_prop in C as [C1 C2]. apply Z.eqb_eq in C1, C2.
    rewrite <- Et in C1, C2. rewrite R1 in C1. rewrite R2 in C2.
    split.
    - unfold valid_reading, reading_of_packet.
      cbn [r_rh r_temp10 r_channel r_id r_type].
      split; [exact B0|]. split; [exact Ht|]. split; [exact Hch|].
      split.
      + cbn. change 15 with (Z.ones 4). apply (land_ones_range _ 4). lia.
      + apply Z.mod_pos_bound. lia.
    - set (p := [b0; b1; b2; b3; b4]) in *.
      set (sn := snd (tfa_parse (TTFA.mk [] 0 p 0))).
      assert (X0 : TSensor.rh sn = b0) by reflexivity.
      assert (X1 : encode_b1 (parse_temp10 p) = b1) by exact C1.
      assert (X3 : encode_b3 (TSensor.id sn) (TSensor.type sn) = b3) by exact G1.
      assert (X4 : encode_b4 (TSensor.type sn) = b4) by exact G2.
      assert (X2 : encode_b2 (parse_temp10 p) (TSensor.channel sn)
                     (negb (SENSOR_IS_SYNC (TSensor.flags sn) =? 0))
                     (negb (SENSOR_IS_LOW_BATT (TSensor.flags sn) =? 0)) = b2).
      { unfold encode_b2. rewrite C2.
        unfold encode_b2 in F5. rewrite Z.shiftr_0_l, Z.land_0_l, Z.lor_0_l in F5.
        change (TSensor.channel sn) with (uint8 (1 + Z.land (Z.shiftr b2 4) 3)).
        change (TSensor.flags sn)
          with (Z.lor TFA_NEW_PACKET (Z.land b2 (Z.lor TFA_LOW_BATT TFA_SYNC))).
        rewrite F5. exact F6. }
      unfold encode_bytes, reading_of_packet. fold sn.
      cbn [r_rh r_temp10 r_channel r_id r_type r_sync r_batt].
      rewrite X0, X1, X2, X3, X4. reflexivity. }
  intros Hw H4. destruct (Hmain packet Hw H4) as [Hv He].
  split; [exact Hv|]. split; [exact He|]. split.
  - intros d n f. rewrite <- He at 1. rewrite tfa_parse_encode_bytes by exact Hv.
    reflexivity.
  - intros p' Hw' H4' Hs. destruct (Hmain p' Hw' H4') as [_ He'].
    rewrite <- He, <- He'. f_equal. unfold reading_of_packet. rewrite Hs.
    f_equal. apply tenths_inj; [now apply parse_temp10_range | now apply parse_temp10_range |].
    change (tenths (parse_temp10 p')) with (TSensor.temp (snd (tfa_parse (TTFA.mk [] 0 p' 0)))).
    rewrite Hs. reflexivity.
Qed.

Lemma tfa_parse_loses_nothing_witness :
  encode_bytes (reading_of_packet packet_example) = packet_example.
Proof.
  destruct (tfa_parse_loses_nothing packet_example) as (_ & H & _).
  - split; [reflexivity|]. repeat (constructor; [lia|]). constructor.
  - vm_compute. reflexivity.
  - exact H.
Defined.

(** * Whole bursts, from the line to the channel slot *)

Lemma captured_is_encoding (r : reading) (row : list Z) :
  valid_reading r -> captured (encode_bits r) row -> row = encode_bytes r.
Proof.
  intros Hr (Hwr & Hbits & Hpad).
  apply row_ext; [exact Hwr | now apply encode_bytes_wf |].
  intros q Hq. destruct (Z.lt_ge_cases q 36) as [Hlt|Hge].
  - replace q with (35 - Z.of_nat (Z.to_nat (35 - q))) by lia.
    apply Hbits. apply encode_bits_lookup. lia.
  - rewrite Hpad by lia. symmetry. apply encode_bytes_pad; [exact Hr | lia].
Qed.

Lemma same_length_of_lookup {A} (l' l : list A) (k : nat) :
  (forall m, m <> k -> l' !! m = l !! m) ->
  (k < length l)%nat -> (k < length l')%nat -> length l' = length l.
Proof.
  intros H Hk Hk'.
  destruct (Nat.lt_trichotomy (length l') (length l)) as [Hlt|[E|Hgt]]; [|exact E|].
  - exfalso. assert (Hn : l' !! (length l - 1)%nat = None) by (apply lookup_ge_None; lia).
    destruct (decide ((length l - 1)%nat = k)) as [Ek|Ek]; [lia|].
    rewrite H in Hn by exact Ek. apply lookup_ge_None in Hn. lia.
  - exfalso. assert (Hs : is_Some (l' !! (length l' - 1)%nat)) by (apply lookup_lt_is_Some_2; lia).
    destruct (decide ((length l' - 1)%nat = k)) as [Ek|Ek]; [lia|].
    rewrite H in Hs by exact Ek. apply lookup_lt_is_Some_1 in Hs. lia.
Qed.

Lemma feed_rep (F : Z) (r : rep) (bits : list bool) (k : nat) (s : isr_state) :
  rep_carries F r bits ->
  wf_buf (tfa_buf s) -> tfa_buf_packet s = Z.of_nat k -> (k < 7)%nat ->
  let s' := feed F (measured <$> rep_pulses r) s in
  tfa_buf_packet s' = Z.of_nat (S k) /\ p_tfa s' = p_tfa s /\ wf_buf (tfa_buf s') /\
  (forall m, m <> k -> tfa_buf s' !! m = tfa_buf s !! m) /\
  exists row, tfa_buf s' !! k = Some row /\ captured bits row.
Proof.
  destruct r as [[start data] stop].
  intros (Hw0 & Hwd & Hws & Hc0 & Hcd & Hn & Hcs) Hwf Hk Hk7. cbv zeta.
  unfold rep_pulses. rewrite fmap_cons, fmap_app. cbn [fmap list_fmap].
  assert (Hcd' : Forall2 (fun d b => classify F d = DataBit b) (measured <$> data) bits)
    by (apply Forall2_fmap_l; exact Hcd).
  destruct (feed_repetition F (measured start) (measured stop) (measured <$> data) bits k s
              Hwf Hk Hk7 Hc0 Hcd' Hn Hcs)
    as (Hpk & _ & Hp & Hoth & row & Hrow & Hwr & Hbits & Hpad).
  split; [rewrite Hpk; lia|]. split; [exact Hp|]. split.
  - destruct Hwf as [Hl Hr]. split.
    + rewrite <- Hl. apply (same_length_of_lookup _ _ k); [exact Hoth | | ].
      * rewrite Hl. change (Z.to_nat TFA_PACKETS) with 7%nat. lia.
      * apply lookup_lt_Some in Hrow. exact Hrow.
    + apply Forall_lookup_2. intros i x Hi.
      destruct (decide (i = k)) as [->|Hne].
      * rewrite Hrow in Hi. injection Hi as <-. exact Hwr.
      * rewrite Hoth in Hi by exact Hne. exact (Forall_lookup_1 _ _ _ _ Hr Hi).
  - split; [exact Hoth|]. exists row. split; [exact Hrow|]. split; [exact Hwr|]. auto.
Qed.

Lemma pulses_of_reps_wf (F : Z) (reps : list rep) (bitss : list (list bool)) :
  Forall2 (rep_carries F) reps bitss -> Forall wf_pulse (concat (rep_pulses <$> reps)).
Proof.
  induction 1 as [|[[start data] stop] bits reps bitss (Hw0 & Hwd & Hws & _) _ IH].
  - constructor.
  - rewrite fmap_cons. cbn [concat rep_pulses]. apply Forall_app. split; [|exact IH].
    apply Forall_cons. split; [exact Hw0|]. apply Forall_app. split; [exact Hwd|].
    apply Forall_cons. split; [exact Hws | apply Forall_nil; exact I].
Qed.

(** Repetitions received one after the other fill the slots in order. *)
Lemma feed_reps (F : Z) (reps : list rep) (bitss : list (list bool)) :
  Forall2 (rep_carries F) reps bitss ->
  forall (k : nat) (s : isr_state),
    wf_buf (tfa_buf s) -> tfa_buf_packet s = Z.of_nat k -> (k + length reps <= 7)%nat ->
    let s' := feed F (measured <$> concat (rep_pulses <$> reps)) s in
    tfa_buf_packet s' = Z.of_nat (k + length reps) /\ p_tfa s' = p_tfa s /\
    wf_buf (tfa_buf s') /\
    (forall m, (m < k)%nat -> tfa_buf s' !! m = tfa_buf s !! m) /\
    (forall i bits, bitss !! i = Some bits ->
       exists row, tfa_buf s' !! (k + i)%nat = Some row /\ captured bits row).
Proof.
  induction 1 as [|r bits reps bitss Hr _ IH]; intros k s Hwf Hk Hlen; cbv zeta.
  - cbn. rewrite Nat.add_0_r. split; [exact Hk|]. split; [reflexivity|].
    split; [exact Hwf|]. split; [reflexivity|]. intros i bits Hi. discriminate.
  - rewrite fmap_cons. cbn [concat]. rewrite fmap_app, feed_app. cbn [length] in Hlen.
    destruct (feed_rep F r bits k s Hr Hwf Hk ltac:(lia))
      as (Hpk & Hp & Hwf' & Hoth & row & Hrow & Hcap). cbv zeta in *.
    set (s1 := feed F (measured <$> rep_pulses r) s) in *.
    destruct (IH (S k) s1 Hwf' Hpk ltac:(lia)) as (Ipk & Ip & Iwf & Ioth & Irows).
    cbv zeta in *.
    split; [rewrite Ipk; cbn [length]; f_equal; lia|].
    split; [now rewrite Ip|]. split; [exact Iwf|]. split.
    + intros m Hm. rewrite Ioth by lia. apply Hoth. lia.
    + intros [|i] bits' Hi.
      * cbn in Hi. injection Hi as <-. rewrite Nat.add_0_r.
        exists row. split; [|exact Hcap]. rewrite Ioth by lia. exact Hrow.
      * cbn in Hi. destruct (Irows i bits' Hi) as (row' & Hrow' & Hcap').
        exists row'. split; [|exact Hcap'].
        replace (k + S i)%nat with (S k + i)%nat by lia. exact Hrow'.
Qed.

Lemma feed_burst (F : Z) (reps : list rep) (bitss : list (list bool)) (dgap : Z)
    (s : isr_state) :
  Forall2 (rep_carries F) reps bitss -> (3 <= length reps <= 7)%nat ->
  classify F dgap = Gap ->
  wf_buf (tfa_buf s) -> tfa_buf_packet s = 0 ->
  let s' := feed F ((measured <$> concat (rep_pulses <$> reps)) ++ [dgap]) s in
  tfa_buf_packet s' = 0 /\
  TTFA.packets (p_tfa s') = Z.of_nat (length reps) /\
  TTFA.flags (p_tfa s') = Z.lor (TTFA.flags (p_tfa s)) TFA_NEW_PACKETS /\
  TTFA.packet (p_tfa s') = TTFA.packet (p_tfa s) /\
  wf_buf (TTFA.data (p_tfa s')) /\
  (forall i bits, bitss !! i = Some bits ->
     exists row, TTFA.data (p_tfa s') !! i = Some row /\ captured bits row).
Proof.
  intros Hreps Hn Hgap Hwf Hk. cbv zeta. rewrite feed_app.
  destruct (feed_reps F reps bitss Hreps 0 s Hwf Hk ltac:(lia))
    as (Hpk & Hp & Hwf' & _ & Hrows). cbv zeta in *.
  set (s1 := feed F (measured <$> concat (rep_pulses <$> reps)) s) in *.
  cbn [feed foldl]. rewrite isr_decode_framer.
  change (tfa_timer (set_tfa_timer dgap s1)) with dgap. rewrite Hgap.
  unfold framer, on_gap. isr_simpl. rewrite Hpk. cbn [Nat.add].
  change TFA_PACKETS with 7.
  destruct (Z.leb_spec 3 (Z.of_nat (length reps))); [|lia].
  destruct (Z.leb_spec (Z.of_nat (length reps)) 7); [|lia].
  cbn [andb]. isr_simpl. unfold publish. cbn [TTFA.data TTFA.packets TTFA.packet TTFA.flags].
  rewrite Hp. repeat (split; [reflexivity|]). split; [exact Hwf'|]. exact Hrows.
Qed.

Lemma rep_of_bits_carries (bits : list bool) :
  length bits = 36%nat -> rep_carries F_CPU_8MHz (rep_of_bits bits) bits.
Proof.
  intros Hn. unfold rep_of_bits, rep_carries.
  split; [split; cbn; lia|]. split.
  { clear Hn. induction bits as [|b bits IH]; [constructor|].
    cbn [map]. constructor; [destruct b; split; cbn; lia | exact IH]. }
  split; [split; cbn; lia|]. split; [vm_compute; reflexivity|]. split.
  { clear Hn. induction bits as [|b bits IH]; [constructor|].
    cbn [map]. constructor; [destruct b; vm_compute; reflexivity | exact IH]. }
  split; [exact Hn | vm_compute; reflexivity].
Qed.

(** The state [seven_captured], computed. *)
Lemma seven_captured_value :
  seven_captured
  = mk_isr 16954 (Z.shiftl 1 ARX) 20 (repeat (encode_bytes reading_example) 7) (-1) 7
           (TTFA.mk (repeat (repeat 0 TFA_BUF_BYTES) (Z.to_nat TFA_PACKETS)) 0
                    (repeat 0 TFA_BUF_BYTES) 0) 0.
Proof. vm_compute. reflexivity. Qed.

(** C4, as stated, fails once the buffer is full: after seven whole
    repetitions of one frame the index is 7; an eighth repetition, a start
    pulse, the 36 data pulses of another frame and a stop pulse, leaves the
    buffer as it was.  The bit received as number 34 is 1, and bit 1 of byte 0
    is 0 in every capture; no capture is the encoding of the frame sent. *)
Theorem eighth_repetition_is_not_stored :
  let bits := encode_bits reading_cold_example in
  let s' := run F_CPU_8MHz (pulse_train (repetition bits)) seven_captured in
  tfa_buf_packet seven_captured = TFA_PACKETS /\
  wf_buf (tfa_buf seven_captured) /\
  tfa_old seven_captured <> 0 /\
  rep_carries F_CPU_8MHz (rep_of_bits bits) bits /\
  rep_pulses (rep_of_bits bits) = repetition bits /\
  bits !! 34%nat = Some true /\
  tfa_buf s' = tfa_buf seven_captured /\
  tfa_buf s' = repeat (encode_bytes reading_example) 7 /\
  (forall (k : nat) (capture : list Z), tfa_buf s' !! k = Some capture ->
     Z.testbit (capture !!! Z.to_nat ((35 - 34) / 8)) ((35 - 34) mod 8) = false /\
     capture <> encode_bytes reading_cold_example).
Proof.
  cbv zeta.
  assert (E : tfa_buf (run F_CPU_8MHz
                           (pulse_train (repetition (encode_bits reading_cold_example)))
                           seven_captured)
              = repeat (encode_bytes reading_example) 7).
  { rewrite seven_captured_value. vm_compute. reflexivity. }
  rewrite E, seven_captured_value.
  split; [reflexivity|].
  split.
  { split; [reflexivity|]. cbn [tfa_buf repeat].
    repeat (constructor; [split; [reflexivity | vm_compute; repeat constructor; discriminate]|]).
    constructor. }
  split; [vm_compute; discriminate|].
  split; [apply rep_of_bits_carries; vm_compute; reflexivity|].
  split; [reflexivity|].
  split; [vm_compute; reflexivity|].
  split; [reflexivity|]. split; [reflexivity|].
  intros k capture H. cbn [repeat] in H.
  do 7 (destruct k as [|k]; [injection H as <-; split; [vm_compute; reflexivity | vm_compute; discriminate]|]).
  discriminate.
Qed.

(** A burst of three to seven whole repetitions followed by a gap, sample
    by sample: the handler publishes as many captures as repetitions were
    sent, raises the new-burst flag and keeps the reconciled packet; capture
    [i] holds the 36 bits of repetition [i], first bit at position 35, so a
    repetition that is the frame of a valid reading is captured as the five
    bytes of that reading; the framer is ready for the next burst. *)
Theorem burst_is_published (F : Z) (reps : list rep) (bitss : list (list bool))
    (gap : nat * nat) (s : isr_state) :
  Forall2 (rep_carries F) reps bitss -> (3 <= length reps <= 7)%nat ->
  wf_pulse gap -> classify F (measured gap) = Gap ->
  wf_buf (tfa_buf s) -> tfa_buf_packet s = 0 -> tfa_old s <> 0 \/ tfa_timer s = 0 ->
  let s' := run F (pulse_train (concat (rep_pulses <$> reps) ++ [gap])) s in
  tfa_buf_packet s' = 0 /\
  TTFA.packets (p_tfa s') = Z.of_nat (length reps) /\
  TTFA.flags (p_tfa s') = Z.lor (TTFA.flags (p_tfa s)) TFA_NEW_PACKETS /\
  TTFA.packet (p_tfa s') = TTFA.packet (p_tfa s) /\
  length (TTFA.data (p_tfa s')) = 7%nat /\
  (forall i bits, bitss !! i = Some bits ->
     exists row, TTFA.data (p_tfa s') !! i = Some row /\ captured bits row) /\
  (forall i r, valid_reading r -> bitss !! i = Some (encode_bits r) ->
     TTFA.data (p_tfa s') !! i = Some (encode_bytes r)).
Proof.
  intros Hreps Hn Hwg Hgap Hwf Hk Hs. cbv zeta.
  assert (Hps : Forall wf_pulse (concat (rep_pulses <$> reps) ++ [gap])).
  { apply Forall_app. split; [exact (pulses_of_reps_wf F reps bitss Hreps)|].
    apply Forall_cons. split; [exact Hwg | apply Forall_nil; exact I]. }
  destruct (run_pulse_train F _ s Hps Hs) as (_ & _ & Epk & Ep).
  rewrite Epk, Ep, fmap_app. cbn [fmap list_fmap].
  destruct (feed_burst F reps bitss (measured gap) s Hreps Hn Hgap Hwf Hk)
    as (Hpk & Hcnt & Hfl & Hpkt & Hwf' & Hrows). cbv zeta in *.
  split; [exact Hpk|]. split; [exact Hcnt|]. split; [exact Hfl|]. split; [exact Hpkt|].
  split; [exact (proj1 Hwf')|]. split; [exact Hrows|].
  intros i r Hr Hi. destruct (Hrows i _ Hi) as (row & Hrow & Hcap).
  rewrite Hrow. f_equal. apply captured_is_encoding; assumption.
Qed.

Lemma burst_is_published_witness :
  let s' := run F_CPU_8MHz
                (pulse_train (concat (rep_pulses <$> (rep_of_bits <$> burst_bits_example))
                              ++ [gap_pulse]))
                (isr_init tfa_zero 0) in
  TTFA.packets (p_tfa s') = 5 /\
  TTFA.data (p_tfa s') !! 1%nat = Some (encode_bytes reading_cold_example).
Proof.
  destruct (burst_is_published F_CPU_8MHz (rep_of_bits <$> burst_bits_example)
              burst_bits_example gap_pulse (isr_init tfa_zero 0))
    as (_ & Hn & _ & _ & _ & _ & Hr).
  - unfold burst_bits_example. cbn [fmap list_fmap].
    repeat (constructor; [apply rep_of_bits_carries; reflexivity|]). constructor.
  - cbn. lia.
  - split; cbn; lia.
  - vm_compute. reflexivity.
  - split; [reflexivity|].
    repeat (constructor; [split; [reflexivity | repeat (constructor; [lia|]); constructor]|]).
    constructor.
  - reflexivity.
  - right. reflexivity.
  - cbv zeta. split; [exact Hn|].
    apply (Hr 1%nat reading_cold_example); [vm_compute; intuition discriminate | reflexivity].
Defined.

(** * The main loop: packet processing *)

Lemma land_1_testbit_inv (x : Z) : Z.land x TFA_NEW_PACKETS = 0 -> Z.testbit x 0 = false.
Proof.
  intros H. pose proof (Z.land_spec x TFA_NEW_PACKETS 0) as E.
  rewrite H, Z.bits_0 in E. change (Z.testbit TFA_NEW_PACKETS 0) with true in E.
  rewrite andb_true_r in E. now symmetry.
Qed.

Lemma tfa_proc_packets_idle (u : TTFA.t) :
  Z.land (TTFA.flags u) TFA_NEW_PACKETS = 0 -> tfa_proc_packets u = (0, u).
Proof. intros Hu. unfold tfa_proc_packets. now rewrite Hu. Qed.

Lemma tfa_proc_packets_clears_flag (t : TTFA.t) :
  Z.land (TTFA.flags (snd (tfa_proc_packets t))) TFA_NEW_PACKETS = 0.
Proof.
  unfold tfa_proc_packets.
  destruct (Z.eqb_spec (Z.land (TTFA.flags t) TFA_NEW_PACKETS) 0) as [E|E]; [exact E|].
  match goal with |- context [if ?b then _ else _] => destruct b end;
    cbn [snd TTFA.flags]; apply land_1_testbit.
  - apply cleared_flag_bit0.
  - rewrite Z.lor_spec, cleared_flag_bit0. reflexivity.
Qed.

(** What the accept path leaves in each field, with three slots. *)
Lemma accept_fields (sensor : TSensor.t) (st : main_state) :
  length (sensors st) = 3%nat ->
  exists st',
    accept sensor st = Some st' /\
    TSystem.packets (syst st') = uint16 (TSystem.packets (syst st) + 1) /\
    TSystem.flags (syst st') = TSystem.flags (syst st) /\
    TTFA.data (tfa st') = TTFA.data (tfa st) /\
    TTFA.packets (tfa st') = TTFA.packets (tfa st) /\
    TTFA.packet (tfa st') = TTFA.packet (tfa st) /\
    (Z.land (TSystem.flags (syst st)) SYST_TALK <> 0 ->
       tx st' = tx st ++ [(negb (Z.land (TSystem.flags (syst st)) SYST_HEAD =? 0), sensor)] /\
       TTFA.flags (tfa st') = uint8 (Z.land (TTFA.flags (tfa st)) (Z.lnot TFA_NEW_PACKET))) /\
    (Z.land (TSystem.flags (syst st)) SYST_TALK = 0 ->
       tx st' = tx st /\ TTFA.flags (tfa st') = TTFA.flags (tfa st)) /\
    sensors st' =
      if (0 <? TSensor.channel sensor) && (TSensor.channel sensor <=? SENSOR_CHANNELS)
      then match sensors st !! Z.to_nat (TSensor.channel sensor - 1) with
           | Some dsens =>
               if (TSensor.id dsens =? 0xFF) || (TSensor.id dsens =? TSensor.id sensor)
               then <[Z.to_nat (TSensor.channel sensor - 1) := sensor]> (sensors st)
               else sensors st
           | None => sensors st
           end
      else sensors st.
Proof.
  intros Hlen. unfold accept, SENSOR_CHANNELS.
  cbn [TSystem.flags TSystem.packets].
  assert (Hk : forall c, 0 < c <= 3 -> is_Some (sensors st !! Z.to_nat (c - 1))).
  { intros c Hc. apply lookup_lt_is_Some_2. lia. }
  destruct (Z.ltb_spec 0 (TSensor.channel sensor)) as [H0|H0];
    destruct (Z.leb_spec (TSensor.channel sensor) 3) as [H3|H3]; cbn [andb].
  1: destruct (Hk _ (conj H0 H3)) as [dsens Hd]; rewrite Hd;
     destruct ((TSensor.id dsens =? 255) || (TSensor.id dsens =? TSensor.id sensor)).
  all: destruct (Z.eqb_spec (Z.land (TSystem.flags (syst st)) SYST_TALK) 0) as [E|E];
    cbn [negb]; eexists; (split; [reflexivity|]);
    cbn [syst tfa tx sensors TSystem.packets TSystem.flags TTFA.data TTFA.packets
         TTFA.packet TTFA.flags];
    repeat (split; [reflexivity|]);
    (split; [intros ?; try contradiction; try (split; reflexivity)|]);
    (split; [intros ?; try contradiction; try (split; reflexivity)|]);
    reflexivity.
Qed.

Lemma land_bit0_after_clear_bit1 (f : Z) :
  Z.land f TFA_NEW_PACKETS = 0 ->
  Z.land (uint8 (Z.land f (Z.lnot TFA_NEW_PACKET))) TFA_NEW_PACKETS = 0.
Proof.
  intros H. apply land_1_testbit. unfold uint8. change 256 with (2 ^ 8).
  rewrite Z.mod_pow2_bits_low by lia. rewrite Z.land_spec, (land_1_testbit_inv f H).
  reflexivity.
Qed.

Lemma main_state_eta (st : main_state) :
  mk_main (tfa st) (syst st) (sensors st) (tx st) = st.
Proof. destruct st. reflexivity. Qed.

(** The flag of a pending burst is clear after the packet processing. *)
Lemma main_process_clears_flag (st st' : main_state) :
  main_process st = Some st' -> Z.land (TTFA.flags (tfa st')) TFA_NEW_PACKETS = 0.
Proof.
  unfold main_process. intros H.
  pose proof (tfa_proc_packets_clears_flag (tfa st)) as Hclr.
  destruct (tfa_proc_packets (tfa st)) as [got t]. cbn [snd] in Hclr.
  destruct (negb (got =? 0)); [|injection H as <-; exact Hclr].
  cbn [tfa] in H. destruct (tfa_parse t) as [type_ok sensor].
  destruct (negb (type_ok =? 0)); [|injection H as <-; exact Hclr].
  unfold accept in H.
  repeat match type of H with
         | context [match ?x with _ => _ end] => destruct x
         end; inversion H; cbn [tfa TTFA.flags]; try exact Hclr.
  all: now apply land_bit0_after_clear_bit1.
Qed.

(** Once the packet processing has run, running it again changes nothing:
    however often the main loop comes round before the next burst, a burst
    is counted, stored and reported at most once. *)
Theorem main_loop_processes_burst_once (st st' : main_state) :
  main_process st = Some st' -> main_process st' = Some st'.
Proof.
  intros H. apply main_process_clears_flag in H.
  unfold main_process. rewrite (tfa_proc_packets_idle _ H). cbn [negb Z.eqb].
  now rewrite main_state_eta.
Qed.

Lemma main_loop_processes_burst_once_witness :
  exists st', main_process main_pending_example = Some st' /\
              main_process st' = Some st' /\
              TSystem.packets (syst st') = 42.
Proof.
  destruct (main_process main_pending_example) as [st'|] eqn:E; [|vm_compute in E; discriminate].
  exists st'. split; [reflexivity|]. split.
  - exact (main_loop_processes_burst_once main_pending_example st' E).
  - vm_compute in E. injection E as <-. reflexivity.
Defined.

Lemma tfa_parse_ok_sensor (t : TTFA.t) :
  fst (tfa_parse t) <> 0 ->
  TSensor.type (snd (tfa_parse t)) = TFA_TYPE /\
  0 <= TSensor.id (snd (tfa_parse t)) < 16.
Proof.
  unfold tfa_parse. cbn [fst snd TSensor.type TSensor.id]. intros H. split.
  - destruct (Z.eqb_spec (uint8 (Z.shiftr (read_u16 (TTFA.packet t) 3) 4)) TFA_TYPE);
      [assumption | contradiction].
  - change 15 with (Z.ones 4). apply (land_ones_range _ 4). lia.
Qed.

(** The packet processing changes a channel slot only by storing a whole
    reading of the supported type in it, and then only a reading that
    carries the slot's own channel number and, when the slot was locked, the
    identity it was locked to.  A locked slot therefore keeps its identity,
    and a stored reading always locks its slot (its identity is below 16,
    never 0xFF). *)
Theorem slot_changes_only_by_matching_reading (st st' : main_state) (k : nat)
    (d : TSensor.t) :
  main_process st = Some st' ->
  sensors st !! k = Some d ->
  exists d',
    sensors st' !! k = Some d' /\
    (d' = d \/
     (TSensor.channel d' = Z.of_nat k + 1 /\ TSensor.type d' = TFA_TYPE /\
      0 <= TSensor.id d' < 16 /\
      (TSensor.id d = 0xFF \/ TSensor.id d = TSensor.id d'))) /\
    (TSensor.id d <> 0xFF -> TSensor.id d' = TSensor.id d).
Proof.
  unfold main_process. intros H Hd.
  destruct (tfa_proc_packets (tfa st)) as [got t].
  assert (Hsame : exists d', sensors st !! k = Some d' /\
            (d' = d \/
             (TSensor.channel d' = Z.of_nat k + 1 /\ TSensor.type d' = TFA_TYPE /\
              0 <= TSensor.id d' < 16 /\
              (TSensor.id d = 0xFF \/ TSensor.id d = TSensor.id d'))) /\
            (TSensor.id d <> 0xFF -> TSensor.id d' = TSensor.id d)).
  { exists d. split; [exact Hd|]. split; [now left | reflexivity]. }
  destruct (negb (got =? 0)); [|injection H as <-; exact Hsame].
  cbn [tfa] in H. pose proof (tfa_parse_ok_sensor t) as Hok.
  destruct (tfa_parse t) as [type_ok sensor]. cbn [fst snd] in Hok.
  destruct (Z.eqb_spec type_ok 0) as [E0|E0]; cbn [negb] in H;
    [injection H as <-; exact Hsame|].
  destruct (Hok E0) as [Hty Hid].
  unfold accept in H. cbn [sensors syst tfa tx] in H. unfold SENSOR_CHANNELS in H.
  destruct (Z.ltb_spec 0 (TSensor.channel sensor)) as [H0|H0];
    destruct (Z.leb_spec (TSensor.channel sensor) 3) as [H3|H3]; cbn [andb] in H.
  2-4: destruct (negb _) in H; injection H as <-; exact Hsame.
  destruct (sensors st !! Z.to_nat (TSensor.channel sensor - 1)) as [dsens|] eqn:Ek;
    [|discriminate].
  destruct (Z.eqb_spec (TSensor.id dsens) 255) as [Eff|Eff];
    destruct (Z.eqb_spec (TSensor.id dsens) (TSensor.id sensor)) as [Eid|Eid];
    cbn [orb] in H.
  4: destruct (negb _) in H; injection H as <-; exact Hsame.
  all: assert (Hs : sensors st' = <[Z.to_nat (TSensor.channel sensor - 1) := sensor]> (sensors st))
         by (destruct (negb _) in H; injection H as <-; reflexivity);
       rewrite Hs; clear H Hs;
       destruct (decide (k = Z.to_nat (TSensor.channel sensor - 1))) as [->|Hne];
       [ rewrite Ek in Hd; injection Hd as <-;
         exists sensor; split;
         [apply list_lookup_insert_eq; eapply lookup_lt_Some; exact Ek|];
         split; [right; split; [lia|]; split; [exact Hty|]; split; [exact Hid|]; auto
                | intros ?; try contradiction; auto]
       | rewrite list_lookup_insert_ne by auto; exact Hsame ].
Qed.

Lemma slot_changes_only_by_matching_reading_witness :
  exists st' d',
    main_process main_pending_example = Some st' /\
    sensors st' !! 1%nat = Some d' /\ TSensor.id d' = 9.
Proof.
  destruct (main_process main_pending_example) as [st'|] eqn:E; [|vm_compute in E; discriminate].
  destruct (slot_changes_only_by_matching_reading main_pending_example st' 1
              (TSensor.mk 0xFF 0 f32_zero 0 0 0) E eq_refl) as (d' & Hd' & _ & _).
  exists st', d'. split; [reflexivity|]. split; [exact Hd'|].
  vm_compute in E. injection E as <-. vm_compute in Hd'. injection Hd' as <-. reflexivity.
Defined.

Lemma land_NEW_PACKET_set (x : Z) : Z.land (Z.lor x TFA_NEW_PACKET) TFA_NEW_PACKET <> 0.
Proof.
  intros H. pose proof (Z.land_spec (Z.lor x TFA_NEW_PACKET) TFA_NEW_PACKET 1) as E.
  rewrite H, Z.bits_0, Z.lor_spec in E.
  change (Z.testbit TFA_NEW_PACKET 1) with true in E.
  rewrite orb_true_r in E. discriminate.
Qed.

Lemma land_NEW_PACKET_cleared (x : Z) :
  Z.land (uint8 (Z.land x (Z.lnot TFA_NEW_PACKET))) TFA_NEW_PACKET = 0.
Proof.
  apply Z.bits_inj'. intros n Hn. rewrite Z.land_spec, Z.bits_0.
  change TFA_NEW_PACKET with (2 ^ 1). rewrite Z.pow2_bits_eqb by lia.
  destruct (Z.eqb_spec 1 n) as [<-|Hne]; [|apply andb_false_r].
  unfold uint8. change 256 with (2 ^ 8). rewrite Z.mod_pow2_bits_low by lia.
  rewrite Z.land_spec. change (Z.testbit (Z.lnot (2 ^ 1)) 1) with false.
  now rewrite andb_false_r.
Qed.

(** The packet processing on a pending burst in which the frame of a valid
    reading makes up the majority. *)
Lemma main_process_majority (st : main_state) (r : reading) :
  Z.land (TTFA.flags (tfa st)) TFA_NEW_PACKETS <> 0 ->
  1 <= TTFA.packets (tfa st) <= 7 ->
  length (TTFA.data (tfa st)) = 7%nat ->
  Forall (fun row => length row = TFA_BUF_BYTES) (TTFA.data (tfa st)) ->
  valid_reading r ->
  (4 <= occurrences (encode_bytes r)
          (take (Z.to_nat (TTFA.packets (tfa st))) (TTFA.data (tfa st))))%nat ->
  let t' := TTFA.mk (TTFA.data (tfa st)) (TTFA.packets (tfa st)) (encode_bytes r)
                    (Z.lor (uint8 (Z.land (TTFA.flags (tfa st)) (Z.lnot TFA_NEW_PACKETS)))
                           TFA_NEW_PACKET) in
  main_process st =
    if r_type r =? TFA_TYPE
    then accept (sensor_of_reading r) (mk_main t' (syst st) (sensors st) (tx st))
    else Some (mk_main t' (syst st) (sensors st) (tx st)).
Proof.
  intros Hf Hp Hlen Hwf Hr Hocc. cbv zeta.
  destruct (vote_loop_selects (TTFA.data (tfa st)) (Z.to_nat (TTFA.packets (tfa st)))
              Hlen Hwf ltac:(lia)) as (v & Ev & Hid & Hsel & _).
  assert (Hne : (fst (maxv v) =? snd (maxv v)) = false).
  { apply Z.eqb_neq. rewrite <- Ev.
    pose proof (vote_loop_never_ties (TTFA.data (tfa st))
                  (Z.to_nat (TTFA.packets (tfa st))) ltac:(lia)). lia. }
  unfold main_process. rewrite (tfa_proc_packets_selected (tfa st) v Hf Ev Hne).
  rewrite (Hsel _ Hocc).
  assert (Ht : take TFA_BUF_BYTES (encode_bytes r) = encode_bytes r) by reflexivity.
  rewrite Ht. cbn [negb Z.eqb tfa]. rewrite (tfa_parse_encode_bytes r _ _ _ Hr).
  destruct (r_type r =? TFA_TYPE); reflexivity.
Qed.

(** A pending burst in which the frame of a valid reading is the majority
    (at least four captures): the reconciled packet is that frame.  When the
    reading has another type than 0x90 it is not counted, stored or
    reported, and the unread flag is nevertheless raised.  When the type is
    0x90 the packet counter advances by one (modulo 2^16); in talk mode the
    reading is reported once, with the header setting in force, and the
    unread flag is taken back; outside talk mode nothing is reported and the
    unread flag stays raised; and on a channel 1..3 whose slot is unlocked or
    locked to the reading's identity the slot becomes the reading. *)
Theorem majority_burst_is_processed (st : main_state) (r : reading) :
  Z.land (TTFA.flags (tfa st)) TFA_NEW_PACKETS <> 0 ->
  1 <= TTFA.packets (tfa st) <= 7 ->
  length (TTFA.data (tfa st)) = 7%nat ->
  Forall (fun row => length row = TFA_BUF_BYTES) (TTFA.data (tfa st)) ->
  valid_reading r ->
  (4 <= occurrences (encode_bytes r)
          (take (Z.to_nat (TTFA.packets (tfa st))) (TTFA.data (tfa st))))%nat ->
  length (sensors st) = 3%nat ->
  exists st',
    main_process st = Some st' /\
    TTFA.packet (tfa st') = encode_bytes r /\
    (r_type r <> TFA_TYPE ->
       syst st' = syst st /\ sensors st' = sensors st /\ tx st' = tx st /\
       Z.land (TTFA.flags (tfa st')) TFA_NEW_PACKET <> 0) /\
    (r_type r = TFA_TYPE ->
       TSystem.packets (syst st') = uint16 (TSystem.packets (syst st) + 1) /\
       (Z.land (TSystem.flags (syst st)) SYST_TALK <> 0 ->
          tx st' = tx st ++ [(negb (Z.land (TSystem.flags (syst st)) SYST_HEAD =? 0),
                              sensor_of_reading r)] /\
          Z.land (TTFA.flags (tfa st')) TFA_NEW_PACKET = 0) /\
       (Z.land (TSystem.flags (syst st)) SYST_TALK = 0 ->
          tx st' = tx st /\ Z.land (TTFA.flags (tfa st')) TFA_NEW_PACKET <> 0) /\
       (1 <= r_channel r <= 3 ->
        forall d, sensors st !! Z.to_nat (r_channel r - 1) = Some d ->
                  TSensor.id d = 0xFF \/ TSensor.id d = r_id r ->
                  sensors st' !! Z.to_nat (r_channel r - 1) = Some (sensor_of_reading r))).
Proof.
  intros Hf Hp Hlen Hwf Hr Hocc Hs.
  rewrite (main_process_majority st r Hf Hp Hlen Hwf Hr Hocc). cbv zeta.
  set (t' := TTFA.mk _ _ _ _).
  destruct (Z.eqb_spec (r_type r) TFA_TYPE) as [Ety|Ety].
  - destruct (accept_fields (sensor_of_reading r) (mk_main t' (syst st) (sensors st) (tx st)) Hs)
      as (st' & Ha & Hcnt & _ & _ & _ & Hpkt & Htalk & Hsil & Hslots).
    cbn [tfa syst sensors tx] in *.
    exists st'. split; [exact Ha|]. split; [rewrite Hpkt; reflexivity|].
    split; [intros; contradiction|]. intros _.
    split; [exact Hcnt|]. split; [|split].
    + intros Ht. destruct (Htalk Ht) as [-> ->]. split; [reflexivity|].
      apply land_NEW_PACKET_cleared.
    + intros Ht. destruct (Hsil Ht) as [-> ->]. split; [reflexivity|].
      subst t'. cbn [TTFA.flags]. apply land_NEW_PACKET_set.
    + intros Hc d Hd Hid. rewrite Hslots.
      change (TSensor.channel (sensor_of_reading r)) with (r_channel r).
      change (TSensor.id (sensor_of_reading r)) with (r_id r). unfold SENSOR_CHANNELS.
      destruct (Z.ltb_spec 0 (r_channel r)); [|lia].
      destruct (Z.leb_spec (r_channel r) 3); [|lia]. cbn [andb]. rewrite Hd.
      assert (Hm : (TSensor.id d =? 255) || (TSensor.id d =? r_id r) = true).
      { apply orb_true_iff. destruct Hid as [H'|H']; [left|right]; now apply Z.eqb_eq. }
      rewrite Hm. apply list_lookup_insert_eq. eapply lookup_lt_Some. exact Hd.
  - eexists. split; [reflexivity|]. cbn [tfa syst sensors tx]. split; [reflexivity|].
    split; [|intros; contradiction]. intros _. repeat (split; [reflexivity|]).
    subst t'. cbn [TTFA.flags]. apply land_NEW_PACKET_set.
Qed.

Lemma majority_burst_is_processed_witness :
  exists st',
    main_process main_other_type_example = Some st' /\
    TTFA.packet (tfa st') = encode_bytes reading_other_type /\
    syst st' = syst main_other_type_example /\
    sensors st' = sensors main_other_type_example /\
    tx st' = tx main_other_type_example.
Proof.
  destruct (majority_burst_is_processed main_other_type_example reading_other_type)
    as (st' & Hm & Hp & Hother & _).
  - vm_compute. discriminate.
  - vm_compute. split; discriminate.
  - reflexivity.
  - repeat constructor.
  - vm_compute. intuition discriminate.
  - vm_compute. lia.
  - reflexivity.
  - exists st'. split; [exact Hm|]. split; [exact Hp|].
    destruct Hother as (H1 & H2 & H3 & _); [vm_compute; discriminate|].
    split; [exact H1|]. split; [exact H2 | exact H3].
Defined.

(** * From the line to the channel slot *)

Lemma captured_occurrences (r : reading) (bitss : list (list bool)) :
  valid_reading r ->
  forall data : list (list Z),
    (forall i bits, bitss !! i = Some bits ->
       exists row, data !! i = Some row /\ captured bits row) ->
    (sent (encode_bits r) bitss
     <= occurrences (encode_bytes r) (take (length bitss) data))%nat.
Proof.
  intros Hr. unfold sent, occurrences.
  induction bitss as [|bits bitss IH]; intros data Hrows; [cbn; lia|].
  destruct (Hrows 0%nat bits eq_refl) as (row & Hrow & Hcap).
  destruct data as [|row' data]; [discriminate|]. cbn in Hrow. injection Hrow as ->.
  cbn [length take count_occ].
  assert (IH' := IH data (fun i b Hi => Hrows (S i) b Hi)).
  destruct (List.list_eq_dec Bool.bool_dec bits (encode_bits r)) as [E|E].
  - subst bits. rewrite (captured_is_encoding r row Hr Hcap).
    destruct (List.list_eq_dec Z.eq_dec (encode_bytes r) (encode_bytes r)); [lia|contradiction].
  - destruct (List.list_eq_dec Z.eq_dec row (encode_bytes r)); lia.
Qed.

Lemma sent_le_length (bits : list bool) (bitss : list (list bool)) :
  (sent bits bitss <= length bitss)%nat.
Proof. apply count_occ_bound. Qed.

(** A burst of at most seven whole repetitions and a gap, of which at
    least four repetitions are the frame of one valid reading of type 0x90 on
    a channel 1..3, received sample by sample and then handed to the packet
    processing of the main loop: the reconciled packet is the frame of the
    reading, the packet counter advances by one, and when the slot of the
    channel is unlocked or locked to the reading's identity, the slot holds
    the reading and the other slots are as before.  The other repetitions
    may carry any bits. *)
Theorem burst_on_the_line_reaches_the_slot (F : Z) (reps : list rep)
    (bitss : list (list bool)) (gap : nat * nat) (s : isr_state) (r : reading)
    (syst0 : TSystem.t) (slots : list TSensor.t) (tx0 : list (bool * TSensor.t))
    (d : TSensor.t) :
  Forall2 (rep_carries F) reps bitss -> (length reps <= 7)%nat ->
  wf_pulse gap -> classify F (measured gap) = Gap ->
  wf_buf (tfa_buf s) -> tfa_buf_packet s = 0 -> tfa_old s <> 0 \/ tfa_timer s = 0 ->
  valid_reading r -> r_type r = TFA_TYPE -> 1 <= r_channel r <= 3 ->
  (4 <= sent (encode_bits r) bitss)%nat ->
  length slots = 3%nat ->
  slots !! Z.to_nat (r_channel r - 1) = Some d ->
  TSensor.id d = 0xFF \/ TSensor.id d = r_id r ->
  let s' := run F (pulse_train (concat (rep_pulses <$> reps) ++ [gap])) s in
  exists st',
    main_process (mk_main (p_tfa s') syst0 slots tx0) = Some st' /\
    TTFA.packet (tfa st') = encode_bytes r /\
    TSystem.packets (syst st') = uint16 (TSystem.packets syst0 + 1) /\
    sensors st' !! Z.to_nat (r_channel r - 1) = Some (sensor_of_reading r) /\
    (forall k, k <> Z.to_nat (r_channel r - 1) -> sensors st' !! k = slots !! k).
Proof.
  intros Hreps Hn7 Hwg Hgap Hwf Hk Hs Hr Hty Hc Hsent Hlen Hd Hid. cbv zeta.
  pose proof (Forall2_length _ _ _ Hreps) as Hll.
  pose proof (sent_le_length (encode_bits r) bitss) as Hle.
  assert (Hn : (3 <= length reps <= 7)%nat) by lia.
  assert (Hps : Forall wf_pulse (concat (rep_pulses <$> reps) ++ [gap])).
  { apply Forall_app. split; [exact (pulses_of_reps_wf F reps bitss Hreps)|].
    apply Forall_cons. split; [exact Hwg | apply Forall_nil; exact I]. }
  destruct (run_pulse_train F _ s Hps Hs) as (_ & _ & _ & Ep).
  rewrite Ep, fmap_app. cbn [fmap list_fmap].
  destruct (feed_burst F reps bitss (measured gap) s Hreps Hn Hgap Hwf Hk)
    as (_ & Hcnt & Hfl & _ & Hwf' & Hrows). cbv zeta in *.
  set (t := p_tfa (feed F ((measured <$> concat (rep_pulses <$> reps)) ++ [measured gap]) s))
    in *.
  set (st := mk_main t syst0 slots tx0).
  assert (Hocc : (4 <= occurrences (encode_bytes r)
                         (take (Z.to_nat (TTFA.packets (tfa st))) (TTFA.data (tfa st))))%nat).
  { cbn [st tfa]. rewrite Hcnt, Nat2Z.id, Hll.
    pose proof (captured_occurrences r bitss Hr (TTFA.data t) Hrows). lia. }
  assert (Hf : Z.land (TTFA.flags (tfa st)) TFA_NEW_PACKETS <> 0).
  { cbn [st tfa]. rewrite Hfl. apply land_lor_NEW_PACKETS. }
  assert (Hp : 1 <= TTFA.packets (tfa st) <= 7) by (cbn [st tfa]; lia).
  assert (Hrl : Forall (fun row => length row = TFA_BUF_BYTES) (TTFA.data (tfa st))).
  { cbn [st tfa]. eapply Forall_impl; [exact (proj2 Hwf')|]. intros row Hrow. exact (proj1 Hrow). }
  rewrite (main_process_majority st r Hf Hp (proj1 Hwf') Hrl Hr Hocc). cbv zeta.
  apply Z.eqb_eq in Hty. rewrite Hty.
  match goal with |- context [accept ?x ?y] =>
    destruct (accept_fields x y Hlen)
      as (st' & Ha & Hc' & _ & _ & _ & Hpkt & _ & _ & Hslots) end.
  cbn [st tfa syst sensors tx TTFA.packet] in *.
  exists st'. split; [exact Ha|]. split; [exact Hpkt|]. split; [exact Hc'|].
  rewrite Hslots.
  change (TSensor.channel (sensor_of_reading r)) with (r_channel r).
  change (TSensor.id (sensor_of_reading r)) with (r_id r). unfold SENSOR_CHANNELS.
  destruct (Z.ltb_spec 0 (r_channel r)); [|lia].
  destruct (Z.leb_spec (r_channel r) 3); [|lia]. cbn [andb]. rewrite Hd.
  assert (Hm : (TSensor.id d =? 255) || (TSensor.id d =? r_id r) = true).
  { apply orb_true_iff. destruct Hid as [H'|H']; [left|right]; now apply Z.eqb_eq. }
  rewrite Hm. split.
  - apply list_lookup_insert_eq. eapply lookup_lt_Some. exact Hd.
  - intros k Hne. apply list_lookup_insert_ne. auto.
Qed.

Lemma burst_on_the_line_reaches_the_slot_witness :
  exists st',
    main_process
      (mk_main (p_tfa (run F_CPU_8MHz
                           (pulse_train (concat (rep_pulses <$> (rep_of_bits <$> burst_bits_example))
                                         ++ [gap_pulse]))
                           (isr_init tfa_zero 0)))
               (TSystem.mk 41 SYST_HEAD) (sensors main_example) [])
    = Some st' /\
    sensors st' !! 1%nat = Some (sensor_of_reading reading_example).
Proof.
  destruct (burst_on_the_line_reaches_the_slot F_CPU_8MHz (rep_of_bits <$> burst_bits_example)
              burst_bits_example gap_pulse (isr_init tfa_zero 0) reading_example
              (TSystem.mk 41 SYST_HEAD) (sensors main_example) []
              (TSensor.mk 0xFF 0 f32_zero 0 0 0))
    as (st' & Hm & _ & _ & Hslot & _).
  - unfold burst_bits_example. cbn [fmap list_fmap].
    repeat (constructor; [apply rep_of_bits_carries; reflexivity|]). constructor.
  - cbn. lia.
  - split; cbn; lia.
  - vm_compute. reflexivity.
  - split; [reflexivity|].
    repeat (constructor; [split; [reflexivity | repeat (constructor; [lia|]); constructor]|]).
    constructor.
  - reflexivity.
  - right. reflexivity.
  - vm_compute. intuition discriminate.
  - reflexivity.
  - vm_compute. split; discriminate.
  - vm_compute. lia.
  - reflexivity.
  - reflexivity.
  - left. reflexivity.
  - exists st'. split; [exact Hm | exact Hslot].
Defined.

(** * The SCPI command handlers *)

Lemma land_pow2_testbit (x k : Z) :
  0 <= k -> Z.land x (2 ^ k) = if Z.testbit x k then 2 ^ k else 0.
Proof.
  intros Hk. apply Z.bits_inj'. intros n Hn. rewrite Z.land_spec, Z.pow2_bits_eqb by lia.
  destruct (Z.eqb_spec k n) as [<-|Hne].
  - rewrite andb_true_r. destruct (Z.testbit x k) eqn:E.
    + rewrite Z.pow2_bits_eqb by lia. now rewrite Z.eqb_refl.
    + now rewrite Z.bits_0.
  - rewrite andb_false_r. destruct (Z.testbit x k).
    + rewrite Z.pow2_bits_eqb by lia. symmetry. now apply Z.eqb_neq.
    + now rewrite Z.bits_0.
Qed.

Lemma testbit_uint8 (x k : Z) : 0 <= k < 8 -> Z.testbit (uint8 x) k = Z.testbit x k.
Proof. intros Hk. unfold uint8. change 256 with (2 ^ 8). apply Z.mod_pow2_bits_low. lia. Qed.

Lemma scpi_refuse_spec (code : Z) (info : string) (st : scpi_state) :
  scpi_refuse code info st
  = Some (mk_scpi (locals st) (mk_err (uint16 code) (Some info) 0) (out st)).
Proof. reflexivity. Qed.

Lemma append_assoc (a b c : string) : ((a ++ b) ++ c = a ++ (b ++ c))%string.
Proof. induction a as [|x a IH]; cbn; [reflexivity | now rewrite IH]. Qed.

Lemma scpi_unknown_spec (cmd : string) (st : scpi_state) :
  scpi_unknown cmd true st
  = Some (mk_scpi (locals st) (mk_err (uint16 SCPI_ERR_undefinedHeader) (Some cmd) 1) (out st)).
Proof. reflexivity. Qed.

Lemma scpi_SYST_ERR_spec (st : scpi_state) :
  scpi_SYST_ERR st
  = Some (mk_scpi (locals st) (mk_err 0 None (is_malloc (err st)))
                  (out st ++ error_text (err_mem (err st))
                          ++ match info_mem (err st) with
                             | Some s => " " ++ s
                             | None => ""
                             end ++ nl)%string).
Proof.
  unfold scpi_SYST_ERR, serial_error. change (Z.land SCPI_ERR_SEND SCPI_ERR_STORE) with 0.
  change (Z.land SCPI_ERR_SEND SCPI_ERR_SEND) with 2. cbn [negb Z.eqb].
  unfold serial_tx_cstr, serial_tx_str, serial_tx_byte.
  destruct (info_mem (err st)) as [s|]; [destruct (negb (is_malloc (err st) =? 0))|];
    do 2 f_equal; rewrite ?append_assoc; reflexivity.
Qed.

(** The error memory holds the last error only, and reports it once: after
    two unknown commands, [SYST:ERR?] sends the text of error -113 followed
    by the second command, and clears the memory, so that the next
    [SYST:ERR?] sends the no-error text; none of this touches the locals of
    [main].  Remembering an unknown command needs heap memory: without it
    the handler writes through a null pointer. *)
Theorem error_memory_reports_last_error_once (cmd1 cmd2 : string) (st : scpi_state) :
  exists st1 st2 st3 st4,
    scpi_unknown cmd1 true st = Some st1 /\
    scpi_unknown cmd2 true st1 = Some st2 /\
    out st2 = out st /\
    scpi_SYST_ERR st2 = Some st3 /\
    out st3 = (out st ++ "-113, Undefined command header." ++ " " ++ cmd2 ++ nl)%string /\
    scpi_SYST_ERR st3 = Some st4 /\
    out st4 = (out st3 ++ "0, No error." ++ nl)%string /\
    locals st4 = locals st /\
    scpi_unknown cmd1 false st = None.
Proof.
  eexists. eexists. eexists. eexists.
  split; [apply scpi_unknown_spec|]. split; [apply scpi_unknown_spec|].
  split; [reflexivity|]. split; [apply scpi_SYST_ERR_spec|].
  split; [reflexivity|]. split; [apply scpi_SYST_ERR_spec|].
  split; [reflexivity|]. split; reflexivity.
Qed.

Lemma channel_refused_iff (atoi : string -> Z) (p : string) :
  channel_refused atoi (Some p) = negb ((1 <=? uint8 (atoi p)) && (uint8 (atoi p) <=? 3)).
Proof.
  unfold channel_refused, channel_par, SENSOR_CHANNELS.
  destruct (Z.ltb_spec (uint8 (atoi p)) 1), (Z.ltb_spec 3 (uint8 (atoi p))),
    (Z.leb_spec 1 (uint8 (atoi p))), (Z.leb_spec (uint8 (atoi p)) 3); cbn; reflexivity || lia.
Qed.

(** A channel parameter is given as a number that [atoi] reads and that is
    then cut to 8 bits.  When the result is outside 1..3, each of
    [TFA:DATA:NEW?], [TFA:DATA?] and [TFA:SYNC] leaves the locals of [main]
    alone, sends nothing and stores error -104 with its own message; a
    following [SYST:ERR?] sends the text of error -104 and that message and
    clears the error memory. *)
Theorem channel_parameter_out_of_range_is_refused
    (atoi : string -> Z) (p : string) (st : scpi_state) :
  ~ (1 <= uint8 (atoi p) <= 3) ->
  let refused (info : string) (r : option scpi_state) :=
    exists st',
      r = Some st' /\ locals st' = locals st /\ out st' = out st /\
      err st' = mk_err (uint16 SCPI_ERR_wrongParamType) (Some info) 0 /\
      exists st'',
        scpi_SYST_ERR st' = Some st'' /\
        out st'' = (out st ++ "-104, Wrong parameter type or value." ++ " " ++ info ++ nl)%string /\
        err_mem (err st'') = 0 /\ info_mem (err st'') = None in
  refused "TFA:DATA:NEW? <channel> parameter must be 1 to 3 or empty."%string
          (scpi_TFA_DATA_NEW atoi (Some p) st) /\
  refused "TFA:DATA? <channel> parameter must be 1 to 3 or empty."%string
          (scpi_TFA_DATA atoi (Some p) st) /\
  refused "TFA:SYNC <channel> parameter must be 1 to 3 or empty."%string
          (scpi_TFA_SYNC_cmd atoi (Some p) st).
Proof.
  intros Hc refused.
  assert (Hr : channel_refused atoi (Some p) = true).
  { rewrite channel_refused_iff. apply negb_true_iff, andb_false_iff.
    destruct (Z.leb_spec 1 (uint8 (atoi p))); [right|left; reflexivity].
    apply Z.leb_gt. lia. }
  assert (Hrefuse : forall info, refused info (scpi_refuse SCPI_ERR_wrongParamType info st)).
  { intros info. subst refused. cbv beta. rewrite scpi_refuse_spec.
    eexists. split; [reflexivity|]. cbn [locals out err]. repeat (split; [reflexivity|]).
    eexists. split; [apply scpi_SYST_ERR_spec|]. cbn [locals out err err_mem info_mem].
    repeat split. }
  split; [|split].
  - unfold scpi_TFA_DATA_NEW. rewrite Hr. apply Hrefuse.
  - unfold scpi_TFA_DATA. rewrite Hr. apply Hrefuse.
  - unfold scpi_TFA_SYNC_cmd, scpi_TFA_SYNC. cbn [option_map].
    unfold channel_refused, channel_par in Hr. rewrite Hr. apply Hrefuse.
Qed.

Lemma channel_parameter_out_of_range_is_refused_witness :
  exists st',
    scpi_TFA_DATA atoi_digit (Some "4"%string) scpi_example = Some st' /\
    locals st' = locals scpi_example /\ out st' = out scpi_example.
Proof.
  destruct (channel_parameter_out_of_range_is_refused atoi_digit "4"%string scpi_example)
    as (_ & (st' & H1 & H2 & H3 & _) & _).
  - vm_compute. intros [_ H]. apply H. reflexivity.
  - exists st'. split; [exact H1|]. split; [exact H2 | exact H3].
Defined.

(** Reading one channel: [TFA:DATA? c] with c in 1..3 prints the content of
    slot c as it is, with the header setting in force, sends no text, and
    takes back the unread flag of that slot and the unread flag of the
    receiver, whichever channel the last packet came from; the other slots
    and every other field of slot c are unchanged.  Before the read
    [TFA:DATA:NEW? c] answers 1 when the slot holds an unread reading;
    after it, [TFA:DATA:NEW? c] and [TFA:DATA:NEW?] both answer 0. *)
Theorem channel_read_takes_back_unread_flags
    (atoi : string -> Z) (p : string) (st : scpi_state) (d : TSensor.t) :
  1 <= uint8 (atoi p) <= 3 ->
  sensors (locals st) !! Z.to_nat (uint8 (atoi p) - 1) = Some d ->
  let k := Z.to_nat (uint8 (atoi p) - 1) in
  exists st',
    scpi_TFA_DATA atoi (Some p) st = Some st' /\
    tx (locals st')
    = tx (locals st)
      ++ [(negb (Z.land (TSystem.flags (syst (locals st))) SYST_HEAD =? 0), d)] /\
    out st' = out st /\ err st' = err st /\ syst (locals st') = syst (locals st) /\
    sensors (locals st') !! k = Some (clear_sensor_new d) /\
    (forall j, j <> k -> sensors (locals st') !! j = sensors (locals st) !! j) /\
    TTFA.packet (tfa (locals st')) = TTFA.packet (tfa (locals st)) /\
    (Z.land (TSensor.flags d) TFA_NEW_PACKET <> 0 ->
       exists st0, scpi_TFA_DATA_NEW atoi (Some p) st = Some st0 /\
                   out st0 = (out st ++ "1" ++ nl)%string) /\
    (exists st1, scpi_TFA_DATA_NEW atoi (Some p) st' = Some st1 /\
                 out st1 = (out st ++ "0" ++ nl)%string) /\
    (exists st2, scpi_TFA_DATA_NEW atoi None st' = Some st2 /\
                 out st2 = (out st ++ "0" ++ nl)%string).
Proof.
  intros Hc Hd k.
  assert (Hr : channel_refused atoi (Some p) = false).
  { rewrite channel_refused_iff. apply negb_false_iff, andb_true_intro.
    split; apply Z.leb_le; lia. }
  assert (Hz : (channel_par atoi (Some p) =? 0) = false).
  { apply Z.eqb_neq. cbn [channel_par]. lia. }
  assert (Hk : sensors (locals st) !! Z.to_nat (channel_par atoi (Some p) - 1) = Some d)
    by exact Hd.
  eexists. split.
  { unfold scpi_TFA_DATA. rewrite Hr, Hz, Hk. reflexivity. }
  cbn [locals out err tx syst sensors tfa]. unfold tfa_print_sensor.
  split; [reflexivity|]. split; [reflexivity|]. split; [reflexivity|]. split; [reflexivity|].
  change (Z.to_nat (channel_par atoi (Some p) - 1)) with k. fold k in Hd.
  assert (Hk' : alter clear_sensor_new k (sensors (locals st)) !! k = Some (clear_sensor_new d)).
  { rewrite list_lookup_alter_eq, Hd. reflexivity. }
  split; [exact Hk'|].
  split; [intros j Hj; apply list_lookup_alter_ne; auto|].
  split; [reflexivity|]. split; [|split].
  - intros Hnew. eexists. split.
    { unfold scpi_TFA_DATA_NEW. rewrite Hr, Hz, Hk. reflexivity. }
    cbn [out]. apply Z.eqb_neq in Hnew. rewrite Hnew. reflexivity.
  - eexists. split.
    { unfold scpi_TFA_DATA_NEW. rewrite Hr, Hz. cbn [locals sensors].
      change (Z.to_nat (channel_par atoi (Some p) - 1)) with k. rewrite Hk'. reflexivity. }
    cbn [out clear_sensor_new TSensor.flags]. rewrite land_NEW_PACKET_cleared. reflexivity.
  - eexists. split; [reflexivity|].
    cbn [out locals tfa clear_new_packet TTFA.flags channel_par Z.eqb].
    rewrite land_NEW_PACKET_cleared. reflexivity.
Qed.

Lemma channel_read_takes_back_unread_flags_witness :
  exists st',
    scpi_TFA_DATA atoi_digit (Some "2"%string) scpi_example = Some st' /\
    tx (locals st') = [(true, reading_id9_chn2)] /\
    sensors (locals st') !! 1%nat = Some (clear_sensor_new reading_id9_chn2).
Proof.
  destruct (channel_read_takes_back_unread_flags atoi_digit "2"%string scpi_example
              reading_id9_chn2) as (st' & H1 & H2 & _ & _ & _ & H3 & _).
  - vm_compute. split; discriminate.
  - reflexivity.
  - exists st'. split; [exact H1|]. split; [exact H2 | exact H3].
Defined.

Lemma set_syst_flag_bits (k : Z) (c : Z) (p : string) (s : TSystem.t) :
  0 <= k < 8 -> first_char p = 48 + c -> c = 0 \/ c = 1 ->
  let s' := set_syst_flag (2 ^ k) p s in
  TSystem.packets s' = TSystem.packets s /\
  Z.land (TSystem.flags s') (2 ^ k) = c * 2 ^ k /\
  forall j, 0 <= j < 8 -> j <> k ->
            Z.land (TSystem.flags s') (2 ^ j) = Z.land (TSystem.flags s) (2 ^ j).
Proof.
  intros Hk Hp Hc. cbv zeta. unfold set_syst_flag. cbn [TSystem.packets TSystem.flags].
  rewrite Hp. replace (48 + c - 48) with c by lia.
  split; [reflexivity|].
  assert (Hbit : forall j, 0 <= j < 8 ->
            Z.testbit (uint8 (Z.lor (uint8 (Z.land (TSystem.flags s) (Z.lnot (2 ^ k))))
                                    (c * 2 ^ k))) j
            = if j =? k then (c =? 1) else Z.testbit (TSystem.flags s) j).
  { intros j Hj. rewrite testbit_uint8, Z.lor_spec, testbit_uint8, Z.land_spec by lia.
    rewrite Z.lnot_spec, Z.pow2_bits_eqb by lia.
    assert (Hc' : Z.testbit (c * 2 ^ k) j = (j =? k) && (c =? 1)).
    { destruct Hc as [-> | ->].
      - rewrite Z.mul_0_l, Z.bits_0. now rewrite andb_false_r.
      - rewrite Z.mul_1_l, Z.pow2_bits_eqb by lia. rewrite andb_true_r. apply Z.eqb_sym. }
    rewrite Hc'. rewrite (Z.eqb_sym k j).
    destruct (j =? k); cbn; [now rewrite andb_false_r | now rewrite andb_true_r, orb_false_r]. }
  split.
  - rewrite land_pow2_testbit, Hbit, Z.eqb_refl by lia. destruct Hc as [-> | ->]; cbn; lia.
  - intros j Hj Hne. rewrite !land_pow2_testbit, Hbit by lia.
    destruct (Z.eqb_spec j k); [contradiction | reflexivity].
Qed.

(** [TFA:TALK] looks at the first character of its parameter only.  With
    '0' or '1' there it sets the talk bit to that digit and leaves the header
    bit, the packet counter and everything else alone; a reading accepted
    afterwards is reported at once exactly when the digit was '1'.  With
    no parameter or any other first character the command changes nothing
    and stores error -104. *)
Theorem talk_command_switches_reporting (par : option string) (st : scpi_state)
    (sensor : TSensor.t) :
  length (sensors (locals st)) = 3%nat ->
  (forall p c, par = Some p -> first_char p = 48 + c -> c = 0 \/ c = 1 ->
     exists st' m,
       scpi_TFA_TALK par st = Some st' /\
       Z.land (TSystem.flags (syst (locals st'))) SYST_TALK = c /\
       Z.land (TSystem.flags (syst (locals st'))) SYST_HEAD
       = Z.land (TSystem.flags (syst (locals st))) SYST_HEAD /\
       TSystem.packets (syst (locals st')) = TSystem.packets (syst (locals st)) /\
       tfa (locals st') = tfa (locals st) /\ sensors (locals st') = sensors (locals st) /\
       tx (locals st') = tx (locals st) /\ err st' = err st /\ out st' = out st /\
       accept sensor (locals st') = Some m /\
       tx m = if c =? 1
              then tx (locals st)
                   ++ [(negb (Z.land (TSystem.flags (syst (locals st))) SYST_HEAD =? 0), sensor)]
              else tx (locals st)) /\
  ((par = None \/ exists p, par = Some p /\ first_char p <> 48 /\ first_char p <> 49) ->
     scpi_TFA_TALK par st
     = Some (mk_scpi (locals st)
                     (mk_err (uint16 SCPI_ERR_wrongParamType)
                             (Some "TFA:TALK parameter must be 0 or 1."%string) 0)
                     (out st))).
Proof.
  intros Hlen. split.
  - intros p c -> Hp Hc.
    destruct (set_syst_flag_bits 0 c p (syst (locals st)) ltac:(lia) Hp Hc)
      as (Hpk & Hbit & Hoth). cbv zeta in *.
    change (2 ^ 0) with SYST_TALK in *. rewrite Z.mul_1_r in Hbit.
    specialize (Hoth 1 ltac:(lia) ltac:(lia)). change (2 ^ 1) with SYST_HEAD in Hoth.
    set (m1 := with_syst (set_syst_flag SYST_TALK p (syst (locals st))) (locals st)).
    destruct (accept_fields sensor m1 Hlen)
      as (m & Ha & _ & _ & _ & _ & _ & Htalk & Hsil & _).
    exists (mk_scpi m1 (err st) (out st)), m. split.
    { unfold scpi_TFA_TALK, not_0_or_1. rewrite Hp.
      destruct (Z.ltb_spec (48 + c) 48); [lia|]. destruct (Z.ltb_spec 49 (48 + c)); [lia|].
      reflexivity. }
    cbn [locals err out]. cbn [m1 with_syst syst tfa sensors tx] in *.
    split; [exact Hbit|]. split; [exact Hoth|]. split; [exact Hpk|].
    repeat (split; [reflexivity|]). split; [exact Ha|].
    destruct Hc as [-> | ->]; cbn [Z.eqb].
    + exact (proj1 (Hsil Hbit)).
    + rewrite (proj1 (Htalk ltac:(rewrite Hbit; discriminate))).
      do 3 f_equal. rewrite Hoth. reflexivity.
  - intros [-> | (p & -> & H0 & H1)]; [reflexivity|].
    unfold scpi_TFA_TALK, not_0_or_1.
    destruct (Z.ltb_spec (first_char p) 48); [reflexivity|].
    destruct (Z.ltb_spec 49 (first_char p)); [reflexivity | lia].
Qed.

Lemma talk_command_switches_reporting_witness :
  exists st' m,
    scpi_TFA_TALK (Some "1"%string) scpi_example = Some st' /\
    accept reading_id5_chn2 (locals st') = Some m /\
    tx m = [(true, reading_id5_chn2)].
Proof.
  destruct (talk_command_switches_reporting (Some "1"%string) scpi_example reading_id5_chn2
              eq_refl) as [H _].
  destruct (H "1"%string 1 eq_refl eq_refl ltac:(right; reflexivity))
    as (st' & m & H1 & _ & _ & _ & _ & _ & _ & _ & _ & H2 & H3).
  exists st', m. split; [exact H1|]. split; [exact H2 | exact H3].
Defined.

(** * The serial receiver and the command decoder *)

Lemma ring_idx_lt (p i : nat) :
  (p < RX_BUF_SZ)%nat -> (i <= RX_BUF_SZ)%nat -> (ring_idx p i < RX_BUF_SZ)%nat.
Proof.
  unfold ring_idx, RX_BUF_SZ. intros Hp Hi.
  destruct (Nat.ltb_spec (p + i) 128); lia.
Qed.

Lemma ring_idx_inj (p a b : nat) :
  (a < RX_BUF_SZ)%nat -> (b < RX_BUF_SZ)%nat -> ring_idx p a = ring_idx p b -> a = b.
Proof.
  unfold ring_idx, RX_BUF_SZ. intros Ha Hb.
  destruct (Nat.ltb_spec (p + a) 128), (Nat.ltb_spec (p + b) 128); lia.
Qed.

Lemma ring_idx_0 (p : nat) : (p < RX_BUF_SZ)%nat -> ring_idx p 0 = p.
Proof.
  unfold ring_idx, RX_BUF_SZ. intros Hp. rewrite Nat.add_0_r.
  destruct (Nat.ltb_spec p 128); lia.
Qed.

Lemma wrap_ring_idx (p i : nat) :
  (p < RX_BUF_SZ)%nat -> (i < RX_BUF_SZ)%nat ->
  serial_fifo_wrap (S (ring_idx p i)) = ring_idx p (S i).
Proof.
  unfold serial_fifo_wrap, ring_idx, RX_BUF_SZ. intros Hp Hi.
  destruct (Nat.ltb_spec (p + i) 128), (Nat.ltb_spec (p + S i) 128);
    match goal with |- context [(128 <=? ?x)%nat] => destruct (Nat.leb_spec 128 x) end; lia.
Qed.

Lemma ring_idx_shift (p i : nat) :
  (p < RX_BUF_SZ)%nat -> (S i <= RX_BUF_SZ)%nat ->
  ring_idx (ring_idx p 1) i = ring_idx p (S i).
Proof.
  unfold ring_idx, RX_BUF_SZ. intros Hp Hi.
  repeat match goal with |- context [(?x <? 128)%nat] => destruct (Nat.ltb_spec x 128) end; lia.
Qed.

Lemma nth_insert_eq {A} (l : list A) (i : nat) (x d : A) :
  (i < length l)%nat -> nth i (<[i := x]> l) d = x.
Proof. intros Hi. rewrite nth_lookup, list_lookup_insert_eq by exact Hi. reflexivity. Qed.

Lemma nth_insert_ne {A} (l : list A) (i j : nat) (x d : A) :
  i <> j -> nth j (<[i := x]> l) d = nth j l d.
Proof. intros Hne. rewrite !nth_lookup, list_lookup_insert_ne by exact Hne. reflexivity. Qed.

Lemma ring_holds_app (p : nat) (buf : list ascii) (i : nat) (a b : list ascii) :
  ring_holds p buf i (a ++ b) <->
  ring_holds p buf i a /\ ring_holds p buf (i + length a) b.
Proof.
  unfold ring_holds. split.
  - intros H. split.
    + intros m c Hm. apply H. apply lookup_app_l_Some. exact Hm.
    + intros m c Hm. rewrite <- Nat.add_assoc. apply H.
      rewrite lookup_app_r by lia. rewrite Nat.add_comm, Nat.add_sub. exact Hm.
  - intros [Ha Hb] m c Hm. apply lookup_app_Some in Hm as [Hm | [Hl Hm]].
    + now apply Ha.
    + replace (i + m)%nat with (i + length a + (m - length a))%nat by lia. now apply Hb.
Qed.

Lemma ring_holds_cons (p : nat) (buf : list ascii) (i : nat) (c : ascii) (cs : list ascii) :
  ring_holds p buf i (c :: cs) <->
  nth (ring_idx p i) buf NUL = c /\ ring_holds p buf (S i) cs.
Proof.
  unfold ring_holds. split.
  - intros H. split.
    + specialize (H 0%nat c eq_refl). now rewrite Nat.add_0_r in H.
    + intros m x Hm. specialize (H (S m) x Hm). now rewrite Nat.add_succ_r in H.
  - intros [H0 H] [|m] x Hm.
    + cbn in Hm. injection Hm as <-. now rewrite Nat.add_0_r.
    + cbn in Hm. rewrite Nat.add_succ_r. now apply H.
Qed.

(** What the receive interrupt leaves in the buffer. *)
Lemma receive_spec (bytes : list ascii) :
  forall r : rx_state,
    length (rxd r) = RX_BUF_SZ -> (rxd_ptr r < RX_BUF_SZ)%nat ->
    (length bytes < RX_BUF_SZ)%nat ->
    0 <= rxd_stat r -> rxd_stat r + Z.of_nat (length bytes) <= 127 ->
    let r' := receive bytes r in
    length (rxd r') = RX_BUF_SZ /\
    rxd_ptr r' = ring_idx (rxd_ptr r) (length bytes) /\
    rxd_read r' = rxd_read r /\
    rxd_stat r' = rxd_stat r + Z.of_nat (counted bytes) /\
    ring_holds (rxd_ptr r) (rxd r') 0 bytes /\
    (bytes <> [] -> nth (rxd_ptr r') (rxd r') NUL = NUL) /\
    (forall q, (forall m, (m <= length bytes)%nat -> q <> ring_idx (rxd_ptr r) m) ->
               nth q (rxd r') NUL = nth q (rxd r) NUL).
Proof.
  induction bytes as [|b bytes IH]; intros r Hlen Hp Hn Hs0 Hs; cbv zeta.
  - cbn. rewrite ring_idx_0 by exact Hp. rewrite Z.add_0_r.
    repeat split; auto; try (intros m c Hm; discriminate). intros H; contradiction.
  - cbn [length] in *. unfold receive. cbn [foldl]. fold (receive bytes (ISR_USART0_RX b r)).
    set (r1 := ISR_USART0_RX b r).
    assert (Hp1 : rxd_ptr r1 = ring_idx (rxd_ptr r) 1).
    { cbn. rewrite <- (wrap_ring_idx _ 0) by (unfold RX_BUF_SZ in *; lia).
      now rewrite ring_idx_0. }
    assert (Hneq : rxd_ptr r <> ring_idx (rxd_ptr r) 1).
    { intros E. rewrite <- (ring_idx_0 (rxd_ptr r)) in E at 1 by exact Hp.
      apply ring_idx_inj in E; unfold RX_BUF_SZ in *; lia. }
    assert (Hp1' : (ring_idx (rxd_ptr r) 1 < RX_BUF_SZ)%nat)
      by (apply ring_idx_lt; unfold RX_BUF_SZ in *; lia).
    assert (Hlen1 : length (rxd r1) = RX_BUF_SZ).
    { cbn. rewrite !length_insert. exact Hlen. }
    assert (Hb1 : nth (rxd_ptr r) (rxd r1) NUL = b).
    { cbn [r1 ISR_USART0_RX rxd]. fold (ring_idx (rxd_ptr r) 1).
      change (serial_fifo_wrap (S (rxd_ptr r))) with (rxd_ptr r1). rewrite Hp1.
      rewrite nth_insert_ne by auto. apply nth_insert_eq. lia. }
    assert (Hnul1 : nth (rxd_ptr r1) (rxd r1) NUL = NUL).
    { cbn [r1 ISR_USART0_RX rxd rxd_ptr]. apply nth_insert_eq.
      rewrite length_insert.
      change (serial_fifo_wrap (S (rxd_ptr r))) with (rxd_ptr r1). rewrite Hp1. lia. }
    assert (Hoth1 : forall q, q <> rxd_ptr r -> q <> ring_idx (rxd_ptr r) 1 ->
                              nth q (rxd r1) NUL = nth q (rxd r) NUL).
    { intros q H0 H1. cbn [r1 ISR_USART0_RX rxd].
      change (serial_fifo_wrap (S (rxd_ptr r))) with (rxd_ptr r1). rewrite Hp1.
      rewrite !nth_insert_ne by auto. reflexivity. }
    assert (Hs1 : rxd_stat r1
                  = rxd_stat r + Z.of_nat (counted [b])).
    { cbn [r1 ISR_USART0_RX rxd_stat]. unfold counted. cbn [List.filter].
      destruct (Ascii.eqb b LF || Ascii.eqb b ";"); cbn [length].
      - unfold sint8. rewrite Z.mod_small by lia. lia.
      - lia. }
    assert (Hc1 : (counted [b] <= 1)%nat).
    { unfold counted. cbn [List.filter]. destruct (_ || _); cbn; lia. }
    destruct (IH r1 Hlen1 ltac:(rewrite Hp1; exact Hp1') ltac:(lia) ltac:(lia) ltac:(lia))
      as (Il & Ip & Ir & Is & Ih & In & Io). cbv zeta in *.
    split; [exact Il|]. split.
    { rewrite Ip, Hp1. apply ring_idx_shift; unfold RX_BUF_SZ in *; lia. }
    split; [rewrite Ir; reflexivity|]. split.
    { rewrite Is, Hs1. unfold counted. cbn [List.filter].
      destruct (_ || _); cbn [length]; lia. }
    split.
    { apply ring_holds_cons. split.
      - rewrite ring_idx_0 by exact Hp. rewrite Io; [exact Hb1|].
        intros m Hm. rewrite Hp1, ring_idx_shift by (unfold RX_BUF_SZ in *; lia).
        rewrite <- (ring_idx_0 (rxd_ptr r)) at 1 by exact Hp.
        intros E. apply ring_idx_inj in E; unfold RX_BUF_SZ in *; lia.
      - intros m c Hm. specialize (Ih m c Hm). rewrite Hp1 in Ih.
        rewrite Nat.add_0_l in Ih. rewrite ring_idx_shift in Ih; [exact Ih|exact Hp|].
        apply lookup_lt_Some in Hm. unfold RX_BUF_SZ in *. lia. }
    split.
    { intros _. destruct bytes as [|b' bytes'].
      - exact Hnul1.
      - apply In. discriminate. }
    intros q Hq. rewrite Io.
    + apply Hoth1.
      * specialize (Hq 0%nat ltac:(lia)). now rewrite ring_idx_0 in Hq by exact Hp.
      * apply Hq. lia.
    + intros m Hm. rewrite Hp1, ring_idx_shift by (unfold RX_BUF_SZ in *; lia).
      apply Hq. lia.
Qed.

(** *** The decoder loop, branch by branch *)

Lemma is_terminator_not_space (c : ascii) : is_terminator c = true -> Ascii.eqb c " " = false.
Proof.
  unfold is_terminator. intros H. destruct (Ascii.eqb_spec c " ") as [->|]; [|reflexivity].
  discriminate.
Qed.

Lemma put_app (c x : ascii) (pre rest : list ascii) (pa : option nat) (q : nat) (e : bool)
    (n : Z) :
  put c (mk_dec (pre ++ x :: rest) (length pre) pa q e n)
  = Some (mk_dec ((pre ++ [c]) ++ rest) (length (pre ++ [c])) pa q e n).
Proof.
  unfold put. cbn [com cbuf par ptr is_end count].
  destruct (Nat.ltb_spec (length pre) (length (pre ++ x :: rest))) as [H|H];
    [|rewrite length_app in H; cbn [length] in H; lia].
  assert (E1 : <[length pre := c]> (pre ++ x :: rest) = (pre ++ [c]) ++ rest).
  { rewrite <- (Nat.add_0_r (length pre)) at 1. rewrite insert_app_r. cbn.
    now rewrite <- app_assoc. }
  assert (E2 : length (pre ++ [c]) = S (length pre)).
  { rewrite length_app. cbn. lia. }
  rewrite E1, E2. reflexivity.
Qed.

Lemma step_copy (f : nat) (buf : list ascii) (c x : ascii) (pre rest : list ascii)
    (pa : option nat) (q : nat) (n : Z) :
  nth q buf NUL = c -> is_terminator c = false ->
  (Ascii.eqb c " " = true -> pa <> None) ->
  decode_loop (S f) buf (mk_dec (pre ++ x :: rest) (length pre) pa q false n)
  = decode_loop f buf (mk_dec ((pre ++ [c]) ++ rest) (length (pre ++ [c])) pa
                              (serial_fifo_wrap (S q)) false n).
Proof.
  intros Hc Ht Hsp. cbn [decode_loop ptr par is_end]. rewrite Hc.
  assert (H1 : Ascii.eqb c " " && match pa with None => true | Some _ => false end = false).
  { destruct (Ascii.eqb c " "); [|reflexivity]. destruct pa; [reflexivity|].
    now destruct (Hsp eq_refl). }
  rewrite H1. unfold is_terminator in Ht. rewrite Ht. rewrite put_app. reflexivity.
Qed.

Lemma step_first_terminator (f : nat) (buf : list ascii) (c x : ascii)
    (pre rest : list ascii) (pa : option nat) (q : nat) :
  nth q buf NUL = c -> is_terminator c = true ->
  decode_loop (S f) buf (mk_dec (pre ++ x :: rest) (length pre) pa q false 0)
  = decode_loop f buf (mk_dec ((pre ++ [NUL]) ++ rest) (length (pre ++ [NUL])) pa
                              (serial_fifo_wrap (S q)) true (Z.of_nat (counted [c]))).
Proof.
  intros Hc Ht. cbn [decode_loop ptr par is_end]. rewrite Hc.
  rewrite (is_terminator_not_space c Ht). cbn [andb].
  pose proof Ht as Ht'. unfold is_terminator in Ht'. rewrite Ht'.
  assert (Hcnt : Z.of_nat (counted [c]) = if negb (Ascii.eqb c CR) then 1 else 0).
  { unfold counted. cbn [List.filter].
    destruct (Ascii.eqb_spec c CR) as [->|Hcr]; [reflexivity|].
    destruct (Ascii.eqb c ";"), (Ascii.eqb c LF); cbn in *; try reflexivity; discriminate. }
  rewrite Hcnt.
  destruct (Ascii.eqb c CR); cbn [negb is_end cbuf com par ptr count];
    rewrite put_app; reflexivity.
Qed.

Lemma step_next_terminator (f : nat) (buf : list ascii) (c : ascii) (cb : list ascii)
    (cm : nat) (pa : option nat) (q : nat) (n : Z) :
  nth q buf NUL = c -> is_terminator c = true -> 0 <= n < 127 ->
  decode_loop (S f) buf (mk_dec cb cm pa q true n)
  = decode_loop f buf (mk_dec cb cm pa (serial_fifo_wrap (S q)) true
                              (n + Z.of_nat (counted [c]))).
Proof.
  intros Hc Ht Hn. cbn [decode_loop ptr par is_end]. rewrite Hc.
  rewrite (is_terminator_not_space c Ht). cbn [andb].
  pose proof Ht as Ht'. unfold is_terminator in Ht'. rewrite Ht'.
  assert (Hcnt : Z.of_nat (counted [c]) = if negb (Ascii.eqb c CR) then 1 else 0).
  { unfold counted. cbn [List.filter].
    destruct (Ascii.eqb_spec c CR) as [->|Hcr]; [reflexivity|].
    destruct (Ascii.eqb c ";"), (Ascii.eqb c LF); cbn in *; try reflexivity; discriminate. }
  rewrite Hcnt.
  destruct (Ascii.eqb c CR); cbn [negb is_end cbuf com par ptr count].
  - now rewrite Z.add_0_r.
  - unfold sint8. rewrite Z.mod_small by lia. do 2 f_equal. lia.
Qed.

Lemma step_break (f : nat) (buf : list ascii) (c : ascii) (d : dec_state) :
  nth (ptr d) buf NUL = c -> Ascii.eqb c " " = false -> is_terminator c = false ->
  is_end d = true -> decode_loop (S f) buf d = Some d.
Proof.
  intros Hc Hs Ht He. cbn [decode_loop]. rewrite Hc, Hs, He.
  unfold is_terminator in Ht. rewrite Ht. reflexivity.
Qed.

Lemma skip_spaces_spec (p : nat) (buf : list ascii) (c : ascii) (k : nat) :
  (p < RX_BUF_SZ)%nat -> Ascii.eqb c " " = false ->
  forall (i f : nat),
    ring_holds p buf i (repeat " "%char k ++ [c]) -> (i + k < RX_BUF_SZ)%nat ->
    skip_spaces (k + S f) buf (ring_idx p i) = Some (ring_idx p (i + k)).
Proof.
  intros Hp Hc. induction k as [|k IH]; intros i f Hh Hi.
  - cbn [repeat app] in Hh. apply ring_holds_cons in Hh as [H0 _].
    cbn [Nat.add skip_spaces]. rewrite H0, Hc, Nat.add_0_r. reflexivity.
  - cbn [repeat app] in Hh. apply ring_holds_cons in Hh as [H0 Hh].
    cbn [Nat.add skip_spaces]. rewrite H0. cbn [Ascii.eqb Bool.eqb andb].
    rewrite wrap_ring_idx by (try exact Hp; lia).
    rewrite (IH (S i) f Hh) by lia. f_equal. f_equal. lia.
Qed.

Lemma step_space (f : nat) (buf : list ascii) (p i k : nat) (c x : ascii)
    (pre rest : list ascii) (n : Z) (e : bool) :
  (p < RX_BUF_SZ)%nat -> Ascii.eqb c " " = false ->
  ring_holds p buf i (repeat " "%char (S k) ++ [c]) -> (i + S k < RX_BUF_SZ)%nat ->
  decode_loop (S (S k + S f)) buf (mk_dec (pre ++ x :: rest) (length pre) None (ring_idx p i) e n)
  = decode_loop (S k + S f) buf
      (mk_dec ((pre ++ [NUL]) ++ rest) (length (pre ++ [NUL]))
              (Some (length (pre ++ [NUL]))) (ring_idx p (i + S k)) e n).
Proof.
  intros Hp Hc Hh Hi.
  pose proof Hh as Hh'. cbn [repeat app] in Hh'. apply ring_holds_cons in Hh' as [H0 _].
  cbn [decode_loop ptr par]. rewrite H0. cbn [Ascii.eqb Bool.eqb andb].
  rewrite put_app. cbn [cbuf com par ptr is_end count].
  rewrite (skip_spaces_spec p buf c (S k) Hp Hc i f Hh Hi). reflexivity.
Qed.

(** Copying a run of characters that are neither terminators nor, before
    the parameter has started, spaces. *)
Lemma copy_phase (p : nat) (buf : list ascii) (pa : option nat) (f : nat) (n : Z) :
  (p < RX_BUF_SZ)%nat ->
  forall (chars pre rest : list ascii) (i : nat),
    ring_holds p buf i chars -> (i + length chars < RX_BUF_SZ)%nat ->
    (length chars <= length rest)%nat ->
    Forall (fun c => is_terminator c = false /\ (Ascii.eqb c " " = true -> pa <> None)) chars ->
    decode_loop (length chars + f) buf (mk_dec (pre ++ rest) (length pre) pa (ring_idx p i) false n)
    = decode_loop f buf
        (mk_dec ((pre ++ chars) ++ drop (length chars) rest) (length (pre ++ chars)) pa
                (ring_idx p (i + length chars)) false n).
Proof.
  intros Hp chars. induction chars as [|c chars IH]; intros pre rest i Hh Hi Hr Hall.
  - cbn [length Nat.add drop]. rewrite !app_nil_r, Nat.add_0_r. reflexivity.
  - apply ring_holds_cons in Hh as [H0 Hh]. apply Forall_cons in Hall as [[Ht Hsp] Hall].
    destruct rest as [|x rest]; [cbn in Hr; lia|]. cbn [length] in *.
    cbn [Nat.add]. rewrite (step_copy _ buf c x pre rest pa _ n H0 Ht Hsp).
    rewrite wrap_ring_idx by (try exact Hp; lia).
    rewrite (IH (pre ++ [c]) rest (S i) Hh ltac:(lia) ltac:(lia) Hall).
    cbn [drop]. rewrite <- !app_assoc. cbn [app].
    do 2 f_equal. f_equal. lia.
Qed.

(** The terminators after the first one. *)
Lemma terminator_phase (p : nat) (buf : list ascii) (cb : list ascii) (cm : nat)
    (pa : option nat) (f : nat) :
  (p < RX_BUF_SZ)%nat ->
  forall (tl : list ascii) (i : nat) (n : Z),
    ring_holds p buf i tl -> (i + length tl < RX_BUF_SZ)%nat ->
    Forall (fun c => is_terminator c = true) tl ->
    0 <= n -> n + Z.of_nat (length tl) <= 127 ->
    decode_loop (length tl + f) buf (mk_dec cb cm pa (ring_idx p i) true n)
    = decode_loop f buf (mk_dec cb cm pa (ring_idx p (i + length tl)) true
                                (n + Z.of_nat (counted tl))).
Proof.
  intros Hp tl. induction tl as [|c tl IH]; intros i n Hh Hi Hall Hn0 Hn.
  - cbn [length Nat.add]. rewrite Nat.add_0_r. unfold counted. cbn. now rewrite Z.add_0_r.
  - apply ring_holds_cons in Hh as [H0 Hh]. apply Forall_cons in Hall as [Ht Hall].
    cbn [length] in *. cbn [Nat.add].
    rewrite (step_next_terminator _ buf c cb cm pa _ n H0 Ht ltac:(lia)).
    rewrite wrap_ring_idx by (try exact Hp; lia).
    assert (Hc1 : (counted [c] <= 1)%nat).
    { unfold counted. cbn [List.filter]. destruct (_ || _); cbn; lia. }
    rewrite (IH (S i) (n + Z.of_nat (counted [c])) Hh ltac:(lia) Hall ltac:(lia) ltac:(lia)).
    do 2 f_equal; [f_equal; lia|].
    unfold counted. cbn [List.filter]. destruct (_ || _); cbn [length]; lia.
Qed.

Lemma counted_app (a b : list ascii) : counted (a ++ b) = (counted a + counted b)%nat.
Proof. unfold counted. now rewrite List.filter_app, length_app. Qed.

Lemma counted_le (a : list ascii) : (counted a <= length a)%nat.
Proof. unfold counted. apply List.filter_length_le. Qed.

Lemma counted_none (a : list ascii) :
  Forall (fun c => is_terminator c = false) a -> counted a = 0%nat.
Proof.
  induction 1 as [|c a Hc _ IH]; [reflexivity|].
  change (c :: a) with ([c] ++ a). rewrite counted_app, IH.
  unfold counted, is_terminator in *. cbn [List.filter].
  destruct (Ascii.eqb c ";"), (Ascii.eqb c LF); cbn in *; try reflexivity; discriminate.
Qed.

(** From the first terminator to the [break]. *)
Lemma tail_phase (p : nat) (buf : list ascii) (pa : option nat) (f : nat)
    (pre rest : list ascii) (x : ascii) (i : nat) (tl : list ascii) (nxt : ascii) :
  (p < RX_BUF_SZ)%nat ->
  Ascii.eqb nxt " " = false -> is_terminator nxt = false ->
  ring_holds p buf i (tl ++ [nxt]) -> (i + length tl < RX_BUF_SZ)%nat ->
  tl <> [] -> Forall (fun c => is_terminator c = true) tl ->
  decode_loop (length tl + S f) buf (mk_dec (pre ++ x :: rest) (length pre) pa (ring_idx p i) false 0)
  = Some (mk_dec ((pre ++ [NUL]) ++ rest) (length (pre ++ [NUL])) pa
                 (ring_idx p (i + length tl)) true (Z.of_nat (counted tl))).
Proof.
  intros Hp Hns Hnt Hh Hi Hne Hall. destruct tl as [|t tl]; [contradiction|].
  apply ring_holds_app in Hh as [Hh Hnul]. apply ring_holds_cons in Hh as [H0 Hh].
  apply Forall_cons in Hall as [Ht Hall]. cbn [length] in *. cbn [Nat.add].
  rewrite (step_first_terminator _ buf t x pre rest pa _ H0 Ht).
  rewrite wrap_ring_idx by (try exact Hp; lia).
  assert (Hc1 : (counted [t] <= 1)%nat).
  { unfold counted. cbn [List.filter]. destruct (_ || _); cbn; lia. }
  rewrite (terminator_phase p buf _ _ pa (S f) Hp tl (S i) (Z.of_nat (counted [t])) Hh
             ltac:(lia) Hall ltac:(lia) ltac:(unfold RX_BUF_SZ in *; lia)).
  apply ring_holds_cons in Hnul as [Hnul _].
  rewrite (step_break _ buf nxt).
  - do 2 f_equal; [f_equal; lia|].
    change (t :: tl) with ([t] ++ tl). rewrite counted_app. lia.
  - cbn [ptr]. replace (S i + length tl)%nat with (i + S (length tl))%nat by lia. exact Hnul.
  - exact Hns.
  - exact Hnt.
  - reflexivity.
Qed.

Lemma drop_cons_of_lt {A} (l : list A) (n : nat) :
  (n < length l)%nat -> exists x r, drop n l = x :: r /\ length r = (length l - S n)%nat.
Proof.
  intros Hn. destruct (lookup_lt_is_Some_2 l n Hn) as [x Hx].
  exists x, (drop (S n) l). split; [now apply drop_S|].
  rewrite length_drop. reflexivity.
Qed.

(** The decoder loop on a buffer that holds one command line. *)
Lemma decode_line (p : nat) (buf : list ascii) (cmd : list ascii)
    (param : option (nat * list ascii)) (tl : list ascii) (rest0 : list ascii) (fuel : nat)
    (nxt : ascii) :
  (p < RX_BUF_SZ)%nat ->
  Ascii.eqb nxt " " = false -> is_terminator nxt = false ->
  ring_holds p buf 0 (command_line cmd param tl ++ [nxt]) ->
  forallb is_word_char cmd = true ->
  match param with
  | None => True
  | Some (_, arg) => forallb is_par_char arg = true /\ head arg <> Some " "%char
  end ->
  forallb is_terminator tl = true -> tl <> [] ->
  (length (command_line cmd param tl) < RX_BUF_SZ)%nat ->
  S (length rest0) = RX_BUF_SZ ->
  (length (command_line cmd param tl) + 2 <= fuel)%nat ->
  exists rest',
    decode_loop fuel buf (mk_dec (NUL :: rest0) 0 None p false 0)
    = Some (mk_dec (decoded cmd param ++ rest') (length (decoded cmd param))
                   match param with None => None | Some _ => Some (S (length cmd)) end
                   (ring_idx p (length (command_line cmd param tl))) true
                   (Z.of_nat (counted tl))) /\
    length (decoded cmd param ++ rest') = S (length rest0).
Proof.
  intros Hp Hns Hnt Hh Hcmd Hpar Htl Hne Hlen Hrest Hfuel.
  assert (Fcmd : Forall (fun c => is_terminator c = false /\
                                  (Ascii.eqb c " " = true -> @None nat <> None)) cmd).
  { apply Forall_forall. intros c Hc.
    rewrite forallb_forall in Hcmd. specialize (Hcmd c ltac:(now apply list_elem_of_In)).
    unfold is_word_char in Hcmd. apply negb_true_iff in Hcmd.
    apply orb_false_iff in Hcmd as [Hcmd _]. apply orb_false_iff in Hcmd as [Hs Ht].
    split; [exact Ht|]. intros E. rewrite E in Hs. discriminate. }
  assert (Ftl : Forall (fun c => is_terminator c = true) tl).
  { apply Forall_forall. intros c Hc. rewrite forallb_forall in Htl.
    apply Htl. now apply list_elem_of_In. }
  unfold command_line in *.
  apply ring_holds_app in Hh as [Hh Hnul]. apply ring_holds_app in Hh as [Hc Hh].
  cbn [Nat.add] in Hh, Hnul. rewrite !length_app in *.
  replace (mk_dec (NUL :: rest0) 0 None p false 0)
    with (mk_dec ([] ++ NUL :: rest0) (length (@nil ascii)) None (ring_idx p 0) false 0)
    by (rewrite ring_idx_0 by exact Hp; reflexivity).
  replace fuel with (length cmd + (fuel - length cmd))%nat by lia.
  rewrite (copy_phase p buf None _ 0 Hp cmd [] (NUL :: rest0) 0 Hc ltac:(lia)
             ltac:(cbn [length]; unfold RX_BUF_SZ in *; lia) Fcmd).
  cbn [app Nat.add].
  destruct (drop_cons_of_lt (NUL :: rest0) (length cmd)
              ltac:(cbn [length]; unfold RX_BUF_SZ in *; lia)) as (x & rest1 & Ed & Hl1).
  rewrite Ed. cbn [length] in Hl1.
  destruct param as [[k arg]|].
  - destruct Hpar as [Harg Hhead].
    assert (Farg : forall n : nat, Forall (fun c => is_terminator c = false /\
                            (Ascii.eqb c " " = true -> Some n <> None)) arg).
    { intros n. apply Forall_forall. intros c Hc'. rewrite forallb_forall in Harg.
      specialize (Harg c ltac:(now apply list_elem_of_In)).
      unfold is_par_char in Harg. apply negb_true_iff in Harg. split; [exact Harg|discriminate]. }
    rewrite length_app, repeat_length in *.
    apply ring_holds_app in Hh as [Hmid Ht]. apply ring_holds_app in Hmid as [Hsp Ha].
    rewrite ?length_app, ?repeat_length in *.
    (* the character after the spaces *)
    assert (Hnext : exists c, Ascii.eqb c " " = false /\
                      ring_holds p buf (length cmd) (repeat " "%char (S k) ++ [c])).
    { destruct arg as [|a arg'].
      - destruct tl as [|t tl']; [contradiction|]. exists t. split.
        + apply is_terminator_not_space. now apply Forall_cons in Ftl as [? _].
        + apply ring_holds_app. split; [exact Hsp|]. rewrite repeat_length.
          apply ring_holds_cons in Ht as [Ht _]. cbn [length] in Ht. rewrite Nat.add_0_r in Ht.
          apply ring_holds_cons. split; [exact Ht|]. intros m c Hm. discriminate.
      - exists a. split.
        + destruct (Ascii.eqb_spec a " ") as [->|]; [|reflexivity].
          now destruct Hhead.
        + apply ring_holds_app. split; [exact Hsp|]. rewrite repeat_length.
          apply ring_holds_cons in Ha as [Ha _].
          apply ring_holds_cons. split; [exact Ha|]. intros m c Hm. discriminate. }
    destruct Hnext as (c & Hcs & Hring).
    replace (fuel - length cmd)%nat
      with (S (S k + S (fuel - length cmd - S k - 2)))%nat by lia.
    rewrite (step_space _ buf p (length cmd) k c x cmd rest1 0 false Hp Hcs Hring ltac:(lia)).
    replace (S k + S (fuel - length cmd - S k - 2))%nat
      with (length arg + (fuel - length cmd - 1 - length arg))%nat by lia.
    destruct (Nat.le_gt_cases (length arg) (length rest1)) as [Hfit|Hfit];
      [|unfold RX_BUF_SZ in *; lia].
    assert (Hl2 : length (cmd ++ [NUL]) = S (length cmd)) by (rewrite length_app; cbn; lia).
    rewrite (copy_phase p buf (Some (length (cmd ++ [NUL]))) _ 0 Hp arg (cmd ++ [NUL]) rest1
               (length cmd + S k) Ha ltac:(lia) Hfit (Farg _)).
    destruct (drop_cons_of_lt rest1 (length arg) ltac:(unfold RX_BUF_SZ in *; lia))
      as (y & rest2 & Ed2 & Hl3).
    rewrite Ed2.
    replace (fuel - length cmd - 1 - length arg)%nat
      with (length tl + S (fuel - length cmd - 1 - length arg - length tl - 1))%nat by lia.
    rewrite (tail_phase p buf _ _ ((cmd ++ [NUL]) ++ arg) rest2 y _ tl nxt Hp Hns Hnt).
    + exists rest2. unfold decoded. rewrite Hl2. split.
      * f_equal. f_equal.
        -- rewrite <- !app_assoc. reflexivity.
        -- rewrite !length_app. cbn [length]. lia.
        -- f_equal. lia.
      * rewrite !length_app. cbn [length]. unfold RX_BUF_SZ in *. lia.
    + apply ring_holds_app. split.
      * replace (length cmd + S k + length arg)%nat
          with (length cmd + (S k + length arg))%nat by lia. exact Ht.
      * replace (length cmd + S k + length arg + length tl)%nat
          with (length cmd + (S k + length arg + length tl))%nat by lia. exact Hnul.
    + lia.
    + exact Hne.
    + exact Ftl.
  - cbn [app length Nat.add] in *.
    replace (fuel - length cmd)%nat
      with (length tl + S (fuel - length cmd - length tl - 1))%nat by lia.
    rewrite (tail_phase p buf _ _ cmd rest1 x _ tl nxt Hp Hns Hnt).
    + exists rest1. unfold decoded. cbn [app]. split; [reflexivity|].
      rewrite !length_app. cbn [length]. unfold RX_BUF_SZ in *. lia.
    + apply ring_holds_app. split; [exact Hh | exact Hnul].
    + lia.
    + exact Hne.
    + exact Ftl.
Qed.

(** A command line received into an idle receiver and then decoded.  The
    line is a command word (no space, terminator or NUL in it), optionally
    one or more spaces and a parameter (no terminator in it, not starting
    with a space), and one or more of the terminators [;], LF and CR, at
    least one of them [;] or LF; all of it at most 127 bytes.  Wherever the
    write pointer stands in the ring, [serial_decode] returns 1, leaves the
    word and the parameter as two NUL-terminated strings at the start of the
    command buffer, points [par] behind the first NUL (or leaves it null when
    there is no parameter), and the receiver is idle again, at the position
    behind the line.  As long as no terminator has arrived, [serial_decode]
    returns 0 and touches nothing. *)
Theorem received_command_is_decoded (cmd : list ascii) (param : option (nat * list ascii))
    (tl : list ascii) (r : rx_state) (cbuf0 : list ascii) (par0 : option nat) (fuel : nat) :
  rx_idle r ->
  cmd <> [] -> forallb is_word_char cmd = true ->
  match param with
  | None => True
  | Some (_, arg) => forallb is_par_char arg = true /\ head arg <> Some " "%char
  end ->
  forallb is_terminator tl = true -> (1 <= counted tl)%nat ->
  (length (command_line cmd param tl) < RX_BUF_SZ)%nat ->
  length cbuf0 = RX_BUF_SZ ->
  (length (command_line cmd param tl) + 2 <= fuel)%nat ->
  let r1 := receive (command_line cmd param tl) r in
  let r0 := receive (command_line cmd param []) r in
  serial_decode fuel cbuf0 par0 r0 = Some (0, cbuf0, par0, r0) /\
  exists cb r2,
    serial_decode fuel cbuf0 par0 r1
    = Some (1, cb, match param with None => None | Some _ => Some (S (length cmd)) end, r2) /\
    take (length (decoded cmd param)) cb = decoded cmd param /\
    rx_idle r2 /\
    rxd_ptr r2 = ring_idx (rxd_ptr r) (length (command_line cmd param tl)) /\
    rxd r2 = rxd r1.
Proof.
  intros (Hl & Hp & Hrd & Hst) Hne Hcmd Hpar Htl Hcnt Hlen Hcb Hfuel r1 r0.
  assert (Fcmd : Forall (fun c => is_terminator c = false) cmd).
  { apply Forall_forall. intros c Hc. rewrite forallb_forall in Hcmd.
    specialize (Hcmd c ltac:(now apply list_elem_of_In)).
    unfold is_word_char in Hcmd. apply negb_true_iff in Hcmd.
    apply orb_false_iff in Hcmd as [Hcmd _]. now apply orb_false_iff in Hcmd as [_ Ht]. }
  assert (Fmid : Forall (fun c => is_terminator c = false)
                   match param with
                   | None => []
                   | Some (k, arg) => repeat " "%char (S k) ++ arg
                   end).
  { destruct param as [[k arg]|]; [|constructor]. destruct Hpar as [Harg _].
    apply Forall_app. split.
    - apply Forall_forall. intros c Hc. apply list_elem_of_In, repeat_spec in Hc.
      subst c. reflexivity.
    - apply Forall_forall. intros c Hc. rewrite forallb_forall in Harg.
      specialize (Harg c ltac:(now apply list_elem_of_In)).
      unfold is_par_char in Harg. now apply negb_true_iff in Harg. }
  assert (Hc0 : counted (command_line cmd param []) = 0%nat).
  { unfold command_line. rewrite app_nil_r. apply counted_none.
    apply Forall_app. split; assumption. }
  assert (Hc1 : counted (command_line cmd param tl) = counted tl).
  { unfold command_line in *. rewrite app_nil_r in Hc0.
    rewrite app_assoc, counted_app, Hc0. reflexivity. }
  assert (Hlen0 : (length (command_line cmd param []) <= length (command_line cmd param tl))%nat).
  { unfold command_line. rewrite !length_app. cbn [length]. lia. }
  split.
  - destruct (receive_spec (command_line cmd param []) r Hl Hp ltac:(lia) ltac:(lia)
                ltac:(unfold RX_BUF_SZ in *; lia)) as (_ & _ & _ & Hs & _).
    cbv zeta in Hs. fold r0 in Hs. unfold serial_decode. rewrite Hs, Hst, Hc0. reflexivity.
  - destruct (receive_spec (command_line cmd param tl) r Hl Hp Hlen ltac:(lia)
                ltac:(unfold RX_BUF_SZ in *; lia)) as (Hl1 & Hp1 & Hrd1 & Hs1 & Hh & Hnul & _).
    cbv zeta in *. fold r1 in Hl1, Hp1, Hrd1, Hs1, Hh, Hnul.
    assert (Hline : command_line cmd param tl <> []).
    { unfold command_line. destruct cmd; [contradiction | discriminate]. }
    specialize (Hnul Hline). rewrite Hp1 in Hnul.
    destruct cbuf0 as [|x0 rest0]; [discriminate|]. cbn [length] in Hcb.
    assert (Htl' : tl <> []) by (intros ->; cbn in Hcnt; lia).
    destruct (decode_line (rxd_ptr r) (rxd r1) cmd param tl rest0 fuel NUL Hp eq_refl eq_refl)
      as (rest' & Hd & _); try assumption.
    { apply ring_holds_app. split; [exact Hh|].
      apply ring_holds_cons. split; [exact Hnul|]. intros m c Hm. discriminate. }
    unfold serial_decode. rewrite Hs1, Hst, Hc1.
    destruct (Z.ltb_spec (0 + Z.of_nat (counted tl)) 1) as [Hlt|_]; [lia|].
    unfold put. cbn [com cbuf length Nat.ltb Nat.leb par ptr is_end count].
    cbn [insert list_insert]. rewrite Hrd1, Hrd, Hd.
    cbn [cbuf par ptr count].
    assert (Hhead : Ascii.eqb (nth 0 (decoded cmd param ++ rest') NUL) NUL = false).
    { destruct cmd as [|c0 cmd']; [contradiction|]. cbn.
      cbn [forallb] in Hcmd. apply andb_prop in Hcmd as [Hc0' _].
      unfold is_word_char in Hc0'. apply negb_true_iff in Hc0'.
      now apply orb_false_iff in Hc0' as [_ Hn]. }
    rewrite Hhead.
    eexists. eexists. split; [reflexivity|]. split.
    { rewrite take_app_length. reflexivity. }
    split.
    { unfold rx_idle. cbn [rxd rxd_ptr rxd_read rxd_stat].
      split; [exact Hl1|]. split.
      - rewrite Hp1. apply ring_idx_lt; [exact Hp | unfold RX_BUF_SZ in *; lia].
      - split; [now rewrite Hp1|]. rewrite Z.add_0_l, Z.sub_diag. reflexivity. }
    split; [exact Hp1 | reflexivity].
Qed.

Lemma received_command_is_decoded_witness :
  exists cb r2,
    serial_decode 20 (repeat "x"%char RX_BUF_SZ) None
                  (receive (command_line sync_2_cmd sync_2_param sync_2_end) rx_example)
    = Some (1, cb, Some 9%nat, r2) /\
    take 11 cb = list_ascii_of_string "TFA:SYNC" ++ [NUL] ++ ["2"%char] ++ [NUL] /\
    rxd_read r2 = 12%nat.
Proof.
  destruct (received_command_is_decoded sync_2_cmd sync_2_param sync_2_end rx_example
              (repeat "x"%char RX_BUF_SZ) None 20)
    as (_ & cb & r2 & Hd & Ht & Hi & Hp & _).
  - repeat split; vm_compute; lia.
  - discriminate.
  - reflexivity.
  - split; [reflexivity | discriminate].
  - reflexivity.
  - vm_compute. lia.
  - vm_compute. lia.
  - reflexivity.
  - vm_compute. lia.
  - exists cb, r2. split; [exact Hd|]. split; [exact Ht|].
    destruct Hi as (_ & _ & -> & _). rewrite Hp. reflexivity.
Defined.

(** * The packet LED *)

Lemma isr_decode_led (F : Z) (s : isr_state) :
  (PORTD (isr_decode F s) = PORTD s /\ led_delay (isr_decode F s) = led_delay s) \/
  (classify F (tfa_timer s) = Gap /\ 3 <= tfa_buf_packet s <= TFA_PACKETS /\
   PORTD (isr_decode F s) = sbi (PORTD s) LED_PACKET /\ led_delay (isr_decode F s) = 0).
Proof.
  rewrite isr_decode_framer. destruct (classify F (tfa_timer s)) eqn:E; unfold framer.
  - left. split; reflexivity.
  - left. unfold on_stop.
    repeat match goal with |- context [if ?b then _ else _] => destruct b end;
      split; reflexivity.
  - unfold on_gap.
    destruct (Z.leb_spec 3 (tfa_buf_packet s)); destruct (Z.leb_spec (tfa_buf_packet s) TFA_PACKETS);
      cbn [andb]; [right | left | left | left]; repeat split; auto.
  - left. unfold on_start.
    repeat match goal with |- context [if ?b then _ else _] => destruct b end;
      split; reflexivity.
  - left. unfold on_data.
    repeat match goal with |- context [if ?b then _ else _] => destruct b end;
      split; reflexivity.
Qed.

Lemma isr_decode_publish_led (F : Z) (s : isr_state) :
  classify F (tfa_timer s) = Gap -> 3 <= tfa_buf_packet s <= TFA_PACKETS ->
  PORTD (isr_decode F s) = sbi (PORTD s) LED_PACKET /\ led_delay (isr_decode F s) = 0.
Proof.
  intros Hgap Hidx. rewrite isr_decode_framer, Hgap. unfold framer, on_gap.
  destruct (Z.leb_spec 3 (tfa_buf_packet s)); [|lia].
  destruct (Z.leb_spec (tfa_buf_packet s) TFA_PACKETS); [|lia].
  split; reflexivity.
Qed.

Lemma testbit_sbi_other (x j : Z) :
  0 <= j -> j <> LED_PACKET -> Z.testbit (sbi x LED_PACKET) j = Z.testbit x j.
Proof.
  intros Hj Hne. unfold sbi. rewrite Z.lor_spec, Z.shiftl_1_l, Z.pow2_bits_eqb by (unfold LED_PACKET; lia).
  destruct (Z.eqb_spec LED_PACKET j); [congruence | apply orb_false_r].
Qed.

Lemma testbit_cbi_other (x j : Z) :
  0 <= j < 8 -> j <> LED_PACKET -> Z.testbit (cbi x LED_PACKET) j = Z.testbit x j.
Proof.
  intros Hj Hne. unfold cbi. rewrite testbit_uint8 by exact Hj.
  rewrite Z.land_spec, Z.lnot_spec, Z.shiftl_1_l, Z.pow2_bits_eqb by (unfold LED_PACKET; lia).
  destruct (Z.eqb_spec LED_PACKET j); [congruence | apply andb_true_r].
Qed.

Lemma testbit_cbi_same (x : Z) : Z.testbit (cbi x LED_PACKET) LED_PACKET = false.
Proof.
  unfold cbi. rewrite testbit_uint8 by (unfold LED_PACKET; lia).
  rewrite Z.land_spec, Z.lnot_spec, Z.shiftl_1_l, Z.pow2_bits_eqb by (unfold LED_PACKET; lia).
  rewrite Z.eqb_refl. apply andb_false_r.
Qed.

Lemma testbit_sbi_same (x : Z) : Z.testbit (sbi x LED_PACKET) LED_PACKET = true.
Proof.
  unfold sbi. rewrite Z.lor_spec, Z.shiftl_1_l, Z.pow2_bits_eqb by (unfold LED_PACKET; lia).
  rewrite Z.eqb_refl. apply orb_true_r.
Qed.

(** The port and the LED counter after one tick, in terms of the state
    [m] in which the edge has been dealt with. *)
Lemma ISR_led (F : Z) (pind : Z) (s : isr_state) :
  exists m : isr_state,
    ((PORTD m = PORTD s /\ led_delay m = led_delay s) \/
     (PORTD m = sbi (PORTD s) LED_PACKET /\ led_delay m = 0)) /\
    led_delay (ISR_TIMER0_COMPA F pind s) = uint16 (led_delay m + 1) /\
    PORTD (ISR_TIMER0_COMPA F pind s)
    = if SFleb (LED_DELAY F) (f32_of_Z (uint16 (led_delay m + 1)))
      then cbi (PORTD m) LED_PACKET else PORTD m.
Proof.
  unfold ISR_TIMER0_COMPA.
  set (st := Z.land pind (Z.shiftl 1 ARX)).
  set (s0 := set_tfa_old st s).
  assert (H0 : PORTD s0 = PORTD s /\ led_delay s0 = led_delay s) by (split; reflexivity).
  set (m0 := if negb (Z.land (Z.lxor st (tfa_old s)) (tfa_old s) =? 0) then set_tfa_timer 0 s0
             else if negb (Z.land (Z.lxor st (tfa_old s)) st =? 0) then isr_decode F s0
                  else s0).
  assert (Hm : (PORTD m0 = PORTD s /\ led_delay m0 = led_delay s) \/
               (PORTD m0 = sbi (PORTD s) LED_PACKET /\ led_delay m0 = 0)).
  { subst m0. destruct (negb _); [left; split; reflexivity|].
    destruct (negb _); [|left; split; reflexivity].
    destruct (isr_decode_led F s0) as [[-> ->] | (_ & _ & -> & ->)]; [left | right];
      split; reflexivity. }
  exists m0. split; [exact Hm|].
  destruct (tfa_timer m0 <? 255); isr_simpl;
    (split; [destruct (SFleb _ _); reflexivity|]);
    destruct (SFleb _ _); reflexivity.
Qed.

(** The handler and port D: apart from the pin of the packet LED no bit of
    the port ever changes; with the LED off at start, the LED is on only
    while the count of ticks since it was lit is below [LED_DELAY] (the test
    [led_delay >= LED_DELAY] of the handler fails); and the tick that
    publishes a burst lights it and restarts the count.  At 8 MHz
    [LED_DELAY] is 5000 ticks. *)
Theorem packet_led_discipline (F : Z) (t : TTFA.t) (portd : Z) (pins : list Z) :
  Z.testbit portd LED_PACKET = false ->
  let s := run F pins (isr_init t portd) in
  (forall j, 0 <= j < 8 -> j <> LED_PACKET -> Z.testbit (PORTD s) j = Z.testbit portd j) /\
  (Z.testbit (PORTD s) LED_PACKET = true ->
     ~ f32_le (LED_DELAY F) (f32_of_Z (led_delay s))) /\
  LED_DELAY F_CPU_8MHz = f32_of_Z 5000 /\
  (forall pind,
     tfa_old s = 0 -> Z.land pind (Z.shiftl 1 ARX) <> 0 ->
     classify F (tfa_timer s) = Gap -> 3 <= tfa_buf_packet s <= TFA_PACKETS ->
     ~ f32_le (LED_DELAY F) (f32_of_Z 1) ->
     Z.testbit (PORTD (ISR_TIMER0_COMPA F pind s)) LED_PACKET = true /\
     led_delay (ISR_TIMER0_COMPA F pind s) = 1).
Proof.
  intros Hoff s. split; [|split; [|split; [vm_compute; reflexivity|]]].
  - subst s. induction pins as [|p pins IH] using rev_ind; [reflexivity|].
    intros j Hj Hne. rewrite run_app. cbn [run foldl].
    fold (run F pins (isr_init t portd)).
    destruct (ISR_led F p (run F pins (isr_init t portd))) as (m & Hm & _ & ->).
    assert (Hmj : Z.testbit (PORTD m) j = Z.testbit portd j).
    { destruct Hm as [[-> _] | [-> _]]; [|rewrite testbit_sbi_other by (auto; lia)];
        apply IH; assumption. }
    destruct (SFleb _ _); [rewrite testbit_cbi_other by assumption|]; exact Hmj.
  - subst s. destruct pins as [|p pins] using rev_ind;
      [intros H; change (Z.testbit portd LED_PACKET = true) in H; congruence|].
    rewrite run_app. cbn [run foldl]. fold (run F pins (isr_init t portd)).
    destruct (ISR_led F p (run F pins (isr_init t portd))) as (m & _ & -> & ->).
    destruct (SFleb (LED_DELAY F) (f32_of_Z (uint16 (led_delay m + 1)))) eqn:E.
    + rewrite testbit_cbi_same. discriminate.
    + intros _. unfold f32_le. congruence.
  - intros pind Hold Hpin Hgap Hidx Hled.
    unfold ISR_TIMER0_COMPA. rewrite Hold, Z.lxor_0_r, Z.land_0_r, Z.land_diag.
    change (negb (0 =? 0)) with false. cbv iota.
    destruct (Z.eqb_spec (Z.land pind (Z.shiftl 1 ARX)) 0) as [E|_]; [contradiction|].
    cbv [negb].
    set (s0 := set_tfa_old (Z.land pind (Z.shiftl 1 ARX)) s).
    destruct (isr_decode_publish_led F s0 Hgap Hidx) as [HP HL].
    assert (H1 : SFleb (LED_DELAY F) (f32_of_Z (uint16 (0 + 1))) = false).
    { change (uint16 (0 + 1)) with 1. unfold f32_le in Hled.
      destruct (SFleb _ _); [now destruct Hled | reflexivity]. }
    destruct (tfa_timer (isr_decode F s0) <? 255); isr_simpl; rewrite HL, H1;
      isr_simpl; rewrite ?HP; split; try reflexivity; apply testbit_sbi_same.
Qed.

Lemma ring_idx_add (p a b : nat) :
  (p < RX_BUF_SZ)%nat -> (a + b <= RX_BUF_SZ)%nat ->
  ring_idx (ring_idx p a) b = ring_idx p (a + b).
Proof.
  unfold ring_idx, RX_BUF_SZ. intros Hp Hab.
  repeat match goal with |- context [(?x <? 128)%nat] => destruct (Nat.ltb_spec x 128) end; lia.
Qed.

Lemma ring_holds_from (p : nat) (buf : list ascii) (a : nat) (l : list ascii) :
  (p < RX_BUF_SZ)%nat -> (a + length l <= RX_BUF_SZ)%nat ->
  ring_holds p buf a l -> ring_holds (ring_idx p a) buf 0 l.
Proof.
  intros Hp Ha H m c Hm. rewrite Nat.add_0_l, ring_idx_add; [now apply H | exact Hp |].
  apply lookup_lt_Some in Hm. lia.
Qed.

Lemma word_char_starts (c : ascii) :
  is_word_char c = true -> Ascii.eqb c " " = false /\ is_terminator c = false.
Proof.
  unfold is_word_char. intros H. apply negb_true_iff in H.
  apply orb_false_iff in H as [H _]. now apply orb_false_iff in H.
Qed.

(** One call of the decoder on a receiver whose read pointer stands at the
    start of a command line. *)
Lemma serial_decode_line (r : rx_state) (cmd : list ascii) (param : option (nat * list ascii))
    (tl : list ascii) (nxt : ascii) (cbuf0 : list ascii) (par0 : option nat) (fuel : nat) :
  (rxd_read r < RX_BUF_SZ)%nat ->
  command_ok cmd param tl ->
  Ascii.eqb nxt " " = false -> is_terminator nxt = false ->
  ring_holds (rxd_read r) (rxd r) 0 (command_line cmd param tl ++ [nxt]) ->
  (length (command_line cmd param tl) < RX_BUF_SZ)%nat ->
  1 <= rxd_stat r <= 127 ->
  length cbuf0 = RX_BUF_SZ ->
  (length (command_line cmd param tl) + 2 <= fuel)%nat ->
  exists cb,
    serial_decode fuel cbuf0 par0 r
    = Some (1, cb, match param with None => None | Some _ => Some (S (length cmd)) end,
            mk_rx (rxd r) (rxd_ptr r)
                  (ring_idx (rxd_read r) (length (command_line cmd param tl)))
                  (rxd_stat r - Z.of_nat (counted tl))) /\
    take (length (decoded cmd param)) cb = decoded cmd param /\
    length cb = RX_BUF_SZ.
Proof.
  intros Hp (Hne & Hcmd & Hpar & Htl & Hcnt) Hns Hnt Hh Hlen Hst Hcb Hfuel.
  destruct cbuf0 as [|x0 rest0]; [discriminate|]. cbn [length] in Hcb.
  assert (Htl' : tl <> []) by (intros ->; cbn in Hcnt; lia).
  destruct (decode_line (rxd_read r) (rxd r) cmd param tl rest0 fuel nxt Hp Hns Hnt Hh Hcmd
              Hpar Htl Htl' Hlen Hcb Hfuel) as (rest' & Hd & Hl').
  unfold serial_decode.
  destruct (Z.ltb_spec (rxd_stat r) 1) as [Hlt|_]; [lia|].
  unfold put. cbn [com cbuf length Nat.ltb Nat.leb par ptr is_end count].
  cbn [insert list_insert]. rewrite Hd. cbn [cbuf par ptr count].
  assert (Hhead : Ascii.eqb (nth 0 (decoded cmd param ++ rest') NUL) NUL = false).
  { destruct cmd as [|c0 cmd']; [contradiction|]. cbn.
    cbn [forallb] in Hcmd. apply andb_prop in Hcmd as [Hc0' _].
    unfold is_word_char in Hc0'. apply negb_true_iff in Hc0'.
    now apply orb_false_iff in Hc0' as [_ Hn]. }
  rewrite Hhead.
  pose proof (counted_le tl) as Hle.
  assert (Hs : sint8 (rxd_stat r - Z.of_nat (counted tl)) = rxd_stat r - Z.of_nat (counted tl)).
  { assert (Hb : Z.of_nat (counted tl) <= 127).
    { unfold command_line in Hlen. rewrite !length_app in Hlen. unfold RX_BUF_SZ in *. lia. }
    unfold sint8. rewrite Z.mod_small by lia. lia. }
  rewrite Hs. eexists. split; [reflexivity|]. split.
  - rewrite take_app_length. reflexivity.
  - rewrite Hl'. exact Hcb.
Qed.

(** Two command lines received one behind the other into an idle receiver
    before the main loop looks: the first call of [serial_decode] delivers
    the first command and leaves the second pending, the second call
    delivers the second command and leaves the receiver idle. *)
Theorem queued_commands_are_decoded_in_order
    (cmd1 cmd2 : list ascii) (param1 param2 : option (nat * list ascii))
    (tl1 tl2 : list ascii) (r : rx_state) (cbuf0 : list ascii) (par0 : option nat)
    (fuel : nat) :
  rx_idle r ->
  command_ok cmd1 param1 tl1 -> command_ok cmd2 param2 tl2 ->
  let line1 := command_line cmd1 param1 tl1 in
  let line2 := command_line cmd2 param2 tl2 in
  (length (line1 ++ line2) < RX_BUF_SZ)%nat ->
  length cbuf0 = RX_BUF_SZ ->
  (length (line1 ++ line2) + 2 <= fuel)%nat ->
  let par_of (cmd : list ascii) (param : option (nat * list ascii)) :=
    match param with None => None | Some _ => Some (S (length cmd)) end in
  exists cb1 r2 cb2 r3,
    serial_decode fuel cbuf0 par0 (receive (line1 ++ line2) r)
    = Some (1, cb1, par_of cmd1 param1, r2) /\
    take (length (decoded cmd1 param1)) cb1 = decoded cmd1 param1 /\
    rxd_stat r2 = Z.of_nat (counted tl2) /\
    serial_decode fuel cb1 (par_of cmd1 param1) r2 = Some (1, cb2, par_of cmd2 param2, r3) /\
    take (length (decoded cmd2 param2)) cb2 = decoded cmd2 param2 /\
    rx_idle r3.
Proof.
  intros (Hl & Hp & Hrd & Hst) Hok1 Hok2 line1 line2 Hlen Hcb Hfuel par_of.
  subst line1 line2.
  set (line1 := command_line cmd1 param1 tl1) in *.
  set (line2 := command_line cmd2 param2 tl2) in *.
  rewrite length_app in Hlen, Hfuel.
  destruct (receive_spec (line1 ++ line2) r Hl Hp ltac:(rewrite length_app; lia) ltac:(lia)
              ltac:(rewrite length_app; unfold RX_BUF_SZ in *; lia))
    as (Hl1 & Hp1 & Hrd1 & Hs1 & Hh & Hnul & _). cbv zeta in *.
  set (r1 := receive (line1 ++ line2) r) in *.
  rewrite length_app in Hp1.
  assert (Hline2 : line2 <> []).
  { destruct Hok2 as (Hne2 & _). subst line2. unfold command_line.
    destruct cmd2; [contradiction | discriminate]. }
  specialize (Hnul ltac:(intros E; apply app_eq_nil in E as [_ E]; contradiction)).
  rewrite Hp1 in Hnul.
  (* the counters of the two lines *)
  assert (Hcount : forall cmd param tl, command_ok cmd param tl ->
            counted (command_line cmd param tl) = counted tl).
  { intros cmd param tl (_ & Hcmd & Hpar & _).
    unfold command_line. rewrite app_assoc, counted_app.
    rewrite counted_none; [reflexivity|]. apply Forall_app. split.
    - apply Forall_forall. intros c Hc. rewrite forallb_forall in Hcmd.
      specialize (Hcmd c ltac:(now apply list_elem_of_In)).
      now apply word_char_starts in Hcmd.
    - destruct param as [[k arg]|]; [|constructor]. destruct Hpar as [Harg _].
      apply Forall_app. split.
      + apply Forall_forall. intros c Hc. apply list_elem_of_In, repeat_spec in Hc.
        subst c. reflexivity.
      + apply Forall_forall. intros c Hc. rewrite forallb_forall in Harg.
        specialize (Harg c ltac:(now apply list_elem_of_In)).
        unfold is_par_char in Harg. now apply negb_true_iff in Harg. }
  rewrite counted_app in Hs1.
  assert (Hk1 : counted line1 = counted tl1) by exact (Hcount _ _ _ Hok1).
  assert (Hk2 : counted line2 = counted tl2) by exact (Hcount _ _ _ Hok2).
  rewrite Hk1, Hk2, Hst in Hs1.
  pose proof (counted_le tl1) as Hle1. pose proof (counted_le tl2) as Hle2.
  assert (Hb1 : (length tl1 <= length line1)%nat)
    by (subst line1; unfold command_line; rewrite !length_app; lia).
  assert (Hb2 : (length tl2 <= length line2)%nat)
    by (subst line2; unfold command_line; rewrite !length_app; lia).
  (* the first character of the second line *)
  assert (Hhd : exists c2 rest2, line2 = c2 :: rest2 /\ is_word_char c2 = true).
  { destruct Hok2 as (Hne2 & Hw & _). subst line2. unfold command_line.
    destruct cmd2 as [|c2 cmd2']; [contradiction|].
    cbn [forallb] in Hw. apply andb_prop in Hw as [Hw _].
    eexists. eexists. split; [reflexivity | exact Hw]. }
  destruct Hhd as (c2 & rest2 & E2 & Hc2).
  apply word_char_starts in Hc2 as [Hns2 Hnt2].
  apply ring_holds_app in Hh as [Hh1 Hh2].
  assert (Hfirst : ring_holds (rxd_read r1) (rxd r1) 0 (line1 ++ [c2])).
  { rewrite Hrd1, Hrd. apply ring_holds_app. split; [exact Hh1|].
    rewrite E2 in Hh2. apply ring_holds_cons in Hh2 as [Hh2 _].
    apply ring_holds_cons. split; [exact Hh2|]. intros m c Hm. discriminate. }
  destruct (serial_decode_line r1 cmd1 param1 tl1 c2 cbuf0 par0 fuel
              ltac:(rewrite Hrd1, Hrd; exact Hp) Hok1 Hns2 Hnt2 Hfirst ltac:(fold line1; lia)
              ltac:(rewrite Hs1; destruct Hok1 as (_ & _ & _ & _ & ?);
                    unfold RX_BUF_SZ in *; lia)
              Hcb ltac:(fold line1; lia)) as (cb1 & Hd1 & Ht1 & Hlcb1).
  fold line1 in Hd1. rewrite Hs1, Hrd1, Hrd in Hd1.
  replace (0 + Z.of_nat (counted tl1 + counted tl2) - Z.of_nat (counted tl1))
    with (Z.of_nat (counted tl2)) in Hd1 by lia.
  set (r2 := mk_rx (rxd r1) (rxd_ptr r1) (ring_idx (rxd_ptr r) (length line1))
                   (Z.of_nat (counted tl2))) in *.
  assert (Hsecond : ring_holds (rxd_read r2) (rxd r2) 0 (line2 ++ [NUL])).
  { cbn [r2 rxd_read rxd]. apply ring_holds_from; [exact Hp | |].
    - rewrite length_app. cbn [length]. unfold RX_BUF_SZ in *. lia.
    - apply ring_holds_app. split; [exact Hh2|].
      apply ring_holds_cons. split; [|intros m c Hm; discriminate].
      exact Hnul. }
  destruct (serial_decode_line r2 cmd2 param2 tl2 NUL cb1 (par_of cmd1 param1) fuel
              ltac:(cbn [r2 rxd_read]; apply ring_idx_lt; [exact Hp | unfold RX_BUF_SZ in *; lia])
              Hok2 eq_refl eq_refl Hsecond ltac:(fold line2; lia)
              ltac:(cbn [r2 rxd_stat]; destruct Hok2 as (_ & _ & _ & _ & ?);
                    unfold RX_BUF_SZ in *; lia)
              Hlcb1 ltac:(fold line2; lia)) as (cb2 & Hd2 & Ht2 & _).
  fold line2 in Hd2.
  exists cb1, r2, cb2. eexists.
  split; [exact Hd1|]. split; [exact Ht1|]. split; [reflexivity|].
  split; [exact Hd2|]. split; [exact Ht2|].
  unfold rx_idle. cbn [r2 rxd rxd_ptr rxd_read rxd_stat].
  split; [exact Hl1|]. split.
  - rewrite Hp1. apply ring_idx_lt; [exact Hp | unfold RX_BUF_SZ in *; lia].
  - split; [|lia]. rewrite Hp1. apply ring_idx_add; [exact Hp | unfold RX_BUF_SZ in *; lia].
Qed.

Lemma queued_commands_are_decoded_in_order_witness :
  exists cb1 r2 cb2 r3,
    serial_decode 40 (repeat "x"%char RX_BUF_SZ) None
      (receive (command_line sync_2_cmd sync_2_param [";"%char]
                ++ command_line count_cmd None [LF]) rx_example)
    = Some (1, cb1, Some 9%nat, r2) /\
    serial_decode 40 cb1 (Some 9%nat) r2 = Some (1, cb2, None, r3) /\
    take 11 cb2 = count_cmd ++ [NUL].
Proof.
  destruct (queued_commands_are_decoded_in_order sync_2_cmd count_cmd sync_2_param None
              [";"%char] [LF] rx_example (repeat "x"%char RX_BUF_SZ) None 40)
    as (cb1 & r2 & cb2 & r3 & H1 & _ & _ & H2 & H3 & _).
  - repeat split; vm_compute; lia.
  - repeat split; try reflexivity; try discriminate; vm_compute; lia.
  - repeat split; try reflexivity; try discriminate; vm_compute; lia.
  - vm_compute. lia.
  - reflexivity.
  - vm_compute. lia.
  - exists cb1, r2, cb2, r3. split; [exact H1|]. split; [exact H2 | exact H3].
Defined.

Lemma packet_led_discipline_witness :
  Z.testbit (PORTD (run F_CPU_8MHz [4; 0; 4] (isr_init tfa_zero 0x41))) 6
  = Z.testbit 0x41 6.
Proof.
  destruct (packet_led_discipline F_CPU_8MHz tfa_zero 0x41 [4; 0; 4] eq_refl) as [H _].
  apply (H 6); [lia | discriminate].
Defined.

Lemma sint8_range (z : Z) : -128 <= sint8 z <= 127.
Proof. unfold sint8. pose proof (Z.mod_pos_bound (z + 128) 256 ltac:(lia)). lia. Qed.

Lemma sint8_add_l (a b : Z) : sint8 (sint8 a + b) = sint8 (a + b).
Proof.
  unfold sint8. f_equal.
  replace ((a + 128) mod 256 - 128 + b + 128) with ((a + 128) mod 256 + b) by lia.
  rewrite Zplus_mod_idemp_l. f_equal. lia.
Qed.

Lemma wrap_mod (p : nat) :
  (p < RX_BUF_SZ)%nat -> serial_fifo_wrap (S p) = (S p mod RX_BUF_SZ)%nat.
Proof.
  unfold serial_fifo_wrap, RX_BUF_SZ. intros Hp.
  destruct (Nat.leb_spec 128 (S p)).
  - replace (S p) with 128%nat by lia. reflexivity.
  - symmetry. apply Nat.mod_small. lia.
Qed.

(** The receive interrupt keeps its statics in bounds for any stream,
    however long: the buffer keeps its 128 bytes, the write pointer stays
    inside it and has advanced by the number of bytes modulo 128, the byte
    under it is NUL, and the read pointer is not touched.  The counter of
    pending commands is the number of [;] and LF received, in 8-bit signed
    arithmetic: it wraps to -128 with the 128th pending terminator. *)
Theorem receiver_keeps_its_bounds (bytes : list ascii) (r : rx_state) :
  length (rxd r) = RX_BUF_SZ -> (rxd_ptr r < RX_BUF_SZ)%nat ->
  -128 <= rxd_stat r <= 127 ->
  let r' := receive bytes r in
  length (rxd r') = RX_BUF_SZ /\
  (rxd_ptr r' < RX_BUF_SZ)%nat /\
  rxd_ptr r' = ((rxd_ptr r + length bytes) mod RX_BUF_SZ)%nat /\
  (bytes <> [] -> nth (rxd_ptr r') (rxd r') NUL = NUL) /\
  rxd_read r' = rxd_read r /\
  rxd_stat r' = sint8 (rxd_stat r + Z.of_nat (counted bytes)).
Proof.
  revert r. induction bytes as [|b bytes IH]; intros r Hl Hp Hs; cbv zeta.
  - cbn [receive foldl length]. rewrite Nat.add_0_r, Nat.mod_small by exact Hp.
    split; [exact Hl|]. split; [exact Hp|]. split; [reflexivity|].
    split; [intros H; contradiction|]. split; [reflexivity|].
    unfold counted. cbn. rewrite Z.add_0_r. unfold sint8. rewrite Z.mod_small by lia. lia.
  - unfold receive. cbn [foldl]. fold (receive bytes (ISR_USART0_RX b r)).
    set (r1 := ISR_USART0_RX b r).
    assert (Hp1 : rxd_ptr r1 = (S (rxd_ptr r) mod RX_BUF_SZ)%nat) by (apply wrap_mod; exact Hp).
    assert (Hp1' : (rxd_ptr r1 < RX_BUF_SZ)%nat).
    { rewrite Hp1. apply Nat.mod_upper_bound. discriminate. }
    assert (Hl1 : length (rxd r1) = RX_BUF_SZ) by (cbn; rewrite !length_insert; exact Hl).
    assert (Hs1 : rxd_stat r1 = sint8 (rxd_stat r + Z.of_nat (counted [b]))).
    { cbn [r1 ISR_USART0_RX rxd_stat]. unfold counted. cbn [List.filter].
      destruct (Ascii.eqb b LF || Ascii.eqb b ";"); cbn [length]; [reflexivity|].
      rewrite Z.add_0_r. unfold sint8. rewrite Z.mod_small by lia. lia. }
    assert (Hn1 : nth (rxd_ptr r1) (rxd r1) NUL = NUL).
    { cbn [r1 ISR_USART0_RX rxd rxd_ptr]. apply nth_insert_eq. rewrite length_insert.
      change (serial_fifo_wrap (S (rxd_ptr r))) with (rxd_ptr r1). lia. }
    destruct (IH r1 Hl1 Hp1' ltac:(rewrite Hs1; apply sint8_range))
      as (Il & Ip & Im & In & Ir & Is). cbv zeta in *.
    split; [exact Il|]. split; [exact Ip|]. split.
    { rewrite Im, Hp1. cbn [length]. rewrite Nat.Div0.add_mod_idemp_l. f_equal. lia. }
    split.
    { intros _. destruct bytes as [|b' bytes']; [exact Hn1 | apply In; discriminate]. }
    split; [rewrite Ir; reflexivity|].
    rewrite Is, Hs1, sint8_add_l. f_equal.
    change (b :: bytes) with ([b] ++ bytes). rewrite counted_app. lia.
Qed.

Lemma receiver_keeps_its_bounds_witness :
  rxd_stat (receive (repeat ";"%char 128) rx_example) = -128 /\
  rxd_ptr (receive (repeat ";"%char 128) rx_example) = 0%nat.
Proof.
  destruct (receiver_keeps_its_bounds (repeat ";"%char 128) rx_example)
    as (_ & _ & Hp & _ & _ & Hs).
  - reflexivity.
  - vm_compute. lia.
  - vm_compute. split; discriminate.
  - split; [rewrite Hs | rewrite Hp]; reflexivity.
Defined.

(** * Reading back over SCPI what the packet processing stored *)

Lemma tfa_parse_of_packet (t : TTFA.t) (r : reading) :
  valid_reading r -> TTFA.packet t = encode_bytes r ->
  tfa_parse t = (if r_type r =? TFA_TYPE then 1 else 0, sensor_of_reading r).
Proof.
  intros Hr Hp. destruct t as [d n pk f]. cbn [TTFA.packet] in Hp. subst pk.
  now apply tfa_parse_encode_bytes.
Qed.

(** The last reconciled packet, read with [TFA:DATA?] without a channel.
    After the packet processing has taken a burst whose majority is the frame
    of a valid reading, outside talk mode: [TFA:DATA:NEW?] answers 1; for a
    reading of type 0x90 [TFA:DATA?] prints that reading, for any other type
    it sends the parse-error text and prints nothing; in both cases it takes
    back the unread flag, so that [TFA:DATA:NEW?] then answers 0, and leaves
    the slots and the reconciled packet as they are. *)
Theorem last_packet_is_read_back (atoi : string -> Z) (st : main_state) (r : reading)
    (e : err_state) (o : string) :
  Z.land (TTFA.flags (tfa st)) TFA_NEW_PACKETS <> 0 ->
  1 <= TTFA.packets (tfa st) <= 7 ->
  length (TTFA.data (tfa st)) = 7%nat ->
  Forall (fun row => length row = TFA_BUF_BYTES) (TTFA.data (tfa st)) ->
  valid_reading r ->
  (4 <= occurrences (encode_bytes r)
          (take (Z.to_nat (TTFA.packets (tfa st))) (TTFA.data (tfa st))))%nat ->
  length (sensors st) = 3%nat ->
  Z.land (TSystem.flags (syst st)) SYST_TALK = 0 ->
  exists m sc0 sc1 sc2,
    main_process st = Some m /\
    scpi_TFA_DATA_NEW atoi None (mk_scpi m e o) = Some sc0 /\
    out sc0 = (o ++ "1" ++ nl)%string /\
    scpi_TFA_DATA atoi None (mk_scpi m e o) = Some sc1 /\
    (r_type r = TFA_TYPE ->
       out sc1 = o /\
       tx (locals sc1)
       = tx st ++ [(negb (Z.land (TSystem.flags (syst st)) SYST_HEAD =? 0),
                    sensor_of_reading r)]) /\
    (r_type r <> TFA_TYPE ->
       out sc1 = (o ++ "error parsing data: unknown sensor type?" ++ nl)%string /\
       tx (locals sc1) = tx st) /\
    sensors (locals sc1) = sensors m /\
    TTFA.packet (tfa (locals sc1)) = encode_bytes r /\
    scpi_TFA_DATA_NEW atoi None sc1 = Some sc2 /\
    out sc2 = (out sc1 ++ "0" ++ nl)%string.
Proof.
  intros Hf Hp Hlen Hwf Hr Hocc Hs Hsil.
  pose proof (main_process_majority st r Hf Hp Hlen Hwf Hr Hocc) as Hm. cbv zeta in Hm.
  set (t' := TTFA.mk _ _ _ _) in Hm.
  assert (Hmm : exists m, main_process st = Some m /\ TTFA.packet (tfa m) = encode_bytes r /\
                  TTFA.flags (tfa m) = TTFA.flags t' /\ tx m = tx st /\
                  TSystem.flags (syst m) = TSystem.flags (syst st)).
  { destruct (Z.eqb_spec (r_type r) TFA_TYPE) as [Ety|Ety].
    - destruct (accept_fields (sensor_of_reading r) (mk_main t' (syst st) (sensors st) (tx st)) Hs)
        as (m & Ha & _ & Hfl & _ & _ & Hpkt & _ & Hsil' & _).
      cbn [tfa syst sensors tx] in *. destruct (Hsil' Hsil) as [Htx Hflags].
      exists m. rewrite Hm. split; [exact Ha|]. split; [exact Hpkt|].
      split; [exact Hflags|]. split; [exact Htx | exact Hfl].
    - eexists. split; [exact Hm|]. cbn [tfa syst tx]. repeat split. }
  destruct Hmm as (m & Hmain & Hpkt & Hflags & Htx & Hsf).
  assert (Hnew : Z.land (TTFA.flags (tfa m)) TFA_NEW_PACKET <> 0).
  { rewrite Hflags. subst t'. cbn [TTFA.flags]. apply land_NEW_PACKET_set. }
  pose proof (tfa_parse_of_packet (tfa m) r Hr Hpkt) as Hparse.
  assert (Hd : exists sc1,
            scpi_TFA_DATA atoi None (mk_scpi m e o) = Some sc1 /\
            tfa (locals sc1) = clear_new_packet (tfa m) /\ sensors (locals sc1) = sensors m /\
            (r_type r = TFA_TYPE ->
               out sc1 = o /\
               tx (locals sc1)
               = tx st ++ [(negb (Z.land (TSystem.flags (syst st)) SYST_HEAD =? 0),
                            sensor_of_reading r)]) /\
            (r_type r <> TFA_TYPE ->
               out sc1 = (o ++ "error parsing data: unknown sensor type?" ++ nl)%string /\
               tx (locals sc1) = tx st)).
  { unfold scpi_TFA_DATA. cbn [channel_refused channel_par Z.eqb locals out err].
    rewrite Hparse. destruct (Z.eqb_spec (r_type r) TFA_TYPE) as [Ety|Ety]; cbn [negb Z.eqb].
    - eexists. split; [reflexivity|]. cbn [locals tfa sensors tx out syst].
      split; [reflexivity|]. split; [reflexivity|]. split; [|intros; contradiction].
      intros _. split; [reflexivity|]. unfold tfa_print_sensor. rewrite Htx, Hsf. reflexivity.
    - eexists. split; [reflexivity|]. cbn [locals tfa sensors tx out syst].
      split; [reflexivity|]. split; [reflexivity|]. split; [intros; contradiction|].
      intros _. split; [reflexivity | exact Htx]. }
  destruct Hd as (sc1 & Hd & Htfa1 & Hsl1 & Hok & Hbad).
  exists m. eexists. exists sc1. eexists.
  split; [exact Hmain|]. split; [reflexivity|]. split.
  { cbn [out locals tfa channel_par Z.eqb]. apply Z.eqb_neq in Hnew. rewrite Hnew. reflexivity. }
  split; [exact Hd|]. split; [exact Hok|]. split; [exact Hbad|]. split; [exact Hsl1|].
  split; [rewrite Htfa1; exact Hpkt|]. split; [reflexivity|].
  cbn [out locals channel_par Z.eqb]. rewrite Htfa1. cbn [clear_new_packet TTFA.flags].
  rewrite land_NEW_PACKET_cleared. reflexivity.
Qed.

Lemma last_packet_is_read_back_witness :
  exists m sc1,
    main_process (with_syst (TSystem.mk 41 SYST_HEAD) main_other_type_example) = Some m /\
    scpi_TFA_DATA atoi_digit None (mk_scpi m err_init "") = Some sc1 /\
    out sc1 = ("error parsing data: unknown sensor type?" ++ nl)%string.
Proof.
  destruct (last_packet_is_read_back atoi_digit
              (with_syst (TSystem.mk 41 SYST_HEAD) main_other_type_example)
              reading_other_type err_init "")
    as (m & _ & sc1 & _ & Hm & _ & _ & Hd & _ & Hbad & _).
  - vm_compute. discriminate.
  - vm_compute. split; discriminate.
  - reflexivity.
  - repeat constructor.
  - vm_compute. intuition discriminate.
  - vm_compute. lia.
  - reflexivity.
  - reflexivity.
  - exists m, sc1. split; [exact Hm|]. split; [exact Hd|].
    apply Hbad. vm_compute. discriminate.
Defined.

Lemma accept_keeps_three_slots (sensor : TSensor.t) (m m' : main_state) :
  length (sensors m) = 3%nat -> accept sensor m = Some m' -> length (sensors m') = 3%nat.
Proof.
  intros Hlen Ha. destruct (accept_fields sensor m Hlen) as (m2 & Ha2 & Hrest).
  rewrite Ha in Ha2. injection Ha2 as <-.
  destruct Hrest as (_ & _ & _ & _ & _ & _ & _ & ->).
  repeat match goal with
         | |- context [if ?b then _ else _] => destruct b
         | |- context [match ?x with _ => _ end] => destruct x
         end; rewrite ?length_insert; exact Hlen.
Qed.

Lemma accept_all_snoc (readings : list TSensor.t) (x : TSensor.t) (m : main_state) :
  accept_all (readings ++ [x]) m
  = match accept_all readings m with Some m' => accept x m' | None => None end.
Proof. unfold accept_all. now rewrite foldl_app. Qed.

Lemma accept_all_counts (readings : list TSensor.t) (m : main_state) :
  length (sensors m) = 3%nat ->
  0 <= TSystem.packets (syst m) < 65536 ->
  exists m',
    accept_all readings m = Some m' /\ length (sensors m') = 3%nat /\
    TSystem.flags (syst m') = TSystem.flags (syst m) /\
    TSystem.packets (syst m')
    = uint16 (TSystem.packets (syst m) + Z.of_nat (length readings)).
Proof.
  intros Hlen Hp. induction readings as [|x readings IH] using rev_ind.
  - exists m. split; [reflexivity|]. split; [exact Hlen|]. split; [reflexivity|].
    cbn [length]. unfold uint16. rewrite Z.add_0_r, Z.mod_small; [reflexivity | exact Hp].
  - destruct IH as (m1 & Ha & Hl1 & Hf1 & Hp1).
    destruct (accept_fields x m1 Hl1) as (m2 & Ha2 & Hp2 & Hf2 & _).
    exists m2. rewrite accept_all_snoc, Ha.
    split; [exact Ha2|]. split; [exact (accept_keeps_three_slots x m1 m2 Hl1 Ha2)|].
    split; [congruence|].
    rewrite Hp2, Hp1, length_app. cbn [length]. unfold uint16.
    rewrite Zplus_mod_idemp_l. f_equal. lia.
Qed.

(** The packet counter, seen through its two commands.  [TFA:COUNT:RESET]
    without a parameter sets the counter to zero and changes nothing else;
    every reading given to the accept path afterwards counts once, whatever
    its channel and identity, the 16-bit counter wrapping at 65536; and
    [TFA:COUNT?] then sends the count in decimal with a line feed, leaving the
    state as it is.  With a parameter either command changes nothing but the
    error memory. *)
Theorem packet_counter_counts_accepted_readings
    (readings : list TSensor.t) (st : scpi_state) :
  length (sensors (locals st)) = 3%nat ->
  exists st0 m',
    scpi_TFA_COUNT_RESET None st = Some st0 /\
    TSystem.packets (syst (locals st0)) = 0 /\
    TSystem.flags (syst (locals st0)) = TSystem.flags (syst (locals st)) /\
    sensors (locals st0) = sensors (locals st) /\
    tfa (locals st0) = tfa (locals st) /\
    err st0 = err st /\ out st0 = out st /\
    accept_all readings (locals st0) = Some m' /\
    TSystem.packets (syst m') = Z.of_nat (length readings) mod 65536 /\
    scpi_TFA_COUNT None (mk_scpi m' (err st) (out st))
    = Some (mk_scpi m' (err st)
                    (out st ++ decimal (Z.of_nat (length readings) mod 65536) ++ nl)%string) /\
    (forall p : string,
       scpi_TFA_COUNT_RESET (Some p) st
       = Some (mk_scpi (locals st)
                       (mk_err (uint16 SCPI_ERR_wrongParamType)
                               (Some "No parameters expected for TFA:COUNT:RESET"%string) 0)
                       (out st)) /\
       scpi_TFA_COUNT (Some p) st
       = Some (mk_scpi (locals st)
                       (mk_err (uint16 SCPI_ERR_wrongParamType)
                               (Some "No parameters expected for TFA:COUNT?"%string) 0)
                       (out st))).
Proof.
  intros Hlen.
  destruct (accept_all_counts readings
              (with_syst (TSystem.mk 0 (TSystem.flags (syst (locals st)))) (locals st)))
    as (m' & Ha & _ & _ & Hp); [exact Hlen | cbn; lia |].
  cbn [with_syst syst TSystem.packets] in Hp. rewrite Z.add_0_l in Hp.
  exists (mk_scpi (with_syst (TSystem.mk 0 (TSystem.flags (syst (locals st)))) (locals st))
                  (err st) (out st)), m'.
  split; [reflexivity|]. split; [reflexivity|]. split; [reflexivity|].
  split; [reflexivity|]. split; [reflexivity|]. split; [reflexivity|].
  split; [reflexivity|]. split; [exact Ha|]. split; [exact Hp|].
  split.
  - unfold scpi_TFA_COUNT, serial_tx_str, decimal. cbn [locals err out]. rewrite Hp.
    reflexivity.
  - intros p. split; reflexivity.
Qed.

Lemma packet_counter_counts_accepted_readings_witness :
  exists m',
    accept_all [reading_id9_chn2; reading_chn4; reading_id5_chn2] 
               (with_syst (TSystem.mk 0 SYST_HEAD) (locals scpi_example)) = Some m' /\
    scpi_TFA_COUNT None (mk_scpi m' (err scpi_example) (out scpi_example))
    = Some (mk_scpi m' (err scpi_example) ("3" ++ nl)%string).
Proof.
  destruct (packet_counter_counts_accepted_readings
              [reading_id9_chn2; reading_chn4; reading_id5_chn2] scpi_example)
    as (st0 & m' & Hr & _ & _ & _ & _ & _ & _ & Ha & _ & Hc & _).
  - reflexivity.
  - injection Hr as <-. exists m'. split; [exact Ha | exact Hc].
Defined.
